(** * Progressive tax calculators (cn_tax.py, us_tax.py): model and properties

    The two Python modules compute with [float].  They are modelled twice.

    - On [pyfloat], for the statements about all inputs.  A finite value is
      an exact rational and an operation on finite values is the exact
      operation: the rounding and the overflow of IEEE-754 doubles are left
      out.  The three special values that the programs can meet are kept,
      because the bracket tables contain [float('inf')] and [float(input())]
      accepts "inf", "-inf" and "nan".  Python's [min], [max] and
      comparisons are modelled on all four shapes, with their behaviour on
      NaN.  Comparisons, [min] and [max] do not round; sums, differences,
      products and quotients do, so a statement about them is a statement
      about the computation in exact arithmetic.
    - In module [binary64], on the kernel's binary64 floats, with the
      rounding of the running program.  These definitions are evaluated on
      concrete inputs, and tell where rounding makes the program leave a
      statement that holds in exact arithmetic.

    A dictionary with a fixed set of literal keys is a record; a dictionary
    indexed by a filing status coming from the caller is a [gmap string _],
    and a missing key raises [KeyError]. *)

From Stdlib Require Import QArith Qminmax Lqa List Bool PrimFloat.
From stdpp Require Import gmap strings.
Import ListNotations.

Local Open Scope Q_scope.

(** ** Python floats *)

Inductive pyfloat : Type :=
| Fin (q : Q)
| PInf
| NInf
| NaN.

Declare Scope py_scope.
Delimit Scope py_scope with py.
Bind Scope py_scope with pyfloat.

Definition Qlt_bool (x y : Q) : bool := negb (Qle_bool y x).

(** Sign of an infinite product, from the comparison of the finite factor
    with zero; [0 * inf] is NaN. *)
Definition inf_of_sign (c : comparison) : pyfloat :=
  match c with
  | Gt => PInf
  | Lt => NInf
  | Eq => NaN
  end.

Definition fneg (a : pyfloat) : pyfloat :=
  match a with
  | Fin x => Fin (- x)
  | PInf => NInf
  | NInf => PInf
  | NaN => NaN
  end.

Definition fadd (a b : pyfloat) : pyfloat :=
  match a, b with
  | NaN, _ | _, NaN => NaN
  | Fin x, Fin y => Fin (x + y)
  | PInf, NInf | NInf, PInf => NaN
  | PInf, _ | _, PInf => PInf
  | NInf, _ | _, NInf => NInf
  end.

Definition fsub (a b : pyfloat) : pyfloat :=
  match a, b with
  | NaN, _ | _, NaN => NaN
  | Fin x, Fin y => Fin (x - y)
  | PInf, PInf | NInf, NInf => NaN
  | PInf, _ | _, NInf => PInf
  | NInf, _ | _, PInf => NInf
  end.

Definition fmul (a b : pyfloat) : pyfloat :=
  match a, b with
  | NaN, _ | _, NaN => NaN
  | Fin x, Fin y => Fin (x * y)
  | Fin x, PInf | PInf, Fin x => inf_of_sign (x ?= 0)
  | Fin x, NInf | NInf, Fin x => inf_of_sign (0 ?= x)
  | PInf, PInf | NInf, NInf => PInf
  | PInf, NInf | NInf, PInf => NInf
  end.

(** [a / d] for a positive literal [d]; the only division of the two modules
    is [tax / 12]. *)
Definition fdiv_lit (a : pyfloat) (d : Q) : pyfloat :=
  match a with
  | Fin x => Fin (x / d)
  | other => other
  end.

(** [a / b] on two floats.  A zero divisor raises ZeroDivisionError, which
    is the [None] of this function, whatever the dividend; otherwise NaN is
    absorbing, [inf / inf] is NaN, a finite value over an infinity is 0 and
    an infinity over a finite value keeps or flips its sign. *)
Definition py_div (a b : pyfloat) : option pyfloat :=
  match b with
  | Fin y =>
      if Qeq_bool y 0 then None
      else Some match a with
                | Fin x => Fin (x / y)
                | PInf => inf_of_sign (y ?= 0)
                | NInf => inf_of_sign (0 ?= y)
                | NaN => NaN
                end
  | PInf | NInf =>
      Some match a with
           | Fin _ => Fin 0
           | _ => NaN
           end
  | NaN => Some NaN
  end.

(** [a < b]; every comparison with NaN is false. *)
Definition flt (a b : pyfloat) : bool :=
  match a, b with
  | NaN, _ | _, NaN => false
  | Fin x, Fin y => Qlt_bool x y
  | _, NInf => false
  | PInf, _ => false
  | NInf, _ => true
  | Fin _, PInf => true
  end.

(** [a <= b] *)
Definition fle (a b : pyfloat) : bool :=
  match a, b with
  | NaN, _ | _, NaN => false
  | Fin x, Fin y => Qle_bool x y
  | NInf, _ => true
  | _, PInf => true
  | PInf, _ => false
  | Fin _, NInf => false
  end.

Definition fgt (a b : pyfloat) : bool := flt b a.

Infix "+" := fadd : py_scope.
Infix "-" := fsub : py_scope.
Infix "*" := fmul : py_scope.
Infix "<?" := flt : py_scope.
Infix "<=?" := fle : py_scope.
Infix ">?" := fgt (at level 70) : py_scope.

(** Python's [min(a, b)]: the first argument is kept unless the second is
    strictly smaller. *)
Definition py_min (a b : pyfloat) : pyfloat := if flt b a then b else a.

(** Python's [max(a, b)]: the first argument is kept unless the second is
    strictly greater. *)
Definition py_max (a b : pyfloat) : pyfloat := if fgt b a then b else a.

(** Two floats denote the same value. *)
Definition feq (a b : pyfloat) : Prop :=
  match a, b with
  | Fin x, Fin y => x == y
  | PInf, PInf | NInf, NInf | NaN, NaN => True
  | _, _ => False
  end.

Infix "=f=" := feq (at level 70, no associativity).

Definition is_nan (a : pyfloat) : bool :=
  match a with
  | NaN => true
  | _ => false
  end.

(** ** Exceptions *)

Inductive exn : Type :=
| KeyError (key : string).

Inductive result (A : Type) : Type :=
| Ok (a : A)
| Raise (e : exn).
Arguments Ok {A} a.
Arguments Raise {A} e.

#[global] Instance result_ret : MRet result := fun A a => Ok a.

#[global] Instance result_bind : MBind result := fun A B k m =>
  match m with
  | Ok a => k a
  | Raise e => Raise e
  end.

(** [d[key]] on a Python dict *)
Definition dict_get {A : Type} (d : gmap string A) (key : string) : result A :=
  match d !! key with
  | Some v => Ok v
  | None => Raise (KeyError key)
  end.

(** ** cn_tax.py *)

Module cn_tax.

Local Open Scope py_scope.

(** class TaxConstants *)
Module TaxConstants.
Definition TAX_FREE_THRESHOLD : pyfloat := Fin 5000.

  (** A bracket is the tuple [(lower, upper, rate)]. *)
Definition TAX_BRACKETS : list (pyfloat * pyfloat * pyfloat) :=
    [ (Fin 0, Fin 36000, Fin 0.03);
      (Fin 36000, Fin 144000, Fin 0.10);
      (Fin 144000, Fin 300000, Fin 0.20);
      (Fin 300000, Fin 420000, Fin 0.25);
      (Fin 420000, Fin 660000, Fin 0.30);
      (Fin 660000, Fin 960000, Fin 0.35);
      (Fin 960000, PInf, Fin 0.45) ].

Definition SOCIAL_INSURANCE_BASE_MIN : pyfloat := Fin 3613.
Definition SOCIAL_INSURANCE_BASE_MAX : pyfloat := Fin 31884.
Definition HOUSING_FUND_BASE_MIN : pyfloat := Fin 3613.
Definition HOUSING_FUND_BASE_MAX : pyfloat := Fin 31884.

Definition PENSION_RATE : pyfloat := Fin 0.08.
Definition MEDICAL_RATE : pyfloat := Fin 0.02.
Definition UNEMPLOYMENT_RATE : pyfloat := Fin 0.005.
Definition INJURY_RATE : pyfloat := Fin 0.
Definition MATERNITY_RATE : pyfloat := Fin 0.
Definition HOUSING_FUND_RATE : pyfloat := Fin 0.12.

Definition EMPLOYER_PENSION_RATE : pyfloat := Fin 0.16.
Definition EMPLOYER_MEDICAL_RATE : pyfloat := Fin 0.095.
Definition EMPLOYER_UNEMPLOYMENT_RATE : pyfloat := Fin 0.005.
Definition EMPLOYER_INJURY_RATE : pyfloat := Fin 0.004.
Definition EMPLOYER_MATERNITY_RATE : pyfloat := Fin 0.008.
Definition EMPLOYER_HOUSING_FUND_RATE : pyfloat := Fin 0.12.

(** class SpecialDeductionLimits; a city name is the string of its UTF-8
    bytes, on which equality is the equality of Python's [str]. *)
Module SpecialDeductionLimits.

Definition HOUSING_LOAN : pyfloat := Fin 1000.
Definition CHILDREN_EDU : pyfloat := Fin 1000.
Definition CONTINUING_EDU : pyfloat := Fin 400.
Definition ELDERLY_CARE : pyfloat := Fin 2000.


End SpecialDeductionLimits.
End TaxConstants.

(** dataclass SpecialDeductions *)
Record SpecialDeductions : Type := {
  housing_rent : pyfloat;
  housing_loan : pyfloat;
  children_edu : pyfloat;
  continuing_edu : pyfloat;
  elderly_care : pyfloat;
  medical_expense : pyfloat
}.

(** The dictionaries returned by [calculate_social_insurance]. *)
Module personal.
Record t : Type := {
    pension : pyfloat;
    medical : pyfloat;
    unemployment : pyfloat;
    housing_fund : pyfloat;
    total : pyfloat
  }.
End personal.

Module employer.
Record t : Type := {
    pension : pyfloat;
    medical : pyfloat;
    unemployment : pyfloat;
    injury : pyfloat;
    maternity : pyfloat;
    housing_fund : pyfloat;
    total : pyfloat
  }.
End employer.

Module insurance.
Record t : Type := {
    personal : personal.t;
    employer : employer.t;
    base : pyfloat
  }.
End insurance.

Definition calculate_social_insurance (monthly_salary : pyfloat) : insurance.t :=
  let base := py_min (py_max monthly_salary TaxConstants.SOCIAL_INSURANCE_BASE_MIN)
                     TaxConstants.SOCIAL_INSURANCE_BASE_MAX in
  let pension := base * TaxConstants.PENSION_RATE in
  let medical := base * TaxConstants.MEDICAL_RATE in
  let unemployment := base * TaxConstants.UNEMPLOYMENT_RATE in
  let housing_fund := base * TaxConstants.HOUSING_FUND_RATE in
  let employer_pension := base * TaxConstants.EMPLOYER_PENSION_RATE in
  let employer_medical := base * TaxConstants.EMPLOYER_MEDICAL_RATE in
  let employer_unemployment := base * TaxConstants.EMPLOYER_UNEMPLOYMENT_RATE in
  let employer_injury := base * TaxConstants.EMPLOYER_INJURY_RATE in
  let employer_maternity := base * TaxConstants.EMPLOYER_MATERNITY_RATE in
  let employer_housing_fund := base * TaxConstants.EMPLOYER_HOUSING_FUND_RATE in
  let personal_total := pension + medical + unemployment + housing_fund in
  let employer_total :=
    employer_pension + employer_medical + employer_unemployment +
    employer_injury + employer_maternity + employer_housing_fund in
  {| insurance.personal :=
       {| personal.pension := pension;
          personal.medical := medical;
          personal.unemployment := unemployment;
          personal.housing_fund := housing_fund;
          personal.total := personal_total |};
     insurance.employer :=
       {| employer.pension := employer_pension;
          employer.medical := employer_medical;
          employer.unemployment := employer_unemployment;
          employer.injury := employer_injury;
          employer.maternity := employer_maternity;
          employer.housing_fund := employer_housing_fund;
          employer.total := employer_total |};
     insurance.base := base |}.

(** The loop of [calculate_marginal_rates]: the rate of the first bracket
    with [lower <= annual_income <= upper], 0 when there is none. *)
Fixpoint bracket_rate (brackets : list (pyfloat * pyfloat * pyfloat))
    (annual_income : pyfloat) : pyfloat :=
  match brackets with
  | [] => Fin 0
  | (lower, upper, rate) :: rest =>
      if (lower <=? annual_income) && (annual_income <=? upper)
      then rate
      else bracket_rate rest annual_income
  end.

Module rates.
Record t : Type := {
    tax : pyfloat;
    insurance : pyfloat;
    housing_fund : pyfloat;
    total : pyfloat
  }.
End rates.

Definition calculate_marginal_rates (monthly_salary : pyfloat) : rates.t :=
  let annual_income := monthly_salary * Fin 12 in
  let tax_rate := bracket_rate TaxConstants.TAX_BRACKETS annual_income in
  let insurance_rate :=
    if monthly_salary <=? TaxConstants.SOCIAL_INSURANCE_BASE_MAX
    then TaxConstants.PENSION_RATE + TaxConstants.MEDICAL_RATE +
         TaxConstants.UNEMPLOYMENT_RATE
    else Fin 0 in
  let housing_fund_rate :=
    if monthly_salary <=? TaxConstants.HOUSING_FUND_BASE_MAX
    then TaxConstants.HOUSING_FUND_RATE
    else Fin 0 in
  let total_rate := tax_rate + insurance_rate + housing_fund_rate in
  {| rates.tax := tax_rate;
     rates.insurance := insurance_rate;
     rates.housing_fund := housing_fund_rate;
     rates.total := total_rate |}.

(** The bracket loop of [calculate_tax]: forward accumulation, every bracket
    is visited and contributes when [annual_taxable > lower]. *)
Fixpoint bracket_loop (brackets : list (pyfloat * pyfloat * pyfloat))
    (tax annual_taxable : pyfloat) : pyfloat :=
  match brackets with
  | [] => tax
  | (lower, upper, rate) :: rest =>
      if annual_taxable >? lower
      then
        let tax_part := py_min (annual_taxable - lower) (upper - lower) * rate in
        bracket_loop rest (tax + tax_part) annual_taxable
      else bracket_loop rest tax annual_taxable
  end.

Module details.
Record t : Type := {
    gross_salary : pyfloat;
    insurance : insurance.t;
    special_deductions : pyfloat;
    taxable_income : pyfloat;
    tax : pyfloat;
    net_income : pyfloat
  }.
End details.

Definition calculate_tax (monthly_salary : pyfloat) (deductions : SpecialDeductions)
    : details.t :=
  let insurance := calculate_social_insurance monthly_salary in
  let special_deductions :=
    housing_rent deductions + housing_loan deductions + children_edu deductions +
    continuing_edu deductions + elderly_care deductions + medical_expense deductions in
  let taxable_income :=
    monthly_salary - TaxConstants.TAX_FREE_THRESHOLD -
    personal.total (insurance.personal insurance) - special_deductions in
  let tax :=
    if taxable_income >? Fin 0
    then
      let annual_taxable := taxable_income * Fin 12 in
      bracket_loop TaxConstants.TAX_BRACKETS (Fin 0) annual_taxable
    else Fin 0 in
  let monthly_tax := fdiv_lit tax 12 in
  let net_income :=
    monthly_salary - monthly_tax - personal.total (insurance.personal insurance) in
  {| details.gross_salary := monthly_salary;
     details.insurance := insurance;
     details.special_deductions := special_deductions;
     details.taxable_income := taxable_income;
     details.tax := monthly_tax;
     details.net_income := net_income |}.

(** The numbers of the last table of [print_tax_details], before they are
    formatted: the tax, the personal and the employer contributions over the
    monthly salary, and all three together over the total cost to the
    employer.  [None] is ZeroDivisionError. *)
Module burden.
Record t : Type := {
  tax_rate : pyfloat;
  personal_rate : pyfloat;
  employer_rate : pyfloat;
  total_tax_rate : pyfloat
}.
End burden.

Definition tax_burden (results : details.t) : option burden.t :=
  let monthly_salary := details.gross_salary results in
  let insurance := details.insurance results in
  let total_cost := monthly_salary + employer.total (insurance.employer insurance) in
  let total_deductions :=
    details.tax results + personal.total (insurance.personal insurance) +
    employer.total (insurance.employer insurance) in
  total_tax_rate ← py_div total_deductions total_cost;
  tax_rate ← py_div (details.tax results) monthly_salary;
  personal_rate ← py_div (personal.total (insurance.personal insurance)) monthly_salary;
  employer_rate ← py_div (employer.total (insurance.employer insurance)) monthly_salary;
  Some {| burden.tax_rate := tax_rate;
          burden.personal_rate := personal_rate;
          burden.employer_rate := employer_rate;
          burden.total_tax_rate := total_tax_rate |}.



End cn_tax.

(** ** us_tax.py *)

Module us_tax.

Local Open Scope py_scope.

(** dataclass TaxBracket *)
Record TaxBracket : Type := {
  lower : pyfloat;
  upper : pyfloat;
  rate : pyfloat
}.

(** class TaxConstants *)
Module TaxConstants.
Definition MAX_401K : pyfloat := Fin 23000.
Definition SS_LIMIT : pyfloat := Fin 168600.
Definition SDI_LIMIT : pyfloat := Fin 153164.
Definition MEDICARE_THRESHOLD : pyfloat := Fin 200000.

Definition FEDERAL_BRACKETS : gmap string (list TaxBracket) :=
  {[ "single"%string :=
       [ Build_TaxBracket (Fin 0) (Fin 11600) (Fin 0.10);
         Build_TaxBracket (Fin 11600) (Fin 47150) (Fin 0.12);
         Build_TaxBracket (Fin 47150) (Fin 100525) (Fin 0.22);
         Build_TaxBracket (Fin 100525) (Fin 191950) (Fin 0.24);
         Build_TaxBracket (Fin 191950) (Fin 243725) (Fin 0.32);
         Build_TaxBracket (Fin 243725) (Fin 609350) (Fin 0.35);
         Build_TaxBracket (Fin 609350) PInf (Fin 0.37) ];
     "married"%string :=
       [ Build_TaxBracket (Fin 0) (Fin 23200) (Fin 0.10);
         Build_TaxBracket (Fin 23200) (Fin 94300) (Fin 0.12);
         Build_TaxBracket (Fin 94300) (Fin 201050) (Fin 0.22);
         Build_TaxBracket (Fin 201050) (Fin 383900) (Fin 0.24);
         Build_TaxBracket (Fin 383900) (Fin 487450) (Fin 0.32);
         Build_TaxBracket (Fin 487450) (Fin 731200) (Fin 0.35);
         Build_TaxBracket (Fin 731200) PInf (Fin 0.37) ] ]}.

Definition CA_BRACKETS : gmap string (list TaxBracket) :=
  {[ "single"%string :=
       [ Build_TaxBracket (Fin 0) (Fin 10412) (Fin 0.01);
         Build_TaxBracket (Fin 10412) (Fin 24684) (Fin 0.02);
         Build_TaxBracket (Fin 24684) (Fin 38959) (Fin 0.04);
         Build_TaxBracket (Fin 38959) (Fin 54081) (Fin 0.06);
         Build_TaxBracket (Fin 54081) (Fin 68350) (Fin 0.08);
         Build_TaxBracket (Fin 68350) (Fin 349137) (Fin 0.093);
         Build_TaxBracket (Fin 349137) (Fin 418961) (Fin 0.103);
         Build_TaxBracket (Fin 418961) (Fin 698272) (Fin 0.113);
         Build_TaxBracket (Fin 698272) PInf (Fin 0.123) ];
     "married"%string :=
       [ Build_TaxBracket (Fin 0) (Fin 20824) (Fin 0.01);
         Build_TaxBracket (Fin 20824) (Fin 49368) (Fin 0.02);
         Build_TaxBracket (Fin 49368) (Fin 77918) (Fin 0.04);
         Build_TaxBracket (Fin 77918) (Fin 108162) (Fin 0.06);
         Build_TaxBracket (Fin 108162) (Fin 136700) (Fin 0.08);
         Build_TaxBracket (Fin 136700) (Fin 698274) (Fin 0.093);
         Build_TaxBracket (Fin 698274) (Fin 837922) (Fin 0.103);
         Build_TaxBracket (Fin 837922) (Fin 1396544) (Fin 0.113);
         Build_TaxBracket (Fin 1396544) PInf (Fin 0.123) ] ]}.

Definition STANDARD_DEDUCTION : gmap string pyfloat :=
  {[ "single"%string := Fin 14600; "married"%string := Fin 29200 ]}.

Definition CA_STANDARD_DEDUCTION : gmap string pyfloat :=
  {[ "single"%string := Fin 5363; "married"%string := Fin 10726 ]}.
End TaxConstants.

(** The bracket loop shared by [calculate_federal_tax] and
    [calculate_ca_state_tax]: the remaining income is consumed bracket by
    bracket, and the loop breaks once nothing remains. *)
Fixpoint bracket_loop (brackets : list TaxBracket)
    (total_tax remaining_income : pyfloat) : pyfloat :=
  match brackets with
  | [] => total_tax
  | bracket :: rest =>
      if remaining_income <=? Fin 0
      then total_tax
      else
        let taxable_amount := py_min remaining_income (upper bracket - lower bracket) in
        bracket_loop rest (total_tax + taxable_amount * rate bracket)
                     (remaining_income - taxable_amount)
  end.

Definition calculate_federal_tax (income : pyfloat) (filing_status : string)
    : result pyfloat :=
  standard_deduction ← dict_get TaxConstants.STANDARD_DEDUCTION filing_status;
  let taxable_income := py_max (Fin 0) (income - standard_deduction) in
  brackets ← dict_get TaxConstants.FEDERAL_BRACKETS filing_status;
  mret (bracket_loop brackets (Fin 0) taxable_income).

Definition calculate_ca_state_tax (income capital_gains : pyfloat)
    (filing_status : string) : result pyfloat :=
  standard_deduction ← dict_get TaxConstants.CA_STANDARD_DEDUCTION filing_status;
  let taxable_income := py_max (Fin 0) (income + capital_gains - standard_deduction) in
  brackets ← dict_get TaxConstants.CA_BRACKETS filing_status;
  mret (bracket_loop brackets (Fin 0) taxable_income).

Module fica.
Record t : Type := {
  social_security : pyfloat;
  medicare : pyfloat;
  additional_medicare : pyfloat;
  total : pyfloat
}.
End fica.

Definition calculate_fica_taxes (income : pyfloat) : fica.t :=
  let ss_tax := py_min income TaxConstants.SS_LIMIT * Fin 0.062 in
  let medicare_tax := income * Fin 0.0145 in
  let additional_medicare :=
    if income >? TaxConstants.MEDICARE_THRESHOLD
    then (income - TaxConstants.MEDICARE_THRESHOLD) * Fin 0.009
    else Fin 0 in
  {| fica.social_security := ss_tax;
     fica.medicare := medicare_tax;
     fica.additional_medicare := additional_medicare;
     fica.total := ss_tax + medicare_tax + additional_medicare |}.

Definition calculate_ca_sdi (income : pyfloat) : pyfloat :=
  py_min income TaxConstants.SDI_LIMIT * Fin 0.009.

(** The bracket table local to [calculate_capital_gains_tax]. *)
Definition capital_gains_brackets : gmap string (list TaxBracket) :=
  {[ "single"%string :=
       [ Build_TaxBracket (Fin 0) (Fin 44625) (Fin 0);
         Build_TaxBracket (Fin 44625) (Fin 492300) (Fin 0.15);
         Build_TaxBracket (Fin 492300) PInf (Fin 0.20) ];
     "married"%string :=
       [ Build_TaxBracket (Fin 0) (Fin 89250) (Fin 0);
         Build_TaxBracket (Fin 89250) (Fin 553850) (Fin 0.15);
         Build_TaxBracket (Fin 553850) PInf (Fin 0.20) ] ]}.

Fixpoint capital_gains_loop (brackets : list TaxBracket)
    (capital_gains total_income : pyfloat) : pyfloat :=
  match brackets with
  | [] => capital_gains * Fin 0.20
  | bracket :: rest =>
      if (lower bracket <=? total_income) && (total_income <=? upper bracket)
      then capital_gains * rate bracket
      else capital_gains_loop rest capital_gains total_income
  end.

Definition calculate_capital_gains_tax (capital_gains income : pyfloat)
    (filing_status : string) : result pyfloat :=
  let total_income := income + capital_gains in
  brackets ← dict_get capital_gains_brackets filing_status;
  mret (capital_gains_loop brackets capital_gains total_income).

(** The two loops of [calculate_marginal_rates]: the rate of the first
    bracket with [lower <= income <= upper], 0 when there is none. *)
Fixpoint bracket_rate (brackets : list TaxBracket) (income : pyfloat) : pyfloat :=
  match brackets with
  | [] => Fin 0
  | bracket :: rest =>
      if (lower bracket <=? income) && (income <=? upper bracket)
      then rate bracket
      else bracket_rate rest income
  end.

Module rates.
Record t : Type := {
  federal : pyfloat;
  california : pyfloat;
  fica : pyfloat;
  sdi : pyfloat;
  total : pyfloat
}.
End rates.

Definition calculate_marginal_rates (income : pyfloat) (filing_status : string)
    : result rates.t :=
  federal_brackets ← dict_get TaxConstants.FEDERAL_BRACKETS filing_status;
  let federal_rate := bracket_rate federal_brackets income in
  ca_brackets ← dict_get TaxConstants.CA_BRACKETS filing_status;
  let ca_rate := bracket_rate ca_brackets income in
  let fica_rate := Fin 0.0145 in
  let fica_rate :=
    if income <=? TaxConstants.SS_LIMIT then fica_rate + Fin 0.062 else fica_rate in
  let fica_rate :=
    if income >? TaxConstants.MEDICARE_THRESHOLD then fica_rate + Fin 0.009
    else fica_rate in
  let sdi_rate := if income <=? TaxConstants.SDI_LIMIT then Fin 0.009 else Fin 0 in
  let total_rate := federal_rate + ca_rate + fica_rate + sdi_rate in
  mret {| rates.federal := federal_rate;
          rates.california := ca_rate;
          rates.fica := fica_rate;
          rates.sdi := sdi_rate;
          rates.total := total_rate |}.

(** dataclass TaxResult *)
Record TaxResult : Type := {
  federal_tax : pyfloat;
  capital_gains_tax : pyfloat;
  ca_tax : pyfloat;
  fica_taxes : fica.t;
  sdi_tax : pyfloat;
  total_tax : pyfloat;
  net_income : pyfloat;
  marginal_rates : rates.t
}.

(** The body of the [for status in ...] loop of [calculate_tax_results]. *)
Definition tax_result_for (annual_income capital_gains actual_401k adjusted_income
    : pyfloat) (status : string) : result TaxResult :=
  federal_tax ← calculate_federal_tax adjusted_income status;
  capital_gains_tax ← calculate_capital_gains_tax capital_gains adjusted_income status;
  let fica_taxes := calculate_fica_taxes annual_income in
  ca_tax ← calculate_ca_state_tax adjusted_income capital_gains status;
  let sdi_tax := calculate_ca_sdi annual_income in
  let total_tax :=
    federal_tax + capital_gains_tax + ca_tax + fica.total fica_taxes + sdi_tax in
  let total_income := annual_income + capital_gains in
  let net_income := total_income - total_tax - actual_401k in
  marginal_rates ← calculate_marginal_rates adjusted_income status;
  mret {| federal_tax := federal_tax;
          capital_gains_tax := capital_gains_tax;
          ca_tax := ca_tax;
          fica_taxes := fica_taxes;
          sdi_tax := sdi_tax;
          total_tax := total_tax;
          net_income := net_income;
          marginal_rates := marginal_rates |}.

Fixpoint tax_results_loop (statuses : list string)
    (annual_income capital_gains actual_401k adjusted_income : pyfloat)
    (results : gmap string TaxResult) : result (gmap string TaxResult) :=
  match statuses with
  | [] => mret results
  | status :: rest =>
      r ← tax_result_for annual_income capital_gains actual_401k adjusted_income status;
      tax_results_loop rest annual_income capital_gains actual_401k adjusted_income
                       (<[status := r]> results)
  end.

Definition calculate_tax_results (annual_income capital_gains actual_401k : pyfloat)
    : result (gmap string TaxResult) :=
  let adjusted_income := annual_income - actual_401k in
  tax_results_loop ["single"%string; "married"%string]
                   annual_income capital_gains actual_401k adjusted_income ∅.

(** The computation at the head of [print_comparison_tables]: the 401(k)
    contribution, the total income and the results for both statuses. *)
Definition comparison_results (annual_income capital_gains : pyfloat)
    (maximize_401k : bool) : result (pyfloat * pyfloat * gmap string TaxResult) :=
  let actual_401k :=
    if maximize_401k then py_min annual_income TaxConstants.MAX_401K else Fin 0 in
  let total_income := annual_income + capital_gains in
  results ← calculate_tax_results annual_income capital_gains actual_401k;
  mret (actual_401k, total_income, results).

(** The shares of the total income that [print_comparison_tables] computes
    for its tables, row by row, for the single and for the married result,
    before they are formatted.  [None] is ZeroDivisionError. *)
Definition comparison_shares (total_income : pyfloat) (single married : TaxResult)
    : option (list (pyfloat * pyfloat)) :=
  let row (amount : TaxResult -> pyfloat) : option (pyfloat * pyfloat) :=
    a ← py_div (amount single) total_income;
    b ← py_div (amount married) total_income;
    Some (a, b) in
  mapM row
    [ federal_tax;
      capital_gains_tax;
      ca_tax;
      (fun r => fica.social_security (fica_taxes r));
      (fun r => fica.medicare (fica_taxes r));
      (fun r => fica.additional_medicare (fica_taxes r));
      sdi_tax;
      (fun r => federal_tax r + capital_gains_tax r);
      ca_tax;
      (fun r => fica.total (fica_taxes r) + sdi_tax r);
      total_tax ].

End us_tax.

(** ** Bracket tables *)

Import us_tax.

(** The tuple that cn_tax.py stores for a bracket. *)
Definition as_tuple (b : TaxBracket) : pyfloat * pyfloat * pyfloat :=
  (lower b, upper b, rate b).

(** The BracketTable invariant, for a table that starts at [lo]: bounds and
    rates are numbers, every rate is in [0,1], every range is non-empty and
    starts where the previous one ends, and exactly the last one is open
    (upper = +infinity). *)
Fixpoint valid_from (lo : Q) (T : list TaxBracket) : bool :=
  match T with
  | [] => false
  | b :: rest =>
      match lower b, rate b with
      | Fin l, Fin r =>
          Qeq_bool l lo && Qle_bool 0 r && Qle_bool r 1 &&
          match upper b, rest with
          | PInf, [] => true
          | Fin hi, _ :: _ => Qlt_bool l hi && valid_from hi rest
          | _, _ => false
          end
      | _, _ => false
      end
  end.

Definition valid_table (T : list TaxBracket) : bool := valid_from 0 T.

(** What a bracket contributes when the amount lies above its upper bound. *)
Definition full_contribution (b : TaxBracket) : pyfloat :=
  ((upper b - lower b) * rate b)%py.

(** Sum of the full contributions of the brackets [pre], added to [acc]. *)
Definition lower_contributions (pre : list TaxBracket) (acc : pyfloat) : pyfloat :=
  fold_left (fun s b => (s + full_contribution b)%py) pre acc.

(** The liability computed by the loop of cn_tax.calculate_tax on table [T]. *)
Definition cn_liability (T : list TaxBracket) (x : pyfloat) : pyfloat :=
  cn_tax.bracket_loop (map as_tuple T) (Fin 0) x.

(** The liability computed by the loop of us_tax.calculate_federal_tax. *)
Definition us_liability (T : list TaxBracket) (x : pyfloat) : pyfloat :=
  us_tax.bracket_loop T (Fin 0) x.

(** The record view of a bracket tuple of cn_tax.py. *)
Definition of_tuple (t : pyfloat * pyfloat * pyfloat) : TaxBracket :=
  let '(lower, upper, rate) := t in Build_TaxBracket lower upper rate.

(** cn_tax.TaxConstants.TAX_BRACKETS as a table of [TaxBracket]. *)
Definition cn_brackets : list TaxBracket :=
  map of_tuple cn_tax.TaxConstants.TAX_BRACKETS.

(** [SpecialDeductions()]: every field keeps its default, 0. *)
Definition no_deductions : cn_tax.SpecialDeductions :=
  {| cn_tax.housing_rent := Fin 0;
     cn_tax.housing_loan := Fin 0;
     cn_tax.children_edu := Fin 0;
     cn_tax.continuing_edu := Fin 0;
     cn_tax.elderly_care := Fin 0;
     cn_tax.medical_expense := Fin 0 |}.

(** The personal total of [calculate_social_insurance]. *)
Definition cn_personal_total (monthly_salary : pyfloat) : pyfloat :=
  cn_tax.personal.total
    (cn_tax.insurance.personal (cn_tax.calculate_social_insurance monthly_salary)).

(** The employer total of [calculate_social_insurance]. *)
Definition cn_employer_total (monthly_salary : pyfloat) : pyfloat :=
  cn_tax.employer.total
    (cn_tax.insurance.employer (cn_tax.calculate_social_insurance monthly_salary)).

(** [TaxConstants.FEDERAL_BRACKETS["single"]] *)
Definition federal_single : list TaxBracket :=
  default [] (TaxConstants.FEDERAL_BRACKETS !! "single"%string).

(** The Social Security part of [calculate_fica_taxes]. *)
Definition us_social_security (income : pyfloat) : pyfloat :=
  fica.social_security (calculate_fica_taxes income).

(** A levy on gross income saturates at [ceiling]: it never decreases when
    income grows, it is [ceiling * rate] from the ceiling on, and one unit
    above the ceiling changes nothing. *)
Definition saturating (levy : pyfloat -> pyfloat) (ceiling rate : Q) : Prop :=
  (forall x y : Q, x <= y -> fle (levy (Fin x)) (levy (Fin y)) = true) /\
  (forall x : Q, ceiling <= x -> levy (Fin x) =f= Fin (ceiling * rate)) /\
  levy (Fin ceiling) =f= levy (Fin (ceiling + 1)).

(** The filing statuses of the tables of us_tax.py. *)
Definition known_status (status : string) : Prop :=
  status = "single"%string \/ status = "married"%string.

(** A negative or NaN amount.  The specification also calls an infinite
    amount invalid: -infinity is negative, and +infinity is treated on its
    own. *)
Definition negative_or_nan (a : pyfloat) : Prop :=
  flt a (Fin 0) = true \/ a = NaN.

(** The other tables of us_tax.py. *)
Definition federal_married : list TaxBracket :=
  default [] (TaxConstants.FEDERAL_BRACKETS !! "married"%string).

Definition ca_single : list TaxBracket :=
  default [] (TaxConstants.CA_BRACKETS !! "single"%string).

Definition ca_married : list TaxBracket :=
  default [] (TaxConstants.CA_BRACKETS !! "married"%string).

(** No rate of the table exceeds [rho]. *)
Definition rates_at_most (rho : Q) (T : list TaxBracket) : bool :=
  forallb (fun b => fle (rate b) (Fin rho)) T.

(** Table [B] has the rates of table [A], bracket by bracket; the rates do
    not decrease along the table, and every bracket of [B] starts at or
    above the start of the bracket of [A] with the same rank. *)
Fixpoint shifted_up (A B : list TaxBracket) : bool :=
  match A, B with
  | [], [] => true
  | a :: A', b :: B' =>
      match lower a, lower b, rate a, rate b with
      | Fin la, Fin lb, Fin ra, Fin rb =>
          Qle_bool la lb && Qeq_bool ra rb &&
          match A' with
          | [] => true
          | a' :: _ => fle (rate a) (rate a')
          end &&
          shifted_up A' B'
      | _, _, _, _ => false
      end
  | _, _ => false
  end.

(** The smaller of two rationals. *)
Definition Qsmaller (x t : Q) : Q := if Qle_bool x t then x else t.

(** The rate of the first bracket of a table. *)
Definition head_rate (T : list TaxBracket) : pyfloat :=
  match T with
  | b :: _ => rate b
  | [] => Fin 0
  end.

(** ** The two modules on binary64

    The same functions, now on the kernel's binary64 floats
    ([PrimFloat.float]): every [+], [-], [*] and [/] rounds to nearest-even
    and overflows to an infinity as Python's [float] does, and a decimal
    literal denotes the nearest double.  These definitions are evaluated on
    concrete inputs to tell what the rounding of the running program does to
    a statement proved on exact amounts. *)

(* A decimal literal of the source is the nearest double, as in Python. *)
#[local] Set Warnings "-inexact-float".

Module binary64.

Local Open Scope float_scope.

(** Python's [min] and [max], as above. *)
Definition py_min (a b : float) : float := if b <? a then b else a.
Definition py_max (a b : float) : float := if a <? b then b else a.

(** *** cn_tax.py *)
Module cn_tax.

Module TaxConstants.
Definition TAX_FREE_THRESHOLD : float := 5000.

Definition TAX_BRACKETS : list (float * float * float) :=
  [ (0, 36000, 0.03);
    (36000, 144000, 0.10);
    (144000, 300000, 0.20);
    (300000, 420000, 0.25);
    (420000, 660000, 0.30);
    (660000, 960000, 0.35);
    (960000, infinity, 0.45) ].

Definition SOCIAL_INSURANCE_BASE_MIN : float := 3613.
Definition SOCIAL_INSURANCE_BASE_MAX : float := 31884.
Definition HOUSING_FUND_BASE_MIN : float := 3613.
Definition HOUSING_FUND_BASE_MAX : float := 31884.

Definition PENSION_RATE : float := 0.08.
Definition MEDICAL_RATE : float := 0.02.
Definition UNEMPLOYMENT_RATE : float := 0.005.
Definition HOUSING_FUND_RATE : float := 0.12.

Definition EMPLOYER_PENSION_RATE : float := 0.16.
Definition EMPLOYER_MEDICAL_RATE : float := 0.095.
Definition EMPLOYER_UNEMPLOYMENT_RATE : float := 0.005.
Definition EMPLOYER_INJURY_RATE : float := 0.004.
Definition EMPLOYER_MATERNITY_RATE : float := 0.008.
Definition EMPLOYER_HOUSING_FUND_RATE : float := 0.12.
End TaxConstants.

Record SpecialDeductions : Type := {
  housing_rent : float;
  housing_loan : float;
  children_edu : float;
  continuing_edu : float;
  elderly_care : float;
  medical_expense : float
}.

(** The dictionaries returned by [calculate_social_insurance]. *)
Module personal.
Record t : Type := {
  pension : float;
  medical : float;
  unemployment : float;
  housing_fund : float;
  total : float
}.
End personal.

Module employer.
Record t : Type := {
  pension : float;
  medical : float;
  unemployment : float;
  injury : float;
  maternity : float;
  housing_fund : float;
  total : float
}.
End employer.

Module insurance.
Record t : Type := {
  personal : personal.t;
  employer : employer.t;
  base : float
}.
End insurance.

Definition calculate_social_insurance (monthly_salary : float) : insurance.t :=
  let base := py_min (py_max monthly_salary TaxConstants.SOCIAL_INSURANCE_BASE_MIN)
                     TaxConstants.SOCIAL_INSURANCE_BASE_MAX in
  let pension := base * TaxConstants.PENSION_RATE in
  let medical := base * TaxConstants.MEDICAL_RATE in
  let unemployment := base * TaxConstants.UNEMPLOYMENT_RATE in
  let housing_fund := base * TaxConstants.HOUSING_FUND_RATE in
  let employer_pension := base * TaxConstants.EMPLOYER_PENSION_RATE in
  let employer_medical := base * TaxConstants.EMPLOYER_MEDICAL_RATE in
  let employer_unemployment := base * TaxConstants.EMPLOYER_UNEMPLOYMENT_RATE in
  let employer_injury := base * TaxConstants.EMPLOYER_INJURY_RATE in
  let employer_maternity := base * TaxConstants.EMPLOYER_MATERNITY_RATE in
  let employer_housing_fund := base * TaxConstants.EMPLOYER_HOUSING_FUND_RATE in
  let personal_total := pension + medical + unemployment + housing_fund in
  let employer_total :=
    employer_pension + employer_medical + employer_unemployment +
    employer_injury + employer_maternity + employer_housing_fund in
  {| insurance.personal :=
       {| personal.pension := pension;
          personal.medical := medical;
          personal.unemployment := unemployment;
          personal.housing_fund := housing_fund;
          personal.total := personal_total |};
     insurance.employer :=
       {| employer.pension := employer_pension;
          employer.medical := employer_medical;
          employer.unemployment := employer_unemployment;
          employer.injury := employer_injury;
          employer.maternity := employer_maternity;
          employer.housing_fund := employer_housing_fund;
          employer.total := employer_total |};
     insurance.base := base |}.

Fixpoint bracket_rate (brackets : list (float * float * float))
    (annual_income : float) : float :=
  match brackets with
  | [] => 0
  | (lower, upper, rate) :: rest =>
      if (lower <=? annual_income) && (annual_income <=? upper)
      then rate
      else bracket_rate rest annual_income
  end.

Module rates.
Record t : Type := {
  tax : float;
  insurance : float;
  housing_fund : float;
  total : float
}.
End rates.

Definition calculate_marginal_rates (monthly_salary : float) : rates.t :=
  let annual_income := monthly_salary * 12 in
  let tax_rate := bracket_rate TaxConstants.TAX_BRACKETS annual_income in
  let insurance_rate :=
    if monthly_salary <=? TaxConstants.SOCIAL_INSURANCE_BASE_MAX
    then TaxConstants.PENSION_RATE + TaxConstants.MEDICAL_RATE +
         TaxConstants.UNEMPLOYMENT_RATE
    else 0 in
  let housing_fund_rate :=
    if monthly_salary <=? TaxConstants.HOUSING_FUND_BASE_MAX
    then TaxConstants.HOUSING_FUND_RATE
    else 0 in
  {| rates.tax := tax_rate;
     rates.insurance := insurance_rate;
     rates.housing_fund := housing_fund_rate;
     rates.total := tax_rate + insurance_rate + housing_fund_rate |}.

Fixpoint bracket_loop (brackets : list (float * float * float))
    (tax annual_taxable : float) : float :=
  match brackets with
  | [] => tax
  | (lower, upper, rate) :: rest =>
      if lower <? annual_taxable
      then
        let tax_part := py_min (annual_taxable - lower) (upper - lower) * rate in
        bracket_loop rest (tax + tax_part) annual_taxable
      else bracket_loop rest tax annual_taxable
  end.

Module details.
Record t : Type := {
  gross_salary : float;
  insurance : insurance.t;
  special_deductions : float;
  taxable_income : float;
  tax : float;
  net_income : float
}.
End details.

Definition calculate_tax (monthly_salary : float) (deductions : SpecialDeductions)
    : details.t :=
  let insurance := calculate_social_insurance monthly_salary in
  let special_deductions :=
    housing_rent deductions + housing_loan deductions + children_edu deductions +
    continuing_edu deductions + elderly_care deductions + medical_expense deductions in
  let taxable_income :=
    monthly_salary - TaxConstants.TAX_FREE_THRESHOLD -
    personal.total (insurance.personal insurance) - special_deductions in
  let tax :=
    if 0 <? taxable_income
    then bracket_loop TaxConstants.TAX_BRACKETS 0 (taxable_income * 12)
    else 0 in
  let monthly_tax := tax / 12 in
  {| details.gross_salary := monthly_salary;
     details.insurance := insurance;
     details.special_deductions := special_deductions;
     details.taxable_income := taxable_income;
     details.tax := monthly_tax;
     details.net_income :=
       monthly_salary - monthly_tax - personal.total (insurance.personal insurance) |}.

End cn_tax.

(** *** us_tax.py *)
Module us_tax.

Record TaxBracket : Type := {
  lower : float;
  upper : float;
  rate : float
}.

Module TaxConstants.
Definition SS_LIMIT : float := 168600.
Definition SDI_LIMIT : float := 153164.
Definition MEDICARE_THRESHOLD : float := 200000.

Definition FEDERAL_BRACKETS : gmap string (list TaxBracket) :=
  {[ "single"%string :=
       [ Build_TaxBracket 0 11600 0.10;
         Build_TaxBracket 11600 47150 0.12;
         Build_TaxBracket 47150 100525 0.22;
         Build_TaxBracket 100525 191950 0.24;
         Build_TaxBracket 191950 243725 0.32;
         Build_TaxBracket 243725 609350 0.35;
         Build_TaxBracket 609350 infinity 0.37 ];
     "married"%string :=
       [ Build_TaxBracket 0 23200 0.10;
         Build_TaxBracket 23200 94300 0.12;
         Build_TaxBracket 94300 201050 0.22;
         Build_TaxBracket 201050 383900 0.24;
         Build_TaxBracket 383900 487450 0.32;
         Build_TaxBracket 487450 731200 0.35;
         Build_TaxBracket 731200 infinity 0.37 ] ]}.

Definition CA_BRACKETS : gmap string (list TaxBracket) :=
  {[ "single"%string :=
       [ Build_TaxBracket 0 10412 0.01;
         Build_TaxBracket 10412 24684 0.02;
         Build_TaxBracket 24684 38959 0.04;
         Build_TaxBracket 38959 54081 0.06;
         Build_TaxBracket 54081 68350 0.08;
         Build_TaxBracket 68350 349137 0.093;
         Build_TaxBracket 349137 418961 0.103;
         Build_TaxBracket 418961 698272 0.113;
         Build_TaxBracket 698272 infinity 0.123 ];
     "married"%string :=
       [ Build_TaxBracket 0 20824 0.01;
         Build_TaxBracket 20824 49368 0.02;
         Build_TaxBracket 49368 77918 0.04;
         Build_TaxBracket 77918 108162 0.06;
         Build_TaxBracket 108162 136700 0.08;
         Build_TaxBracket 136700 698274 0.093;
         Build_TaxBracket 698274 837922 0.103;
         Build_TaxBracket 837922 1396544 0.113;
         Build_TaxBracket 1396544 infinity 0.123 ] ]}.

Definition STANDARD_DEDUCTION : gmap string float :=
  {[ "single"%string := 14600; "married"%string := 29200 ]}.

Definition CA_STANDARD_DEDUCTION : gmap string float :=
  {[ "single"%string := 5363; "married"%string := 10726 ]}.
End TaxConstants.

Fixpoint bracket_loop (brackets : list TaxBracket)
    (total_tax remaining_income : float) : float :=
  match brackets with
  | [] => total_tax
  | bracket :: rest =>
      if remaining_income <=? 0
      then total_tax
      else
        let taxable_amount := py_min remaining_income (upper bracket - lower bracket) in
        bracket_loop rest (total_tax + taxable_amount * rate bracket)
                     (remaining_income - taxable_amount)
  end.

Definition calculate_federal_tax (income : float) (filing_status : string)
    : result float :=
  standard_deduction ← dict_get TaxConstants.STANDARD_DEDUCTION filing_status;
  let taxable_income := py_max 0 (income - standard_deduction) in
  brackets ← dict_get TaxConstants.FEDERAL_BRACKETS filing_status;
  mret (bracket_loop brackets 0 taxable_income).

Definition calculate_ca_state_tax (income capital_gains : float)
    (filing_status : string) : result float :=
  standard_deduction ← dict_get TaxConstants.CA_STANDARD_DEDUCTION filing_status;
  let taxable_income := py_max 0 (income + capital_gains - standard_deduction) in
  brackets ← dict_get TaxConstants.CA_BRACKETS filing_status;
  mret (bracket_loop brackets 0 taxable_income).

Module fica.
Record t : Type := {
  social_security : float;
  medicare : float;
  additional_medicare : float;
  total : float
}.
End fica.

Definition calculate_fica_taxes (income : float) : fica.t :=
  let ss_tax := py_min income TaxConstants.SS_LIMIT * 0.062 in
  let medicare_tax := income * 0.0145 in
  let additional_medicare :=
    if TaxConstants.MEDICARE_THRESHOLD <? income
    then (income - TaxConstants.MEDICARE_THRESHOLD) * 0.009
    else 0 in
  {| fica.social_security := ss_tax;
     fica.medicare := medicare_tax;
     fica.additional_medicare := additional_medicare;
     fica.total := ss_tax + medicare_tax + additional_medicare |}.

Definition calculate_ca_sdi (income : float) : float :=
  py_min income TaxConstants.SDI_LIMIT * 0.009.

Definition capital_gains_brackets : gmap string (list TaxBracket) :=
  {[ "single"%string :=
       [ Build_TaxBracket 0 44625 0;
         Build_TaxBracket 44625 492300 0.15;
         Build_TaxBracket 492300 infinity 0.20 ];
     "married"%string :=
       [ Build_TaxBracket 0 89250 0;
         Build_TaxBracket 89250 553850 0.15;
         Build_TaxBracket 553850 infinity 0.20 ] ]}.

Fixpoint capital_gains_loop (brackets : list TaxBracket)
    (capital_gains total_income : float) : float :=
  match brackets with
  | [] => capital_gains * 0.20
  | bracket :: rest =>
      if (lower bracket <=? total_income) && (total_income <=? upper bracket)
      then capital_gains * rate bracket
      else capital_gains_loop rest capital_gains total_income
  end.

Definition calculate_capital_gains_tax (capital_gains income : float)
    (filing_status : string) : result float :=
  let total_income := income + capital_gains in
  brackets ← dict_get capital_gains_brackets filing_status;
  mret (capital_gains_loop brackets capital_gains total_income).

Fixpoint bracket_rate (brackets : list TaxBracket) (income : float) : float :=
  match brackets with
  | [] => 0
  | bracket :: rest =>
      if (lower bracket <=? income) && (income <=? upper bracket)
      then rate bracket
      else bracket_rate rest income
  end.

Module rates.
Record t : Type := {
  federal : float;
  california : float;
  fica : float;
  sdi : float;
  total : float
}.
End rates.

Definition calculate_marginal_rates (income : float) (filing_status : string)
    : result rates.t :=
  federal_brackets ← dict_get TaxConstants.FEDERAL_BRACKETS filing_status;
  let federal_rate := bracket_rate federal_brackets income in
  ca_brackets ← dict_get TaxConstants.CA_BRACKETS filing_status;
  let ca_rate := bracket_rate ca_brackets income in
  let fica_rate := 0.0145 in
  let fica_rate :=
    if income <=? TaxConstants.SS_LIMIT then fica_rate + 0.062 else fica_rate in
  let fica_rate :=
    if TaxConstants.MEDICARE_THRESHOLD <? income then fica_rate + 0.009
    else fica_rate in
  let sdi_rate := if income <=? TaxConstants.SDI_LIMIT then 0.009 else 0 in
  mret {| rates.federal := federal_rate;
          rates.california := ca_rate;
          rates.fica := fica_rate;
          rates.sdi := sdi_rate;
          rates.total := federal_rate + ca_rate + fica_rate + sdi_rate |}.

Record TaxResult : Type := {
  federal_tax : float;
  capital_gains_tax : float;
  ca_tax : float;
  fica_taxes : fica.t;
  sdi_tax : float;
  total_tax : float;
  net_income : float;
  marginal_rates : rates.t
}.

(** The body of the loop of [calculate_tax_results], for one status. *)
Definition tax_result_for (annual_income capital_gains actual_401k adjusted_income
    : float) (status : string) : result TaxResult :=
  federal_tax ← calculate_federal_tax adjusted_income status;
  capital_gains_tax ← calculate_capital_gains_tax capital_gains adjusted_income status;
  let fica_taxes := calculate_fica_taxes annual_income in
  ca_tax ← calculate_ca_state_tax adjusted_income capital_gains status;
  let sdi_tax := calculate_ca_sdi annual_income in
  let total_tax :=
    federal_tax + capital_gains_tax + ca_tax + fica.total fica_taxes + sdi_tax in
  let total_income := annual_income + capital_gains in
  let net_income := total_income - total_tax - actual_401k in
  marginal_rates ← calculate_marginal_rates adjusted_income status;
  mret {| federal_tax := federal_tax;
          capital_gains_tax := capital_gains_tax;
          ca_tax := ca_tax;
          fica_taxes := fica_taxes;
          sdi_tax := sdi_tax;
          total_tax := total_tax;
          net_income := net_income;
          marginal_rates := marginal_rates |}.

Fixpoint tax_results_loop (statuses : list string)
    (annual_income capital_gains actual_401k adjusted_income : float)
    (results : gmap string TaxResult) : result (gmap string TaxResult) :=
  match statuses with
  | [] => mret results
  | status :: rest =>
      r ← tax_result_for annual_income capital_gains actual_401k adjusted_income status;
      tax_results_loop rest annual_income capital_gains actual_401k adjusted_income
                       (<[status := r]> results)
  end.

Definition calculate_tax_results (annual_income capital_gains actual_401k : float)
    : result (gmap string TaxResult) :=
  let adjusted_income := annual_income - actual_401k in
  tax_results_loop ["single"%string; "married"%string]
                   annual_income capital_gains actual_401k adjusted_income ∅.

End us_tax.

(** The BracketTable invariant on a binary64 table that starts at [lo]. *)
Fixpoint valid_from (lo : float) (T : list us_tax.TaxBracket) : bool :=
  match T with
  | [] => false
  | b :: rest =>
      (us_tax.lower b =? lo) && (0 <=? us_tax.rate b) && (us_tax.rate b <=? 1) &&
      match rest with
      | [] => us_tax.upper b =? infinity
      | _ :: _ =>
          (us_tax.lower b <? us_tax.upper b) && (us_tax.upper b <? infinity) &&
          valid_from (us_tax.upper b) rest
      end
  end.

Definition valid_table (T : list us_tax.TaxBracket) : bool := valid_from 0 T.

Definition as_tuple (b : us_tax.TaxBracket) : float * float * float :=
  (us_tax.lower b, us_tax.upper b, us_tax.rate b).

(** The liability by the loop of cn_tax.calculate_tax and by the loop of
    us_tax.calculate_federal_tax, on the same table. *)
Definition cn_liability (T : list us_tax.TaxBracket) (x : float) : float :=
  cn_tax.bracket_loop (map as_tuple T) 0 x.

Definition us_liability (T : list us_tax.TaxBracket) (x : float) : float :=
  us_tax.bracket_loop T 0 x.

Definition federal_single : list us_tax.TaxBracket :=
  default [] (us_tax.TaxConstants.FEDERAL_BRACKETS !! "single"%string).

Definition cn_brackets : list us_tax.TaxBracket :=
  map (fun '(lower, upper, rate) => us_tax.Build_TaxBracket lower upper rate)
      cn_tax.TaxConstants.TAX_BRACKETS.

(** A table with bounds that are not whole numbers. *)
Definition tenths : list us_tax.TaxBracket :=
  [ us_tax.Build_TaxBracket 0 0.1 0.1;
    us_tax.Build_TaxBracket 0.1 0.3 0.2;
    us_tax.Build_TaxBracket 0.3 infinity 0.3 ].

Definition no_deductions : cn_tax.SpecialDeductions :=
  {| cn_tax.housing_rent := 0;
     cn_tax.housing_loan := 0;
     cn_tax.children_edu := 0;
     cn_tax.continuing_edu := 0;
     cn_tax.elderly_care := 0;
     cn_tax.medical_expense := 0 |}.

(** The personal total of [calculate_social_insurance]. *)
Definition cn_personal_total (monthly_salary : float) : float :=
  cn_tax.personal.total
    (cn_tax.insurance.personal (cn_tax.calculate_social_insurance monthly_salary)).

End binary64.

(** ** Comparisons on rationals *)

Lemma Qle_bool_spec (a b : Q) : BoolSpec (a <= b) (b < a) (Qle_bool a b).
Proof.
  destruct (Qle_bool a b) eqn:E; constructor.
  - now apply Qle_bool_iff.
  - destruct (Qlt_le_dec b a) as [H|H]; [exact H|].
    apply Qle_bool_iff in H. congruence.
Qed.

Lemma Qeq_bool_spec (a b : Q) : BoolSpec (a == b) (~ a == b) (Qeq_bool a b).
Proof.
  destruct (Qeq_bool a b) eqn:E; constructor.
  - now apply Qeq_bool_iff.
  - intros H. apply Qeq_bool_iff in H. congruence.
Qed.

(** Evaluate float operations on finite arguments. *)
Ltac fsimpl :=
  unfold py_min, py_max, fgt in *;
  cbn [fadd fsub fmul fdiv_lit flt fle fneg feq is_nan] in *.

(** Case analysis on every rational comparison of the goal. *)
Ltac qcases :=
  fsimpl; unfold Qlt_bool in *;
  repeat (match goal with
          | |- context [Qle_bool ?a ?b] => destruct (Qle_bool_spec a b)
          | |- context [Qeq_bool ?a ?b] => destruct (Qeq_bool_spec a b)
          | H : context [Qle_bool ?a ?b] |- _ => destruct (Qle_bool_spec a b)
          | H : context [Qeq_bool ?a ?b] |- _ => destruct (Qeq_bool_spec a b)
          end;
          cbn [negb andb orb] in *; cbv beta iota in *; fsimpl).

Lemma rate_slice (r d : Q) : 0 <= r -> r <= 1 -> 0 <= d -> 0 <= d * r /\ d * r <= d.
Proof. intros. nra. Qed.

(** ** The shape of a valid table *)

Lemma valid_from_inv (lo : Q) (b : TaxBracket) (rest : list TaxBracket) :
  valid_from lo (b :: rest) = true ->
  exists l r, lower b = Fin l /\ rate b = Fin r /\ l == lo /\ 0 <= r /\ r <= 1 /\
    ((upper b = PInf /\ rest = []) \/
     (exists hi, upper b = Fin hi /\ lo < hi /\ rest <> [] /\ valid_from hi rest = true)).
Proof.
  cbn [valid_from]. destruct (lower b) as [l| | |]; try discriminate.
  destruct (rate b) as [r| | |]; try discriminate.
  intros H. exists l, r.
  destruct (upper b) as [hi| | |], rest as [|b' rest']; qcases; try discriminate;
    repeat split; auto.
  right. exists hi. repeat split; auto. lra.
Qed.

(** ** The forward loop (cn_tax) *)

Lemma cn_loop_cons (b : TaxBracket) (rest : list TaxBracket) (tax x : pyfloat) :
  cn_tax.bracket_loop (map as_tuple (b :: rest)) tax x =
  if fgt x (lower b)
  then cn_tax.bracket_loop (map as_tuple rest)
         (tax + py_min (x - lower b) (upper b - lower b) * rate b)%py x
  else cn_tax.bracket_loop (map as_tuple rest) tax x.
Proof. reflexivity. Qed.

Lemma cn_loop_nil (tax x : pyfloat) :
  cn_tax.bracket_loop (map as_tuple []) tax x = tax.
Proof. reflexivity. Qed.

(** Brackets that start at or above the amount leave the tax unchanged. *)
Lemma cn_loop_below (T : list TaxBracket) :
  forall (lo : Q) (acc : pyfloat) (x : Q),
    valid_from lo T = true -> x <= lo ->
    cn_tax.bracket_loop (map as_tuple T) acc (Fin x) = acc.
Proof.
  induction T as [|b rest IH]; intros lo acc x HT Hx; [reflexivity|].
  destruct (valid_from_inv _ _ _ HT) as (l & r & Hl & Hr & Hlo & Hr0 & Hr1 & Hup).
  rewrite cn_loop_cons, Hl. unfold fgt. fsimpl. qcases; [|lra].
  destruct Hup as [[_ ->]|(hi & _ & Hhi & _ & Hrest)]; [reflexivity|].
  apply (IH hi); [exact Hrest|lra].
Qed.

(** On a valid table that starts at [lo], for amounts [lo <= x <= y]: the
    loop yields numbers, never less than the tax it started from, and the
    tax grows from [x] to [y] by at least 0 and at most [y - x]. *)
Lemma cn_loop_growth (T : list TaxBracket) :
  forall (lo acc x y : Q),
    valid_from lo T = true -> lo <= x -> x <= y ->
    exists qx qy,
      cn_tax.bracket_loop (map as_tuple T) (Fin acc) (Fin x) = Fin qx /\
      cn_tax.bracket_loop (map as_tuple T) (Fin acc) (Fin y) = Fin qy /\
      acc <= qx /\ qx <= qy /\ qy - qx <= y - x.
Proof.
  induction T as [|b rest IH]; intros lo acc x y HT Hx Hy; [discriminate|].
  destruct (valid_from_inv _ _ _ HT) as (l & r & Hl & Hr & Hlo & Hr0 & Hr1 & Hup).
  rewrite !cn_loop_cons, Hl, Hr.
  destruct Hup as [[Hu ->]|(hi & Hu & Hhi & _ & Hrest)]; rewrite Hu.
  - (* the open bracket *)
    rewrite !cn_loop_nil. unfold fgt. fsimpl.
    pose proof (rate_slice r (y - x) Hr0 Hr1 ltac:(lra)) as [? ?].
    pose proof (rate_slice r (x - l) Hr0 Hr1 ltac:(lra)) as [? ?].
    pose proof (rate_slice r (y - l) Hr0 Hr1 ltac:(lra)) as [? ?].
    qcases; eexists _, _; (split; [reflexivity|]); (split; [reflexivity|]);
      repeat split; try lra.
  - unfold fgt. fsimpl.
    destruct (Qlt_le_dec hi x) as [Hxh|Hxh].
    + (* both amounts are above this bracket *)
      qcases; try lra.
      destruct (IH hi (acc + (hi - l) * r) x y Hrest ltac:(lra) Hy)
        as (qx & qy & Ex & Ey & Ga & Gb & Gc).
      exists qx, qy. rewrite Ex, Ey.
      pose proof (rate_slice r (hi - l) Hr0 Hr1 ltac:(lra)) as [? ?].
      repeat split; auto; lra.
    + destruct (Qlt_le_dec hi y) as [Hyh|Hyh].
      * (* x inside or below, y above *)
        destruct (IH hi (acc + (hi - l) * r) hi y Hrest ltac:(lra) ltac:(lra))
          as (qh & qy & Eh & Ey & Ga & Gb & Gc).
        rewrite (cn_loop_below rest hi _ hi Hrest ltac:(lra)) in Eh.
        injection Eh as <-.
        rewrite (cn_loop_below rest hi _ x Hrest Hxh).
        pose proof (rate_slice r (hi - x) Hr0 Hr1 ltac:(lra)) as [? ?].
        pose proof (rate_slice r (x - l) Hr0 Hr1 ltac:(lra)) as [? ?].
        qcases; try lra; rewrite ?Ey;
          rewrite ?(cn_loop_below rest hi _ x Hrest Hxh);
          eexists _, _; (split; [reflexivity|]); (split; [reflexivity|]);
          repeat split; try lra.
      * (* both inside or below *)
        pose proof (rate_slice r (y - x) Hr0 Hr1 ltac:(lra)) as [? ?].
        pose proof (rate_slice r (x - l) Hr0 Hr1 ltac:(lra)) as [? ?].
        pose proof (rate_slice r (y - l) Hr0 Hr1 ltac:(lra)) as [? ?].
        qcases; try lra;
          rewrite ?(cn_loop_below rest hi _ x Hrest Hxh);
          rewrite ?(cn_loop_below rest hi _ y Hrest Hyh);
          eexists _, _; (split; [reflexivity|]); (split; [reflexivity|]);
          repeat split; try lra.
Qed.

(** In a valid table every later bracket starts at or above the start of
    the table. *)
Lemma valid_from_lower (pre : list TaxBracket) :
  forall (lo : Q) (bk : TaxBracket) (post : list TaxBracket) (l : Q),
    valid_from lo (pre ++ bk :: post) = true -> lower bk = Fin l -> lo <= l.
Proof.
  induction pre as [|p pre IH]; intros lo bk post l HT Hbk.
  - destruct (valid_from_inv _ _ _ HT) as (l' & r & Hl & _ & Hlo & _).
    rewrite Hbk in Hl. injection Hl as ->. lra.
  - rewrite <- app_comm_cons in HT.
    destruct (valid_from_inv _ _ _ HT) as (_ & _ & _ & _ & _ & _ & _ & Hup).
    destruct Hup as [[_ Hnil]|(hi & _ & Hhi & _ & Hrest)].
    + now destruct pre.
    + specialize (IH hi bk post l Hrest Hbk). lra.
Qed.

(** The tax on a bracket: all brackets before [bk] contribute in full, [bk]
    contributes for the part of the amount above its lower bound, and the
    brackets after it contribute nothing.  Both ends of the bracket are
    included. *)
Lemma cn_loop_piece (pre : list TaxBracket) :
  forall (lo acc acc' : Q) (bk : TaxBracket) (post : list TaxBracket) (l x : Q),
    valid_from lo (pre ++ bk :: post) = true ->
    acc == acc' ->
    lower bk = Fin l -> l <= x -> fle (Fin x) (upper bk) = true ->
    exists s r q,
      lower_contributions pre (Fin acc') = Fin s /\ rate bk = Fin r /\
      cn_tax.bracket_loop (map as_tuple (pre ++ bk :: post)) (Fin acc) (Fin x) = Fin q /\
      q == s + (x - l) * r.
Proof.
  induction pre as [|p pre IH]; intros lo acc acc' bk post l x HT Hacc Hbk Hlx Hxu.
  - cbn [app] in *. cbn [lower_contributions fold_left].
    destruct (valid_from_inv _ _ _ HT) as (l' & r & Hl & Hr & Hlo & Hr0 & Hr1 & Hup).
    rewrite Hbk in Hl. injection Hl as <-.
    rewrite cn_loop_cons, Hbk, Hr.
    destruct Hup as [[Hu ->]|(hi & Hu & Hhi & _ & Hrest)]; rewrite Hu in *.
    + rewrite !cn_loop_nil.
      qcases; eexists _, r, _; repeat split; try reflexivity; nra.
    + assert (x <= hi) by (qcases; [assumption|discriminate]).
      qcases; try lra; rewrite (cn_loop_below post hi _ x) by assumption;
        eexists _, r, _; repeat split; try reflexivity; nra.
  - rewrite <- app_comm_cons in *.
    destruct (valid_from_inv _ _ _ HT) as (l' & r' & Hl & Hr & Hlo & Hr0 & Hr1 & Hup).
    destruct Hup as [[_ Hnil]|(hi & Hu & Hhi & _ & Hrest)]; [now destruct pre|].
    pose proof (valid_from_lower _ _ _ _ _ Hrest Hbk) as Hhl.
    rewrite cn_loop_cons, Hl, Hr, Hu.
    cbn [lower_contributions fold_left]. unfold full_contribution at 2.
    rewrite Hl, Hr, Hu. fold (lower_contributions pre).
    qcases; try lra.
    + apply (IH hi); auto.
      assert (E : x == hi) by lra. rewrite E, Hacc. reflexivity.
    + apply (IH hi); auto. rewrite Hacc. reflexivity.
Qed.

(** ** The remaining-income loop (us_tax) agrees with the forward loop *)

Lemma loops_agree (T : list TaxBracket) :
  forall (lo acc1 acc2 rem x : Q),
    valid_from lo T = true -> acc1 == acc2 ->
    (x <= lo -> rem <= 0) -> (lo < x -> rem == x - lo) ->
    exists q1 q2,
      us_tax.bracket_loop T (Fin acc1) (Fin rem) = Fin q1 /\
      cn_tax.bracket_loop (map as_tuple T) (Fin acc2) (Fin x) = Fin q2 /\
      q1 == q2.
Proof.
  induction T as [|b rest IH]; intros lo acc1 acc2 rem x HT Hacc Hlow Hhigh;
    [discriminate|].
  destruct (valid_from_inv _ _ _ HT) as (l & r & Hl & Hr & Hlo & Hr0 & Hr1 & Hup).
  cbn [us_tax.bracket_loop]. rewrite Hl, Hr.
  destruct (Qlt_le_dec lo x) as [Hx|Hx].
  - specialize (Hhigh Hx). clear Hlow.
    rewrite cn_loop_cons, Hl, Hr.
    destruct Hup as [[Hu ->]|(hi & Hu & Hhi & _ & Hrest)]; rewrite Hu.
    + rewrite cn_loop_nil. cbn [us_tax.bracket_loop].
      qcases; try lra. eexists _, _; repeat split; try reflexivity. nra.
    + qcases; try lra; apply (IH hi); auto; try nra; intros; lra.
  - specialize (Hlow Hx). clear Hhigh.
    rewrite (cn_loop_below _ lo _ x HT Hx).
    qcases; try lra. exists acc1, acc2. auto.
Qed.

(** ** Liability on a valid table *)

Lemma valid_from_suffix (pre : list TaxBracket) :
  forall (lo : Q) (bk : TaxBracket) (post : list TaxBracket),
    valid_from lo (pre ++ bk :: post) = true ->
    exists lo', lo <= lo' /\ valid_from lo' (bk :: post) = true.
Proof.
  induction pre as [|p pre IH]; intros lo bk post HT.
  - exists lo. split; [lra|exact HT].
  - rewrite <- app_comm_cons in HT.
    destruct (valid_from_inv _ _ _ HT) as (_ & _ & _ & _ & _ & _ & _ & Hup).
    destruct Hup as [[_ Hnil]|(hi & _ & Hhi & _ & Hrest)]; [now destruct pre|].
    destruct (IH hi bk post Hrest) as (lo' & Hlo' & Hv).
    exists lo'. split; [lra|exact Hv].
Qed.


Section ValidTable.

Variable T : list TaxBracket.
Hypothesis HT : valid_table T = true.

(** Both loops return numbers on a valid table, and the same number. *)
Lemma liability_values (x : Q) :
  0 <= x ->
  exists qc qu,
    cn_liability T (Fin x) = Fin qc /\ us_liability T (Fin x) = Fin qu /\ qu == qc.
Proof.
  intros Hx.
  destruct (loops_agree T 0 0 0 x x HT ltac:(reflexivity) ltac:(intros; lra)
              ltac:(intros; ring)) as (q1 & q2 & E1 & E2 & E).
  exists q2, q1. auto.
Qed.

Variable L : pyfloat -> pyfloat.
Hypothesis HL : L = cn_liability T \/ L = us_liability T.

Lemma liability_growth (x y : Q) :
  0 <= x -> x <= y ->
  exists qx qy,
    L (Fin x) = Fin qx /\ L (Fin y) = Fin qy /\
    0 <= qx /\ qx <= qy /\ qy - qx <= y - x.
Proof.
  intros Hx Hy.
  destruct (cn_loop_growth T 0 0 x y HT Hx Hy) as (qx & qy & Ex & Ey & G0 & G1 & G2).
  destruct HL as [->| ->].
  - exists qx, qy. auto.
  - destruct (liability_values x Hx) as (cx & ux & Ecx & Eux & Hux).
    destruct (liability_values y ltac:(lra)) as (cy & uy & Ecy & Euy & Huy).
    unfold cn_liability in Ecx, Ecy. rewrite Ex in Ecx. rewrite Ey in Ecy.
    injection Ecx as <-. injection Ecy as <-.
    exists ux, uy. repeat split; auto; lra.
Qed.

Lemma liability_zero : L (Fin 0) = Fin 0.
Proof.
  destruct HL as [->| ->].
  - apply (cn_loop_below T 0); [exact HT|lra].
  - destruct T as [|b rest]; reflexivity.
Qed.

End ValidTable.

Lemma liability_piece (pre : list TaxBracket) (bk : TaxBracket)
    (post : list TaxBracket) (L : pyfloat -> pyfloat) (l x : Q) :
  valid_table (pre ++ bk :: post) = true ->
  L = cn_liability (pre ++ bk :: post) \/ L = us_liability (pre ++ bk :: post) ->
  lower bk = Fin l -> l <= x -> fle (Fin x) (upper bk) = true ->
  exists s r q,
    lower_contributions pre (Fin 0) = Fin s /\ rate bk = Fin r /\
    L (Fin x) = Fin q /\ q == s + (x - l) * r.
Proof.
  intros HT HL Hl Hlx Hxu.
  destruct (cn_loop_piece pre 0 0 0 bk post l x HT ltac:(reflexivity) Hl Hlx Hxu)
    as (s & r & q & Es & Er & Eq & Hq).
  destruct HL as [->| ->].
  - exists s, r, q. auto.
  - pose proof (valid_from_lower _ _ _ _ _ HT Hl) as Hl0.
    destruct (liability_values _ HT x ltac:(lra)) as (qc & qu & Ec & Eu & Hu).
    unfold cn_liability in Ec. rewrite Eq in Ec. injection Ec as <-.
    exists s, r, qu. repeat split; auto. lra.
Qed.

(** ** Properties of the bracket loops *)



(** C6 (amended): in exact arithmetic, on every valid bracket table and for
    every taxable amount [x >= 0], the forward accumulation of
    cn_tax.calculate_tax and the remaining-income subtraction of
    us_tax.calculate_federal_tax compute the same liability: both tax the
    same slice of every bracket at the rate of that bracket. *)
Theorem forward_and_remaining_loops_agree (T : list TaxBracket) (x : Q) :
  valid_table T = true -> 0 <= x ->
  cn_liability T (Fin x) =f= us_liability T (Fin x).
Proof.
  intros HT Hx.
  destruct (liability_values T HT x Hx) as (qc & qu & -> & -> & E).
  cbn [feq]. symmetry. exact E.
Qed.

(** C6 (counterexample): computed on binary64, the two loops return
    different liabilities.  On the federal table of a single filer and the
    amount 9011248268465464 the remaining-income loop returns
    3334161859290410 and the forward loop 3334161859290409; on a table with
    the bounds 0.1 and 0.3 and the amount 0.5 they return
    0.11000000000000001 and 0.11.  Both tables satisfy the invariant and
    both amounts are floats that are not negative: the remaining income is
    rounded after every bracket, the forward loop subtracts every lower
    bound from the amount itself. *)
Lemma forward_and_remaining_loops_differ_on_binary64 :
  (binary64.valid_table binary64.federal_single = true /\
   (0 <=? 9011248268465464)%float = true /\
   binary64.us_liability binary64.federal_single 9011248268465464
     = 3334161859290410%float /\
   binary64.cn_liability binary64.federal_single 9011248268465464
     = 3334161859290409%float /\
   (binary64.cn_liability binary64.federal_single 9011248268465464
    =? binary64.us_liability binary64.federal_single 9011248268465464)%float
     = false) /\
  (binary64.valid_table binary64.tenths = true /\
   (0 <=? 0.5)%float = true /\
   binary64.us_liability binary64.tenths 0.5 = 0.11000000000000001%float /\
   binary64.cn_liability binary64.tenths 0.5 = 0.11%float /\
   (binary64.cn_liability binary64.tenths 0.5
    =? binary64.us_liability binary64.tenths 0.5)%float = false).
Proof. repeat split; vm_compute; reflexivity. Qed.

(** ** The marginal-rate lookup *)

Lemma cn_rate_cons (b : TaxBracket) (rest : list TaxBracket) (x : pyfloat) :
  cn_tax.bracket_rate (map as_tuple (b :: rest)) x =
  if fle (lower b) x && fle x (upper b) then rate b
  else cn_tax.bracket_rate (map as_tuple rest) x.
Proof. reflexivity. Qed.

(** The two lookups are the same function, up to the representation of a
    bracket. *)
Lemma cn_rate_us_rate (T : list TaxBracket) (x : pyfloat) :
  cn_tax.bracket_rate (map as_tuple T) x = bracket_rate T x.
Proof.
  induction T as [|b rest IH]; [reflexivity|].
  rewrite cn_rate_cons. cbn [bracket_rate]. now rewrite IH.
Qed.

(** An income equal to the upper bound of a bracket that is not the last
    one is matched by that bracket: the brackets before it end strictly
    below the income. *)
Lemma bracket_rate_at_upper (pre : list TaxBracket) :
  forall (lo : Q) (a b : TaxBracket) (post : list TaxBracket) (x : Q),
    valid_from lo (pre ++ a :: b :: post) = true ->
    Fin x =f= upper a ->
    bracket_rate (pre ++ a :: b :: post) (Fin x) = rate a.
Proof.
  induction pre as [|p pre IH]; intros lo a b post x HT Hx.
  - cbn [app] in *.
    destruct (valid_from_inv _ _ _ HT) as (l & r & Hl & _ & Hlo & _ & _ & Hup).
    destruct Hup as [[_ Hnil]|(hi & Hu & Hhi & _)]; [discriminate|].
    cbn [bracket_rate]. rewrite Hl, Hu in *. qcases; try reflexivity; lra.
  - rewrite <- app_comm_cons in *.
    destruct (valid_from_inv _ _ _ HT) as (l & r & Hl & _ & Hlo & _ & _ & Hup).
    destruct Hup as [[_ Hnil]|(hi & Hu & Hhi & _ & Hrest)]; [now destruct pre|].
    destruct (valid_from_suffix _ _ _ _ Hrest) as (lo' & Hlo' & Ha).
    destruct (valid_from_inv _ _ _ Ha) as (la & _ & _ & _ & Hla & _ & _ & Hupa).
    destruct Hupa as [[_ Hnil]|(hia & Hua & Hhia & _)]; [discriminate|].
    cbn [bracket_rate]. rewrite Hl, Hu. rewrite Hua in Hx.
    qcases; try lra; apply (IH hi); auto; rewrite Hua; exact Hx.
Qed.

(** On a valid bracket table, an income exactly on the boundary between
    bracket [a] and the next bracket [b] (the upper bound of [a], which is
    the lower bound of [b]) gets the rate of [a], the lower bracket, from
    the lookup of calculate_marginal_rates of us_tax and of cn_tax: both
    bounds of a bracket are inclusive and the first matching bracket wins. *)
Lemma boundary_income_gets_lower_rate (pre : list TaxBracket) (a b : TaxBracket)
    (post : list TaxBracket) (x : Q) :
  valid_table (pre ++ a :: b :: post) = true ->
  Fin x =f= upper a ->
  Fin x =f= lower b /\
  bracket_rate (pre ++ a :: b :: post) (Fin x) = rate a /\
  cn_tax.bracket_rate (map as_tuple (pre ++ a :: b :: post)) (Fin x) = rate a.
Proof.
  intros HT Hx. split; [|split].
  - destruct (valid_from_suffix _ _ _ _ HT) as (lo' & _ & Ha).
    destruct (valid_from_inv _ _ _ Ha) as (_ & _ & _ & _ & _ & _ & _ & Hup).
    destruct Hup as [[_ Hnil]|(hi & Hu & _ & _ & Hb)]; [discriminate|].
    destruct (valid_from_inv _ _ _ Hb) as (lb & _ & Hlb & _ & Hlo & _).
    rewrite Hu in Hx. rewrite Hlb. cbn [feq] in *. lra.
  - exact (bracket_rate_at_upper pre 0 a b post x HT Hx).
  - rewrite cn_rate_us_rate. exact (bracket_rate_at_upper pre 0 a b post x HT Hx).
Qed.

(** ** The tables of us_tax.py *)

Ltac run_bind := cbn [mbind mret result_bind result_ret].

(** Both filing statuses have an entry in every table, and the bracket
    tables satisfy the invariant. *)
Lemma status_tables (status : string) :
  known_status status ->
  exists (sd casd : Q) (fb cab cgb : list TaxBracket),
    dict_get TaxConstants.STANDARD_DEDUCTION status = Ok (Fin sd) /\
    dict_get TaxConstants.FEDERAL_BRACKETS status = Ok fb /\
    valid_table fb = true /\
    dict_get TaxConstants.CA_STANDARD_DEDUCTION status = Ok (Fin casd) /\
    dict_get TaxConstants.CA_BRACKETS status = Ok cab /\
    valid_table cab = true /\
    dict_get capital_gains_brackets status = Ok cgb.
Proof.
  intros [->| ->]; eexists _, _, _, _, _; repeat split; reflexivity.
Qed.

Lemma unknown_status_lookup {A : Type} (v w : A) (status : string) :
  ~ known_status status ->
  dict_get ({[ "single"%string := v; "married"%string := w ]} : gmap string A) status =
  Raise (KeyError status).
Proof.
  intros H. unfold dict_get.
  rewrite lookup_insert_ne by (intros <-; apply H; now left).
  rewrite lookup_singleton_ne by (intros <-; apply H; now right).
  reflexivity.
Qed.

Lemma lookup_known_status {A : Type} (v w x : A) (status : string) :
  dict_get ({[ "single"%string := v; "married"%string := w ]} : gmap string A) status =
    Ok x ->
  known_status status.
Proof.
  intros H.
  destruct (decide (status = "single"%string)) as [->|Hs]; [now left|].
  destruct (decide (status = "married"%string)) as [->|Hm]; [now right|].
  rewrite unknown_status_lookup in H; [discriminate|].
  intros [E|E]; congruence.
Qed.

Lemma cn_brackets_tuples : map as_tuple cn_brackets = cn_tax.TaxConstants.TAX_BRACKETS.
Proof. reflexivity. Qed.

Lemma cn_brackets_valid : valid_table cn_brackets = true.
Proof. reflexivity. Qed.

(** [max(0, v)] is 0 when [v] is negative or NaN. *)
Lemma py_max_zero (v : pyfloat) : negative_or_nan v -> py_max (Fin 0) v = Fin 0.
Proof.
  intros [H| ->]; [|reflexivity].
  destruct v as [q| | |]; try reflexivity; try discriminate.
  qcases; try reflexivity; try discriminate. lra.
Qed.

Lemma us_loop_zero (brackets : list TaxBracket) (total_tax : pyfloat) :
  bracket_loop brackets total_tax (Fin 0) = total_tax.
Proof. destruct brackets; reflexivity. Qed.

(** No bracket of a valid table matches a negative or NaN income. *)
Lemma bracket_rate_invalid (T : list TaxBracket) :
  forall (lo : Q) (x : pyfloat),
    valid_from lo T = true -> 0 <= lo -> negative_or_nan x ->
    bracket_rate T x = Fin 0.
Proof.
  induction T as [|b rest IH]; intros lo x HT Hlo Hx; [reflexivity|].
  destruct (valid_from_inv _ _ _ HT) as (l & r & Hl & _ & Hll & _ & _ & Hup).
  cbn [bracket_rate]. rewrite Hl.
  assert (fle (Fin l) x = false) as ->.
  { destruct Hx as [Hx| ->]; [|reflexivity].
    destruct x as [q| | |]; try reflexivity; try discriminate.
    qcases; try reflexivity; try discriminate. lra. }
  cbn [andb].
  destruct Hup as [[_ ->]|(hi & _ & Hhi & _ & Hrest)]; [reflexivity|].
  apply (IH hi); auto. lra.
Qed.

(** C3 (code defect): the lookup of calculate_marginal_rates rates an income
    on a bracket boundary in the LOWER bracket, although the next unit of
    income is taxed in the higher one.  For a single filer and the income
    11600, us_tax reports the federal rate 10%, not 12%, while the bracket
    loop of calculate_federal_tax charges 12 on the 100 units of taxable
    amount above 11600; for a monthly salary of 3000 (annual income 36000),
    cn_tax reports 3%, not 10%, while the bracket loop of calculate_tax
    charges 10 on the 100 units above 36000.  The values are the same in
    exact arithmetic and on binary64. *)
Theorem boundary_income_rated_below_next_unit :
  (exists r, calculate_marginal_rates (Fin 11600) "single" = Ok r /\
             rates.federal r = Fin 0.10 /\ ~ rates.federal r =f= Fin 0.12) /\
  (us_liability federal_single (Fin 11700) - us_liability federal_single (Fin 11600))%py
    =f= Fin (0.12 * 100) /\
  cn_tax.rates.tax (cn_tax.calculate_marginal_rates (Fin 3000)) = Fin 0.03 /\
  ~ cn_tax.rates.tax (cn_tax.calculate_marginal_rates (Fin 3000)) =f= Fin 0.10 /\
  (cn_liability cn_brackets (Fin 36100) - cn_liability cn_brackets (Fin 36000))%py
    =f= Fin (0.10 * 100) /\
  (exists r, binary64.us_tax.calculate_marginal_rates 11600 "single" = Ok r /\
             binary64.us_tax.rates.federal r = 0.10%float) /\
  (binary64.us_liability binary64.federal_single 11700
   - binary64.us_liability binary64.federal_single 11600)%float = 12%float /\
  binary64.cn_tax.rates.tax (binary64.cn_tax.calculate_marginal_rates 3000)
    = 0.03%float /\
  (binary64.cn_liability binary64.cn_brackets 36100
   - binary64.cn_liability binary64.cn_brackets 36000)%float = 10%float.
Proof.
  repeat apply conj; try (vm_compute; reflexivity).
  - eexists. split; [reflexivity|]. split; [reflexivity|].
    intros H. vm_compute in H. discriminate H.
  - intros H. vm_compute in H. discriminate H.
  - eexists. split; reflexivity.
Qed.

(** ** Negative taxable base *)

(** calculate_federal_tax is the liability of the table of the filing status
    on the income above the standard deduction, clamped at 0. *)
Lemma calculate_federal_tax_liability (income : pyfloat) (status : string)
    (sd : pyfloat) (fb : list TaxBracket) :
  dict_get TaxConstants.STANDARD_DEDUCTION status = Ok sd ->
  dict_get TaxConstants.FEDERAL_BRACKETS status = Ok fb ->
  calculate_federal_tax income status =
    Ok (us_liability fb (py_max (Fin 0) (income - sd)%py)).
Proof.
  intros Hsd Hfb. unfold calculate_federal_tax.
  rewrite Hsd. run_bind. rewrite Hfb. reflexivity.
Qed.


Lemma federal_tax_of_invalid (income : pyfloat) (status : string) (sd : pyfloat) :
  dict_get TaxConstants.STANDARD_DEDUCTION status = Ok sd ->
  negative_or_nan (income - sd)%py ->
  calculate_federal_tax income status = Ok (Fin 0).
Proof.
  intros Hsd Hneg.
  pose proof (lookup_known_status _ _ _ _ Hsd) as Hs.
  destruct (status_tables status Hs) as (sd' & _ & fb & _ & _ & _ & Efb & _).
  rewrite (calculate_federal_tax_liability income status sd fb Hsd Efb).
  rewrite (py_max_zero _ Hneg). unfold us_liability. now rewrite us_loop_zero.
Qed.

Lemma ca_state_tax_of_invalid (income capital_gains : pyfloat) (status : string)
    (sd : pyfloat) :
  dict_get TaxConstants.CA_STANDARD_DEDUCTION status = Ok sd ->
  negative_or_nan (income + capital_gains - sd)%py ->
  calculate_ca_state_tax income capital_gains status = Ok (Fin 0).
Proof.
  intros Hsd Hneg.
  pose proof (lookup_known_status _ _ _ _ Hsd) as Hs.
  destruct (status_tables status Hs) as (_ & _ & _ & cab & _ & _ & _ & _ & _ & Ecab & _).
  unfold calculate_ca_state_tax. rewrite Hsd. run_bind. rewrite Ecab. run_bind.
  rewrite (py_max_zero _ Hneg), us_loop_zero. reflexivity.
Qed.

Lemma cn_tax_of_invalid (monthly_salary : pyfloat) (deductions : cn_tax.SpecialDeductions) :
  negative_or_nan
    (cn_tax.details.taxable_income (cn_tax.calculate_tax monthly_salary deductions)) ->
  cn_tax.details.tax (cn_tax.calculate_tax monthly_salary deductions) =f= Fin 0.
Proof.
  unfold cn_tax.calculate_tax.
  cbn [cn_tax.details.taxable_income cn_tax.details.tax].
  match goal with |- negative_or_nan ?t -> _ => generalize t end.
  intros ti [H| ->]; [|cbn; reflexivity].
  assert (fgt ti (Fin 0) = false) as ->.
  { destruct ti as [q| | |]; try reflexivity; try discriminate.
    qcases; try reflexivity; try discriminate. lra. }
  cbn. reflexivity.
Qed.

(** C4: when the deductions exceed the income the progressive tax is exactly
    zero: cn_tax.calculate_tax returns [tax = 0] whenever its
    [taxable_income] is negative, and us_tax.calculate_federal_tax and
    us_tax.calculate_ca_state_tax return 0 whenever the income (plus the
    capital gains, for the state tax) minus the standard deduction of the
    filing status is negative. *)
Theorem negative_base_yields_zero_tax :
  (forall (monthly_salary : pyfloat) (deductions : cn_tax.SpecialDeductions),
     flt (cn_tax.details.taxable_income
            (cn_tax.calculate_tax monthly_salary deductions)) (Fin 0) = true ->
     cn_tax.details.tax (cn_tax.calculate_tax monthly_salary deductions) =f= Fin 0) /\
  (forall (income : pyfloat) (status : string) (sd : pyfloat),
     dict_get TaxConstants.STANDARD_DEDUCTION status = Ok sd ->
     flt (income - sd)%py (Fin 0) = true ->
     calculate_federal_tax income status = Ok (Fin 0)) /\
  (forall (income capital_gains : pyfloat) (status : string) (sd : pyfloat),
     dict_get TaxConstants.CA_STANDARD_DEDUCTION status = Ok sd ->
     flt (income + capital_gains - sd)%py (Fin 0) = true ->
     calculate_ca_state_tax income capital_gains status = Ok (Fin 0)).
Proof.
  split; [|split].
  - intros s d H. apply cn_tax_of_invalid. now left.
  - intros income status sd Hsd H.
    apply (federal_tax_of_invalid income status sd Hsd). now left.
  - intros income cg status sd Hsd H.
    apply (ca_state_tax_of_invalid income cg status sd Hsd). now left.
Qed.

(** ** Capped-base levies *)

Ltac levy_unfold :=
  unfold saturating, cn_personal_total, cn_employer_total, us_social_security,
    cn_tax.calculate_social_insurance, calculate_fica_taxes, calculate_ca_sdi;
  cbn [cn_tax.personal.total cn_tax.insurance.personal cn_tax.employer.total
       cn_tax.insurance.employer cn_tax.insurance.base fica.social_security
       cn_tax.personal.pension cn_tax.personal.medical cn_tax.personal.unemployment
       cn_tax.personal.housing_fund];
  unfold cn_tax.TaxConstants.SOCIAL_INSURANCE_BASE_MIN,
    cn_tax.TaxConstants.SOCIAL_INSURANCE_BASE_MAX,
    cn_tax.TaxConstants.PENSION_RATE, cn_tax.TaxConstants.MEDICAL_RATE,
    cn_tax.TaxConstants.UNEMPLOYMENT_RATE, cn_tax.TaxConstants.HOUSING_FUND_RATE,
    cn_tax.TaxConstants.EMPLOYER_PENSION_RATE, cn_tax.TaxConstants.EMPLOYER_MEDICAL_RATE,
    cn_tax.TaxConstants.EMPLOYER_UNEMPLOYMENT_RATE,
    cn_tax.TaxConstants.EMPLOYER_INJURY_RATE, cn_tax.TaxConstants.EMPLOYER_MATERNITY_RATE,
    cn_tax.TaxConstants.EMPLOYER_HOUSING_FUND_RATE,
    TaxConstants.SS_LIMIT, TaxConstants.SDI_LIMIT.

Ltac levy_solve :=
  levy_unfold; repeat split; intros; qcases; try reflexivity; try lra.

Lemma cn_personal_total_saturating :
  saturating cn_personal_total 31884 (0.08 + 0.02 + 0.005 + 0.12).
Proof. levy_solve. Qed.

Lemma cn_employer_total_saturating :
  saturating cn_employer_total 31884 (0.16 + 0.095 + 0.005 + 0.004 + 0.008 + 0.12).
Proof. levy_solve. Qed.

Lemma us_social_security_saturating : saturating us_social_security 168600 0.062.
Proof. levy_solve. Qed.

Lemma ca_sdi_saturating : saturating calculate_ca_sdi 153164 0.009.
Proof. levy_solve. Qed.

(** C5: each capped-base levy is non-decreasing in gross income, equals
    [ceiling * rate] for every income at or above its ceiling, and is the
    same at the ceiling and one unit above it: the personal and the employer
    total of the CN social insurance (ceiling 31884, rate the sum of the
    component rates), the US Social Security tax (ceiling SS_LIMIT = 168600,
    rate 6.2%) and the CA SDI (ceiling SDI_LIMIT = 153164, rate 0.9%). *)
Theorem capped_levies_saturate :
  saturating cn_personal_total 31884 (0.08 + 0.02 + 0.005 + 0.12) /\
  saturating cn_employer_total 31884 (0.16 + 0.095 + 0.005 + 0.004 + 0.008 + 0.12) /\
  saturating us_social_security 168600 0.062 /\
  saturating calculate_ca_sdi 153164 0.009.
Proof.
  split; [exact cn_personal_total_saturating|].
  split; [exact cn_employer_total_saturating|].
  split; [exact us_social_security_saturating|exact ca_sdi_saturating].
Qed.

(** ** CN social insurance and the 20000 scenario *)

(** C9 (amended): for every monthly salary that is not NaN, zero, values
    below the minimum base and the infinities included,
    calculate_social_insurance returns
    [base = min(max(monthly_salary, 3613), 31884)], the base lies in
    [3613, 31884], each personal component is the base times its rate, the
    personal total is the sum [pension + medical + unemployment +
    housing_fund] of the four components, and the total is positive. *)
Theorem social_insurance_base_clamped (monthly_salary : pyfloat) :
  is_nan monthly_salary = false ->
  let r := cn_tax.calculate_social_insurance monthly_salary in
  let base := cn_tax.insurance.base r in
  let p := cn_tax.insurance.personal r in
  base = py_min (py_max monthly_salary (Fin 3613)) (Fin 31884) /\
  fle (Fin 3613) base = true /\ fle base (Fin 31884) = true /\
  cn_tax.personal.pension p = (base * Fin 0.08)%py /\
  cn_tax.personal.medical p = (base * Fin 0.02)%py /\
  cn_tax.personal.unemployment p = (base * Fin 0.005)%py /\
  cn_tax.personal.housing_fund p = (base * Fin 0.12)%py /\
  cn_tax.personal.total p =
    (cn_tax.personal.pension p + cn_tax.personal.medical p +
     cn_tax.personal.unemployment p + cn_tax.personal.housing_fund p)%py /\
  flt (Fin 0) (cn_tax.personal.total p) = true.
Proof.
  intros Hnan r base p. subst r base p.
  destruct monthly_salary as [q| | |]; try discriminate;
    levy_unfold; repeat split; qcases; try reflexivity; try lra.
Qed.

(** C9 (counterexample): a NaN salary passes [max] and [min] unchanged, so
    the base is NaN, neither at least 3613 nor at most 31884; and on
    binary64 the personal total of the salary 0, the sum of the four
    rounded products, is 812.92499999999995, while the base 3613 times
    [0.08 + 0.02 + 0.005 + 0.12] is 812.92500000000007. *)
Lemma social_insurance_nan_and_rounding :
  (let r := cn_tax.calculate_social_insurance NaN in
   cn_tax.insurance.base r = NaN /\
   fle (Fin 3613) (cn_tax.insurance.base r) = false /\
   fle (cn_tax.insurance.base r) (Fin 31884) = false) /\
  (let r := binary64.cn_tax.calculate_social_insurance nan in
   PrimFloat.is_nan (binary64.cn_tax.insurance.base r) = true /\
   (3613 <=? binary64.cn_tax.insurance.base r)%float = false /\
   (binary64.cn_tax.insurance.base r <=? 31884)%float = false) /\
  (let r := binary64.cn_tax.calculate_social_insurance 0 in
   let base := binary64.cn_tax.insurance.base r in
   base = 3613%float /\
   binary64.cn_personal_total 0 = 812.92499999999995%float /\
   (base * (0.08 + 0.02 + 0.005 + 0.12))%float = 812.92500000000007%float /\
   (binary64.cn_personal_total 0
    =? base * (0.08 + 0.02 + 0.005 + 0.12))%float = false).
Proof. repeat split; vm_compute; reflexivity. Qed.

(** C8: for a monthly salary of 20000 with the threshold 5000 and no special
    deduction, calculate_tax yields
    [taxable_income = 20000 - 5000 - personal total of the social insurance]
    (that is 10500), and the monthly tax is the liability of the bracket
    table on [taxable_income * 12 = 126000], computed by hand as
    [36000 * 0.03 + (126000 - 36000) * 0.10], divided by 12 (that is 840). *)
Theorem cn_scenario_20000 :
  let r := cn_tax.calculate_tax (Fin 20000) no_deductions in
  let ti := cn_tax.details.taxable_income r in
  ti =f= (Fin 20000 - Fin 5000 - cn_personal_total (Fin 20000))%py /\
  ti =f= Fin 10500 /\
  cn_tax.details.tax r =f= fdiv_lit (cn_liability cn_brackets (ti * Fin 12)%py) 12 /\
  cn_tax.details.tax r =f= Fin ((36000 * 0.03 + (126000 - 36000) * 0.10) / 12) /\
  cn_tax.details.tax r =f= Fin 840.
Proof.
  repeat split; vm_compute; reflexivity.
Qed.

(** ** Negative and NaN inputs *)

Lemma standard_deduction_nonneg (status : string) :
  known_status status ->
  exists sd, dict_get TaxConstants.STANDARD_DEDUCTION status = Ok (Fin sd) /\ 0 <= sd.
Proof.
  intros [->| ->]; [exists 14600|exists 29200]; split; try reflexivity; lra.
Qed.

Lemma invalid_minus_nonneg (a : pyfloat) (d : Q) :
  negative_or_nan a -> 0 <= d -> negative_or_nan (a - Fin d)%py.
Proof.
  intros [H| ->] Hd; [|now right].
  left. destruct a as [q| | |]; try discriminate; try reflexivity.
  qcases; try reflexivity; try discriminate. lra.
Qed.

Lemma invalid_times_12 (a : pyfloat) :
  negative_or_nan a -> negative_or_nan (a * Fin 12)%py.
Proof.
  intros [H| ->]; [|now right].
  left. destruct a as [q| | |]; try discriminate; try reflexivity.
  qcases; try reflexivity; try discriminate. lra.
Qed.

Lemma marginal_rates_of_invalid (income : pyfloat) (status : string) :
  known_status status -> negative_or_nan income ->
  exists r, calculate_marginal_rates income status = Ok r /\
            rates.federal r = Fin 0 /\ rates.california r = Fin 0.
Proof.
  intros Hs Hx.
  destruct (status_tables status Hs) as (_ & _ & fb & cab & _ & _ & Efb & Vfb & _ & Ecab & Vcab & _).
  unfold calculate_marginal_rates. rewrite Efb. run_bind. rewrite Ecab. run_bind.
  eexists. split; [reflexivity|].
  cbn [rates.federal rates.california].
  split; apply (bracket_rate_invalid _ 0); auto; lra.
Qed.

Lemma federal_tax_of_infinity (status : string) :
  known_status status -> calculate_federal_tax PInf status = Ok PInf.
Proof. intros [->| ->]; reflexivity. Qed.

Lemma marginal_rates_of_infinity (status : string) :
  known_status status ->
  exists r, calculate_marginal_rates PInf status = Ok r /\
            rates.federal r = Fin 0.37 /\ rates.california r = Fin 0.123.
Proof. intros [->| ->]; eexists; repeat split. Qed.

Lemma cn_tax_of_infinity (monthly_salary : pyfloat)
    (deductions : cn_tax.SpecialDeductions) :
  cn_tax.details.taxable_income (cn_tax.calculate_tax monthly_salary deductions)
    = PInf ->
  cn_tax.details.tax (cn_tax.calculate_tax monthly_salary deductions) = PInf.
Proof.
  unfold cn_tax.calculate_tax.
  cbn [cn_tax.details.taxable_income cn_tax.details.tax].
  intros ->. reflexivity.
Qed.

(** C7 (counterexample): a negative, NaN or infinite amount is not
    rejected.  For a single filer, calculate_federal_tax returns 0 on the
    incomes -1 and NaN and +infinity on the income +infinity, and raises
    nothing, and calculate_marginal_rates returns rates on the income -1;
    cn_tax.calculate_tax returns the tax 0 on the salary NaN; and with the
    salary 20000 and a housing-rent deduction of -1000 it returns the
    special deductions -1000 and the taxable income 11500.  On binary64 the
    values are the same. *)
Lemma invalid_input_returns_number :
  calculate_federal_tax (Fin (-1)) "single" = Ok (Fin 0) /\
  calculate_federal_tax NaN "single" = Ok (Fin 0) /\
  calculate_federal_tax PInf "single" = Ok PInf /\
  (forall e, calculate_federal_tax (Fin (-1)) "single" <> Raise e) /\
  (exists r, calculate_marginal_rates (Fin (-1)) "single" = Ok r /\
             rates.federal r = Fin 0) /\
  cn_tax.details.tax (cn_tax.calculate_tax NaN no_deductions) =f= Fin 0 /\
  (let d := {| cn_tax.housing_rent := Fin (-1000);
               cn_tax.housing_loan := Fin 0;
               cn_tax.children_edu := Fin 0;
               cn_tax.continuing_edu := Fin 0;
               cn_tax.elderly_care := Fin 0;
               cn_tax.medical_expense := Fin 0 |} in
   cn_tax.details.special_deductions (cn_tax.calculate_tax (Fin 20000) d)
     =f= Fin (-1000) /\
   cn_tax.details.taxable_income (cn_tax.calculate_tax (Fin 20000) d)
     =f= Fin 11500) /\
  binary64.us_tax.calculate_federal_tax (-1) "single" = Ok 0%float /\
  binary64.us_tax.calculate_federal_tax nan "single" = Ok 0%float /\
  binary64.us_tax.calculate_federal_tax infinity "single" = Ok infinity /\
  (let d := {| binary64.cn_tax.housing_rent := (-1000)%float;
               binary64.cn_tax.housing_loan := 0%float;
               binary64.cn_tax.children_edu := 0%float;
               binary64.cn_tax.continuing_edu := 0%float;
               binary64.cn_tax.elderly_care := 0%float;
               binary64.cn_tax.medical_expense := 0%float |} in
   binary64.cn_tax.details.special_deductions (binary64.cn_tax.calculate_tax 20000 d)
     = (-1000)%float /\
   binary64.cn_tax.details.taxable_income (binary64.cn_tax.calculate_tax 20000 d)
     = 11500%float).
Proof.
  repeat split; try (vm_compute; reflexivity).
  - intros e H. vm_compute in H. discriminate H.
  - eexists. split; reflexivity.
Qed.

(** C7 (amended): negative, NaN and infinite amounts are computed with, not
    rejected.  For a filing status of the tables, calculate_federal_tax
    returns 0 and calculate_marginal_rates returns rates whose federal and
    California bracket rates are 0 on every negative or NaN income, and on
    the income +infinity they return +infinity and the rates 37% and 12.3%
    of the last brackets; cn_tax.calculate_tax returns the tax 0 on every
    negative or NaN taxable income and +infinity on the taxable income
    +infinity, and cn_tax.calculate_marginal_rates the bracket rate 0 on
    every negative or NaN salary and 45% on the salary +infinity;
    deductions of any sign are summed into [special_deductions] and
    subtracted from the taxable income.  The only failure is the KeyError
    of an unknown filing status. *)
Theorem invalid_input_not_rejected :
  (forall (income : pyfloat) (status : string),
     known_status status -> negative_or_nan income ->
     calculate_federal_tax income status = Ok (Fin 0)) /\
  (forall (income : pyfloat) (status : string),
     known_status status -> negative_or_nan income ->
     exists r, calculate_marginal_rates income status = Ok r /\
               rates.federal r = Fin 0 /\ rates.california r = Fin 0) /\
  (forall (monthly_salary : pyfloat) (deductions : cn_tax.SpecialDeductions),
     negative_or_nan
       (cn_tax.details.taxable_income (cn_tax.calculate_tax monthly_salary deductions)) ->
     cn_tax.details.tax (cn_tax.calculate_tax monthly_salary deductions) =f= Fin 0) /\
  (forall monthly_salary : pyfloat,
     negative_or_nan monthly_salary ->
     cn_tax.rates.tax (cn_tax.calculate_marginal_rates monthly_salary) = Fin 0) /\
  (forall status : string,
     known_status status ->
     calculate_federal_tax PInf status = Ok PInf /\
     exists r, calculate_marginal_rates PInf status = Ok r /\
               rates.federal r = Fin 0.37 /\ rates.california r = Fin 0.123) /\
  (forall (monthly_salary : pyfloat) (deductions : cn_tax.SpecialDeductions),
     cn_tax.details.taxable_income (cn_tax.calculate_tax monthly_salary deductions)
       = PInf ->
     cn_tax.details.tax (cn_tax.calculate_tax monthly_salary deductions) = PInf) /\
  cn_tax.rates.tax (cn_tax.calculate_marginal_rates PInf) = Fin 0.45 /\
  (forall s d1 d2 d3 d4 d5 d6 : Q,
     let d := {| cn_tax.housing_rent := Fin d1;
                 cn_tax.housing_loan := Fin d2;
                 cn_tax.children_edu := Fin d3;
                 cn_tax.continuing_edu := Fin d4;
                 cn_tax.elderly_care := Fin d5;
                 cn_tax.medical_expense := Fin d6 |} in
     let r := cn_tax.calculate_tax (Fin s) d in
     cn_tax.details.special_deductions r =f= Fin (d1 + d2 + d3 + d4 + d5 + d6) /\
     cn_tax.details.taxable_income r =f=
       (Fin s - Fin 5000 - cn_personal_total (Fin s)
        - Fin (d1 + d2 + d3 + d4 + d5 + d6))%py) /\
  (forall (income : pyfloat) (status : string),
     ~ known_status status ->
     calculate_federal_tax income status = Raise (KeyError status)).
Proof.
  repeat apply conj.
  - intros income status Hs Hx.
    destruct (standard_deduction_nonneg status Hs) as (sd & Esd & Hsd).
    apply (federal_tax_of_invalid income status (Fin sd) Esd).
    now apply invalid_minus_nonneg.
  - exact marginal_rates_of_invalid.
  - exact cn_tax_of_invalid.
  - intros s Hs. unfold cn_tax.calculate_marginal_rates. cbn [cn_tax.rates.tax].
    rewrite <- cn_brackets_tuples, cn_rate_us_rate.
    apply (bracket_rate_invalid _ 0); [exact cn_brackets_valid|lra|].
    now apply invalid_times_12.
  - intros status Hs. split;
      [exact (federal_tax_of_infinity status Hs)
      |exact (marginal_rates_of_infinity status Hs)].
  - exact cn_tax_of_infinity.
  - reflexivity.
  - intros s d1 d2 d3 d4 d5 d6 d r. subst d r.
    unfold cn_tax.calculate_tax, cn_personal_total.
    cbn [cn_tax.details.special_deductions cn_tax.details.taxable_income
         cn_tax.housing_rent cn_tax.housing_loan cn_tax.children_edu
         cn_tax.continuing_edu cn_tax.elderly_care cn_tax.medical_expense].
    levy_unfold. split; qcases; try reflexivity; lra.
  - intros income status Hs. unfold calculate_federal_tax.
    unfold TaxConstants.STANDARD_DEDUCTION.
    rewrite (unknown_status_lookup _ _ status Hs). reflexivity.
Qed.

(** ** The 401(k) contribution and the payroll taxes *)

(** For a filing status of the tables, the loop body of
    [calculate_tax_results] raises nothing, and its FICA taxes and SDI are
    those of the unadjusted annual income. *)
Lemma tax_result_for_ok (annual_income capital_gains actual_401k adjusted_income
    : pyfloat) (status : string) :
  known_status status ->
  exists res,
    tax_result_for annual_income capital_gains actual_401k adjusted_income status
      = Ok res /\
    fica_taxes res = calculate_fica_taxes annual_income /\
    sdi_tax res = calculate_ca_sdi annual_income.
Proof.
  intros Hs.
  destruct (status_tables status Hs)
    as (sd & casd & fb & cab & cgb & Esd & Efb & _ & Ecasd & Ecab & _ & Ecgb).
  unfold tax_result_for, calculate_federal_tax, calculate_capital_gains_tax,
    calculate_ca_state_tax, calculate_marginal_rates.
  rewrite Esd, Efb, Ecasd, Ecab, Ecgb. run_bind.
  eexists. split; [reflexivity|]. split; reflexivity.
Qed.

Lemma tax_results_ok (annual_income capital_gains actual_401k : pyfloat) :
  exists single married,
    calculate_tax_results annual_income capital_gains actual_401k =
      Ok (<["married"%string := married]> (<["single"%string := single]> ∅)) /\
    fica_taxes single = calculate_fica_taxes annual_income /\
    sdi_tax single = calculate_ca_sdi annual_income /\
    fica_taxes married = calculate_fica_taxes annual_income /\
    sdi_tax married = calculate_ca_sdi annual_income.
Proof.
  unfold calculate_tax_results. cbn [tax_results_loop].
  destruct (tax_result_for_ok annual_income capital_gains actual_401k
              (annual_income - actual_401k)%py "single" (or_introl eq_refl))
    as (s & -> & Hs1 & Hs2).
  destruct (tax_result_for_ok annual_income capital_gains actual_401k
              (annual_income - actual_401k)%py "married" (or_intror eq_refl))
    as (m & -> & Hm1 & Hm2).
  run_bind. exists s, m. auto.
Qed.

Lemma tax_results_lookup (single married res : TaxResult) (status : string) :
  (<["married"%string := married]> (<["single"%string := single]> ∅)
     : gmap string TaxResult) !! status = Some res ->
  (status = "married"%string /\ res = married) \/
  (status = "single"%string /\ res = single).
Proof.
  intros H. apply lookup_insert_Some in H as [[<- <-]|[_ H]]; [now left|].
  apply lookup_insert_Some in H as [[<- <-]|[_ H]]; [now right|].
  rewrite lookup_empty in H. discriminate.
Qed.

(** C10 (counterexample): with an annual income of 100000 and no capital
    gains, a 401(k) contribution of 23000 instead of 0 changes the
    [total_tax] of the single filer, a field other than federal_tax,
    capital_gains_tax, ca_tax, marginal_rates and net_income. *)
Lemma total_tax_depends_on_401k :
  exists r1 r2 t1 t2,
    calculate_tax_results (Fin 100000) (Fin 0) (Fin 0) = Ok r1 /\
    calculate_tax_results (Fin 100000) (Fin 0) (Fin 23000) = Ok r2 /\
    r1 !! "single"%string = Some t1 /\
    r2 !! "single"%string = Some t2 /\
    ~ total_tax t1 =f= total_tax t2.
Proof.
  eexists _, _, _, _.
  split; [reflexivity|]. split; [reflexivity|].
  split; [reflexivity|]. split; [reflexivity|].
  intros H. vm_compute in H. discriminate H.
Qed.

(** C10 (amended): calculate_tax_results raises nothing, and in every
    TaxResult that it returns the [fica_taxes] and the [sdi_tax] are those
    of the unadjusted annual income; hence two calls with the same annual
    income and capital gains return the same [fica_taxes] and [sdi_tax] for
    every filing status, whatever the two 401(k) contributions.  The fields
    that the contribution can change are federal_tax, capital_gains_tax,
    ca_tax, total_tax, marginal_rates and net_income. *)
Theorem payroll_taxes_ignore_401k (annual_income capital_gains k1 k2 : pyfloat) :
  exists r1 r2,
    calculate_tax_results annual_income capital_gains k1 = Ok r1 /\
    calculate_tax_results annual_income capital_gains k2 = Ok r2 /\
    (forall status, is_Some (r1 !! status) <-> known_status status) /\
    (forall status, is_Some (r2 !! status) <-> known_status status) /\
    (forall status res,
       r1 !! status = Some res \/ r2 !! status = Some res ->
       fica_taxes res = calculate_fica_taxes annual_income /\
       sdi_tax res = calculate_ca_sdi annual_income) /\
    (forall status,
       fica_taxes <$> (r1 !! status) = fica_taxes <$> (r2 !! status) /\
       sdi_tax <$> (r1 !! status) = sdi_tax <$> (r2 !! status)).
Proof.
  destruct (tax_results_ok annual_income capital_gains k1)
    as (s1 & m1 & -> & Hs1 & Hs1' & Hm1 & Hm1').
  destruct (tax_results_ok annual_income capital_gains k2)
    as (s2 & m2 & -> & Hs2 & Hs2' & Hm2 & Hm2').
  assert (Hdom : forall (s m : TaxResult) status,
             is_Some ((<["married"%string := m]> (<["single"%string := s]> ∅)
                       : gmap string TaxResult) !! status) <-> known_status status).
  { intros s m status. split.
    - intros [res H]. apply tax_results_lookup in H as [[-> _]|[-> _]];
        [now right|now left].
    - intros [->| ->]; eexists; reflexivity. }
  eexists _, _. split; [reflexivity|]. split; [reflexivity|].
  split; [apply Hdom|]. split; [apply Hdom|]. split.
  - intros status res [H|H];
      apply tax_results_lookup in H as [[_ ->]|[_ ->]]; auto.
  - intros status.
    destruct (decide (status = "married"%string)) as [->|Hm].
    { rewrite !lookup_insert_eq. cbn. rewrite Hm1, Hm1', Hm2, Hm2'. auto. }
    rewrite !(lookup_insert_ne _ _ _ _ (not_eq_sym Hm)).
    destruct (decide (status = "single"%string)) as [->|Hs].
    { rewrite !lookup_insert_eq. cbn. rewrite Hs1, Hs1', Hs2, Hs2'. auto. }
    rewrite !(lookup_insert_ne _ _ _ _ (not_eq_sym Hs)).
    rewrite !lookup_empty. auto.
Qed.

(** ** The functions and their loops *)

(** The monthly tax of cn_tax.calculate_tax is the liability of the CN table
    on twelve times the taxable income, divided by 12, and 0 unless the
    taxable income is positive. *)
Lemma calculate_tax_liability (monthly_salary : pyfloat)
    (deductions : cn_tax.SpecialDeductions) :
  let r := cn_tax.calculate_tax monthly_salary deductions in
  let ti := cn_tax.details.taxable_income r in
  cn_tax.details.tax r =
    fdiv_lit (if fgt ti (Fin 0) then cn_liability cn_brackets (ti * Fin 12)%py
              else Fin 0) 12.
Proof. reflexivity. Qed.

(** A single filer with an income of 60000: the taxable income 45400 fills
    the 10% bracket and reaches into the 12% bracket. *)
Example federal_tax_60000_single :
  exists v, calculate_federal_tax (Fin 60000) "single" = Ok v /\
            v =f= Fin (11600 * 0.10 + (45400 - 11600) * 0.12) /\
            v =f= Fin 5216.
Proof.
  eexists. split; [reflexivity|]. split; vm_compute; reflexivity.
Qed.

(** The CN liability on the boundary 144000 is the tax of the two brackets
    below it. *)
Example cn_liability_144000 :
  cn_liability cn_brackets (Fin 144000) =f= Fin (36000 * 0.03 + 108000 * 0.10).
Proof. vm_compute. reflexivity. Qed.

(** Python's [min] and [max] let a NaN first argument through: a NaN salary
    gives a NaN base. *)
Remark social_insurance_of_nan :
  cn_tax.insurance.base (cn_tax.calculate_social_insurance NaN) = NaN.
Proof. reflexivity. Qed.

(** ** Instances on the tables of the two modules *)



Lemma forward_and_remaining_loops_agree_witness :
  valid_table federal_single = true /\ 0 <= 50000 /\
  cn_liability federal_single (Fin 50000) =f= us_liability federal_single (Fin 50000).
Proof.
  assert (H0 : 0 <= 50000) by (apply Qle_bool_imp_le; reflexivity).
  split; [reflexivity|]. split; [exact H0|].
  exact (forward_and_remaining_loops_agree federal_single 50000 eq_refl H0).
Defined.

Lemma negative_base_yields_zero_tax_witness :
  flt (cn_tax.details.taxable_income
         (cn_tax.calculate_tax (Fin 3000) no_deductions)) (Fin 0) = true /\
  cn_tax.details.tax (cn_tax.calculate_tax (Fin 3000) no_deductions) =f= Fin 0 /\
  calculate_federal_tax (Fin 10000) "single" = Ok (Fin 0) /\
  calculate_ca_state_tax (Fin 1000) (Fin 0) "married" = Ok (Fin 0).
Proof.
  destruct negative_base_yields_zero_tax as (Hcn & Hfed & Hca).
  split; [reflexivity|].
  split; [apply Hcn; reflexivity|].
  split.
  - apply (Hfed (Fin 10000) "single"%string (Fin 14600)); reflexivity.
  - apply (Hca (Fin 1000) (Fin 0) "married"%string (Fin 10726)); reflexivity.
Defined.

Lemma capped_levies_saturate_witness :
  168600 <= 200000 /\
  us_social_security (Fin 200000) =f= Fin (168600 * 0.062).
Proof.
  assert (H : 168600 <= 200000) by (apply Qle_bool_imp_le; reflexivity).
  split; [exact H|].
  destruct capped_levies_saturate as (_ & _ & (_ & Hsat & _) & _).
  exact (Hsat 200000 H).
Defined.

Lemma invalid_input_not_rejected_witness :
  negative_or_nan (Fin (-1)) /\
  calculate_federal_tax (Fin (-1)) "married" = Ok (Fin 0) /\
  cn_tax.rates.tax (cn_tax.calculate_marginal_rates NaN) = Fin 0 /\
  calculate_federal_tax PInf "married" = Ok PInf /\
  calculate_federal_tax (Fin 50000) "head_of_household" =
    Raise (KeyError "head_of_household").
Proof.
  destruct invalid_input_not_rejected
    as (Hfed & _ & _ & Hcn & Hinf & _ & _ & _ & Hkey).
  assert (Hneg : negative_or_nan (Fin (-1))) by (left; reflexivity).
  split; [exact Hneg|].
  split; [apply Hfed; [now right|exact Hneg]|].
  split; [apply Hcn; now right|].
  split; [apply (Hinf "married"%string); now right|].
  apply Hkey. intros [H|H]; discriminate H.
Defined.

Lemma social_insurance_base_clamped_witness :
  is_nan (Fin 0) = false /\
  cn_tax.insurance.base (cn_tax.calculate_social_insurance (Fin 0)) =
    py_min (py_max (Fin 0) (Fin 3613)) (Fin 31884) /\
  flt (Fin 0) (cn_personal_total (Fin 0)) = true.
Proof.
  split; [reflexivity|].
  destruct (social_insurance_base_clamped (Fin 0) eq_refl)
    as (Hbase & _ & _ & _ & _ & _ & _ & _ & Hpos).
  split; [exact Hbase|exact Hpos].
Defined.

Lemma payroll_taxes_ignore_401k_witness :
  exists r2 res,
    calculate_tax_results (Fin 100000) (Fin 0) (Fin 23000) = Ok r2 /\
    r2 !! "single"%string = Some res /\
    fica_taxes res = calculate_fica_taxes (Fin 100000) /\
    sdi_tax res = calculate_ca_sdi (Fin 100000).
Proof.
  destruct (payroll_taxes_ignore_401k (Fin 100000) (Fin 0) (Fin 0) (Fin 23000))
    as (r1 & r2 & E1 & E2 & D1 & D2 & H & _).
  destruct (proj2 (D2 "single"%string) (or_introl eq_refl)) as [res Hres].
  exists r2, res. split; [exact E2|]. split; [exact Hres|].
  apply (H "single"%string). right. exact Hres.
Defined.

(** * Further properties of the two modules *)

(** ** Growth of the liability under a bound on the rates *)

Lemma rate_slice_bound (r rho d : Q) : r <= rho -> 0 <= d -> d * r <= d * rho.
Proof. intros. nra. Qed.

Lemma rates_at_most_cons (rho : Q) (b : TaxBracket) (rest : list TaxBracket) (r : Q) :
  rates_at_most rho (b :: rest) = true -> rate b = Fin r ->
  r <= rho /\ rates_at_most rho rest = true.
Proof.
  unfold rates_at_most. cbn [forallb]. intros H Hr. rewrite Hr in H.
  apply andb_prop in H as [H1 H2]. split; [|exact H2].
  qcases; [assumption|discriminate].
Qed.

Lemma cn_loop_growth_bounded (T : list TaxBracket) :
  forall (rho lo acc x y : Q),
    valid_from lo T = true -> rates_at_most rho T = true -> lo <= x -> x <= y ->
    exists qx qy,
      cn_tax.bracket_loop (map as_tuple T) (Fin acc) (Fin x) = Fin qx /\
      cn_tax.bracket_loop (map as_tuple T) (Fin acc) (Fin y) = Fin qy /\
      qy - qx <= rho * (y - x).
Proof.
  induction T as [|b rest IH]; intros rho lo acc x y HT HR Hx Hy; [discriminate|].
  destruct (valid_from_inv _ _ _ HT) as (l & r & Hl & Hr & Hlo & Hr0 & Hr1 & Hup).
  destruct (rates_at_most_cons _ _ _ _ HR Hr) as [Hrho HR'].
  assert (Hnn : 0 <= rho * (y - x)) by nra.
  rewrite !cn_loop_cons, Hl, Hr.
  destruct Hup as [[Hu ->]|(hi & Hu & Hhi & _ & Hrest)]; rewrite Hu.
  - rewrite !cn_loop_nil.
    pose proof (rate_slice_bound r rho (y - x) Hrho ltac:(lra)).
    pose proof (rate_slice r (x - l) Hr0 Hr1 ltac:(lra)) as [? ?].
    pose proof (rate_slice_bound r rho (y - l) Hrho ltac:(lra)).
    qcases; eexists _, _; (split; [reflexivity|]); (split; [reflexivity|]); lra.
  - destruct (Qlt_le_dec hi x) as [Hxh|Hxh].
    + qcases; try lra.
      apply (IH rho hi); auto; lra.
    + destruct (Qlt_le_dec hi y) as [Hyh|Hyh].
      * destruct (IH rho hi (acc + (hi - l) * r) hi y Hrest HR' ltac:(lra) ltac:(lra))
          as (qh & qy & Eh & Ey & G).
        rewrite (cn_loop_below rest hi _ hi Hrest ltac:(lra)) in Eh.
        injection Eh as <-.
        pose proof (rate_slice_bound r rho (hi - x) Hrho ltac:(lra)).
        pose proof (rate_slice r (x - l) Hr0 Hr1 ltac:(lra)) as [? ?].
        pose proof (rate_slice_bound r rho (hi - l) Hrho ltac:(lra)).
        qcases; try lra; rewrite ?Ey;
          rewrite ?(cn_loop_below rest hi _ x Hrest Hxh);
          eexists _, _; (split; [reflexivity|]); (split; [reflexivity|]); lra.
      * pose proof (rate_slice_bound r rho (y - x) Hrho ltac:(lra)).
        pose proof (rate_slice r (x - l) Hr0 Hr1 ltac:(lra)) as [? ?].
        pose proof (rate_slice_bound r rho (y - l) Hrho ltac:(lra)).
        qcases; try lra;
          rewrite ?(cn_loop_below rest hi _ x Hrest Hxh);
          rewrite ?(cn_loop_below rest hi _ y Hrest Hyh);
          eexists _, _; (split; [reflexivity|]); (split; [reflexivity|]); lra.
Qed.

Lemma liability_growth_rho (T : list TaxBracket) (L : pyfloat -> pyfloat)
    (rho x y : Q) :
  valid_table T = true -> rates_at_most rho T = true ->
  L = cn_liability T \/ L = us_liability T ->
  0 <= x -> x <= y ->
  exists qx qy,
    L (Fin x) = Fin qx /\ L (Fin y) = Fin qy /\
    0 <= qx /\ 0 <= qy - qx /\ qy - qx <= rho * (y - x).
Proof.
  intros HT HR HL Hx Hy.
  destruct (cn_loop_growth_bounded T rho 0 0 x y HT HR Hx Hy) as (qx & qy & Ex & Ey & G).
  destruct (liability_growth T HT _ (or_introl eq_refl) x y Hx Hy)
    as (qx' & qy' & Ex' & Ey' & Hpos & Hmono & _).
  unfold cn_liability in Ex', Ey'. rewrite Ex in Ex'. rewrite Ey in Ey'.
  injection Ex' as <-. injection Ey' as <-.
  destruct HL as [->| ->].
  - exists qx, qy. repeat split; auto; lra.
  - destruct (liability_values T HT x Hx) as (cx & ux & Ecx & Eux & Hux).
    destruct (liability_values T HT y ltac:(lra)) as (cy & uy & Ecy & Euy & Huy).
    unfold cn_liability in Ecx, Ecy. rewrite Ex in Ecx. rewrite Ey in Ecy.
    injection Ecx as <-. injection Ecy as <-.
    exists ux, uy. repeat split; auto; lra.
Qed.

(** X1: on a valid bracket table none of whose rates exceeds [rho], the
    liability computed by either loop grows by at most [rho] per unit of
    taxable amount: for [0 <= x <= y], [0 <= L y - L x <= rho * (y - x)]. *)
Theorem liability_growth_bounded_by_top_rate (T : list TaxBracket)
    (L : pyfloat -> pyfloat) (rho x y : Q) :
  valid_table T = true -> rates_at_most rho T = true ->
  L = cn_liability T \/ L = us_liability T ->
  0 <= x -> x <= y ->
  exists qx qy,
    L (Fin x) = Fin qx /\ L (Fin y) = Fin qy /\
    0 <= qy - qx /\ qy - qx <= rho * (y - x).
Proof.
  intros HT HR HL Hx Hy.
  destruct (liability_growth_rho T L rho x y HT HR HL Hx Hy)
    as (qx & qy & Ex & Ey & _ & G1 & G2).
  exists qx, qy. auto.
Qed.

(** ** Two tables with the same rates *)

Lemma shifted_up_inv (a : TaxBracket) (A' : list TaxBracket) (b : TaxBracket)
    (B' : list TaxBracket) :
  shifted_up (a :: A') (b :: B') = true ->
  exists la lb ra rb,
    lower a = Fin la /\ lower b = Fin lb /\ rate a = Fin ra /\ rate b = Fin rb /\
    la <= lb /\ ra == rb /\
    (forall r', A' <> [] -> head_rate A' = Fin r' -> ra <= r') /\
    shifted_up A' B' = true.
Proof.
  cbn [shifted_up].
  destruct (lower a) as [la| | |]; try discriminate.
  destruct (lower b) as [lb| | |]; try discriminate.
  destruct (rate a) as [ra| | |] eqn:Ea; try discriminate.
  destruct (rate b) as [rb| | |]; try discriminate.
  intros H. apply andb_prop in H as [H H4]. apply andb_prop in H as [H H3].
  apply andb_prop in H as [H1 H2].
  exists la, lb, ra, rb.
  split; [reflexivity|]. split; [reflexivity|]. split; [reflexivity|].
  split; [reflexivity|].
  split; [now apply Qle_bool_iff|].
  split; [now apply Qeq_bool_iff|].
  split; [|exact H4].
  intros r' Hne Hr'. destruct A' as [|a' A'']; [congruence|].
  cbn [head_rate] in Hr'. rewrite Hr' in H3. now apply Qle_bool_iff.
Qed.

Lemma cn_loop_shifted (A : list TaxBracket) :
  forall (B : list TaxBracket) (loA loB accA accB x r1 : Q),
    valid_from loA A = true -> valid_from loB B = true ->
    shifted_up A B = true -> head_rate A = Fin r1 ->
    exists qa qb,
      cn_tax.bracket_loop (map as_tuple A) (Fin accA) (Fin x) = Fin qa /\
      cn_tax.bracket_loop (map as_tuple B) (Fin accB) (Fin x) = Fin qb /\
      r1 * (Qsmaller x loB - Qsmaller x loA) <= (qa - accA) - (qb - accB).
Proof.
  induction A as [|a A' IH]; intros B loA loB accA accB x r1 HA HB HS Hr1;
    [discriminate|].
  destruct B as [|b B']; [discriminate|].
  destruct (shifted_up_inv _ _ _ _ HS)
    as (la & lb & ra & rb & Hla & Hlb & Hra & Hrb & Hlab & Hrab & Hnext & HS').
  destruct (valid_from_inv _ _ _ HA) as (la' & ra' & Hla' & Hra' & HloA & Hr0 & _ & HupA).
  destruct (valid_from_inv _ _ _ HB) as (lb' & rb' & Hlb' & Hrb' & HloB & _ & _ & HupB).
  rewrite Hla in Hla'. injection Hla' as <-. rewrite Hra in Hra'. injection Hra' as <-.
  rewrite Hlb in Hlb'. injection Hlb' as <-. rewrite Hrb in Hrb'. injection Hrb' as <-.
  cbn [head_rate] in Hr1. rewrite Hra in Hr1. injection Hr1 as <-.
  rewrite !cn_loop_cons, Hla, Hlb, Hra, Hrb. unfold Qsmaller.
  destruct HupA as [[HuA ->]|(hiA & HuA & HhiA & HneA & HA')]; rewrite HuA.
  - destruct B' as [|? ?]; [|discriminate].
    destruct HupB as [[HuB _]|(hiB & _ & _ & HneB & _)]; [|congruence].
    rewrite HuB, !cn_loop_nil.
    qcases; eexists _, _; (split; [reflexivity|]); (split; [reflexivity|]); nra.
  - destruct HupB as [[_ ->]|(hiB & HuB & HhiB & HneB & HB')];
      [destruct A'; [congruence|discriminate]|].
    rewrite HuB.
    destruct A' as [|a' A'']; [congruence|].
    destruct B' as [|b' B'']; [discriminate|].
    destruct (shifted_up_inv _ _ _ _ HS')
      as (la' & lb' & ra' & _ & Hla' & Hlb' & Hra' & _ & Hlab' & _).
    destruct (valid_from_inv _ _ _ HA') as (? & _ & E1 & _ & HloA' & _).
    destruct (valid_from_inv _ _ _ HB') as (? & _ & E2 & _ & HloB' & _).
    rewrite Hla' in E1. injection E1 as <-. rewrite Hlb' in E2. injection E2 as <-.
    assert (Hhi : hiA <= hiB) by lra.
    assert (Hrr : ra <= ra') by (apply Hnext; [discriminate|exact Hra']).
    qcases;
      match goal with
      | |- exists qa qb,
            cn_tax.bracket_loop _ (Fin ?aa) _ = _ /\
            cn_tax.bracket_loop _ (Fin ?ab) _ = _ /\ _ =>
          destruct (IH (b' :: B'') hiA hiB aa ab x ra' HA' HB' HS' Hra')
            as (qa & qb & Ea & Eb & G);
          exists qa, qb; split; [exact Ea|split; [exact Eb|]]
      end;
      unfold Qsmaller in G; qcases; nra.
Qed.

Lemma head_rate_valid (lo : Q) (T : list TaxBracket) :
  valid_from lo T = true -> exists r, head_rate T = Fin r /\ 0 <= r /\ r <= 1.
Proof.
  destruct T as [|b rest]; [discriminate|]. intros HT.
  destruct (valid_from_inv _ _ _ HT) as (l & r & _ & Hr & _ & Hr0 & Hr1 & _).
  exists r. auto.
Qed.

(** Both loops on two tables related by [shifted_up]. *)
Lemma shifted_liability (A B : list TaxBracket) (x : Q) :
  valid_table A = true -> valid_table B = true -> shifted_up A B = true -> 0 <= x ->
  exists ca cb ua ub,
    cn_liability A (Fin x) = Fin ca /\ cn_liability B (Fin x) = Fin cb /\
    us_liability A (Fin x) = Fin ua /\ us_liability B (Fin x) = Fin ub /\
    cb <= ca /\ ub <= ua.
Proof.
  intros HA HB HS Hx.
  destruct (head_rate_valid 0 A HA) as (r1 & Hr1 & Hr0 & _).
  destruct (cn_loop_shifted A B 0 0 0 0 x r1 HA HB HS Hr1) as (qa & qb & Ea & Eb & G).
  destruct (liability_values A HA x Hx) as (ca & ua & Eca & Eua & Hua).
  destruct (liability_values B HB x Hx) as (cb & ub & Ecb & Eub & Hub).
  unfold cn_liability in Eca, Ecb. rewrite Ea in Eca. rewrite Eb in Ecb.
  injection Eca as <-. injection Ecb as <-.
  exists qa, qb, ua, ub.
  assert (qb <= qa) by (unfold Qsmaller in G; nra).
  repeat split; auto; lra.
Qed.

(** X2: in exact arithmetic, when two valid tables have the same
    non-decreasing rates and every bracket of the second starts at or above
    the bracket of the first with the same rank, the second table never
    gives a higher liability, by either loop and for every amount [x >= 0]. *)
Theorem higher_thresholds_lower_liability (A B : list TaxBracket) (x : Q) :
  valid_table A = true -> valid_table B = true -> shifted_up A B = true -> 0 <= x ->
  fle (cn_liability B (Fin x)) (cn_liability A (Fin x)) = true /\
  fle (us_liability B (Fin x)) (us_liability A (Fin x)) = true.
Proof.
  intros HA HB HS Hx.
  destruct (shifted_liability A B x HA HB HS Hx)
    as (ca & cb & ua & ub & -> & -> & -> & -> & Hc & Hu).
  split; qcases; try reflexivity; lra.
Qed.

(** ** The lookup inside a bracket *)

Lemma bracket_rate_inside (pre : list TaxBracket) :
  forall (lo : Q) (bk : TaxBracket) (post : list TaxBracket) (l x : Q),
    valid_from lo (pre ++ bk :: post) = true ->
    lower bk = Fin l -> l < x \/ (pre = [] /\ l <= x) ->
    fle (Fin x) (upper bk) = true ->
    bracket_rate (pre ++ bk :: post) (Fin x) = rate bk.
Proof.
  induction pre as [|p pre IH]; intros lo bk post l x HT Hl Hlx Hxu.
  - cbn [app bracket_rate]. rewrite Hl, Hxu.
    change (fle (Fin l) (Fin x)) with (Qle_bool l x).
    assert (Qle_bool l x = true) as -> by (apply Qle_bool_iff; destruct Hlx; lra).
    reflexivity.
  - rewrite <- app_comm_cons in *.
    destruct Hlx as [Hlx|[? _]]; [|discriminate].
    destruct (valid_from_inv _ _ _ HT) as (lp & _ & Hlp & _ & _ & _ & _ & Hup).
    destruct Hup as [[_ Hnil]|(hi & Hu & Hhi & _ & Hrest)]; [now destruct pre|].
    pose proof (valid_from_lower _ _ _ _ _ Hrest Hl) as Hhl.
    cbn [bracket_rate]. rewrite Hlp, Hu.
    change (fle (Fin x) (Fin hi)) with (Qle_bool x hi).
    assert (Qle_bool x hi = false) as ->.
    { destruct (Qle_bool_spec x hi); [lra|reflexivity]. }
    rewrite andb_false_r. apply (IH hi _ _ l); auto.
Qed.

(** X3: in exact arithmetic, on a valid table, an income [x] with
    [lower < x <= upper] for a bracket gets the rate of that bracket from the lookup of
    calculate_marginal_rates (of us_tax and of cn_tax), and that rate is the
    tax on the last units of the amount: as long as [x - h] stays in the
    bracket, the liability of either loop at [x] exceeds the liability at
    [x - h] by [rate * h]. *)
Theorem bracket_rate_is_left_slope (pre : list TaxBracket) (bk : TaxBracket)
    (post : list TaxBracket) (L : pyfloat -> pyfloat) (l x h : Q) :
  valid_table (pre ++ bk :: post) = true ->
  L = cn_liability (pre ++ bk :: post) \/ L = us_liability (pre ++ bk :: post) ->
  lower bk = Fin l -> l < x -> fle (Fin x) (upper bk) = true ->
  0 <= h -> l <= x - h ->
  bracket_rate (pre ++ bk :: post) (Fin x) = rate bk /\
  cn_tax.bracket_rate (map as_tuple (pre ++ bk :: post)) (Fin x) = rate bk /\
  (L (Fin x) - L (Fin (x - h)))%py =f= (rate bk * Fin h)%py.
Proof.
  intros HT HL Hl Hlx Hxu Hh Hlh.
  pose proof (bracket_rate_inside pre 0 bk post l x HT Hl (or_introl Hlx) Hxu) as Hrate.
  split; [exact Hrate|]. split; [now rewrite cn_rate_us_rate|].
  assert (Hxhu : fle (Fin (x - h)) (upper bk) = true).
  { destruct (upper bk); try discriminate; try reflexivity.
    qcases; try reflexivity; lra. }
  destruct (liability_piece pre bk post L l x HT HL Hl ltac:(lra) Hxu)
    as (s & r & q & Es & Er & -> & Hq).
  destruct (liability_piece pre bk post L l (x - h) HT HL Hl Hlh Hxhu)
    as (s' & r' & q' & Es' & Er' & -> & Hq').
  rewrite Es in Es'. injection Es' as <-. rewrite Er in Er'. injection Er' as <-.
  rewrite Er. cbn [feq fsub fmul]. rewrite Hq, Hq'. ring.
Qed.

(** ** The tables of us_tax.py, by name *)

Lemma federal_lookup :
  dict_get TaxConstants.FEDERAL_BRACKETS "single" = Ok federal_single /\
  dict_get TaxConstants.FEDERAL_BRACKETS "married" = Ok federal_married.
Proof. split; reflexivity. Qed.

Lemma ca_lookup :
  dict_get TaxConstants.CA_BRACKETS "single" = Ok ca_single /\
  dict_get TaxConstants.CA_BRACKETS "married" = Ok ca_married.
Proof. split; reflexivity. Qed.

Lemma standard_deduction_lookup :
  dict_get TaxConstants.STANDARD_DEDUCTION "single" = Ok (Fin 14600) /\
  dict_get TaxConstants.STANDARD_DEDUCTION "married" = Ok (Fin 29200) /\
  dict_get TaxConstants.CA_STANDARD_DEDUCTION "single" = Ok (Fin 5363) /\
  dict_get TaxConstants.CA_STANDARD_DEDUCTION "married" = Ok (Fin 10726).
Proof. repeat split; reflexivity. Qed.

Lemma us_tables_valid :
  valid_table federal_single = true /\ valid_table federal_married = true /\
  valid_table ca_single = true /\ valid_table ca_married = true.
Proof. repeat split; reflexivity. Qed.

Lemma us_tables_top_rates :
  rates_at_most 0.37 federal_single = true /\
  rates_at_most 0.37 federal_married = true /\
  rates_at_most 0.123 ca_single = true /\
  rates_at_most 0.123 ca_married = true.
Proof. repeat split; reflexivity. Qed.

Lemma us_tables_shifted :
  shifted_up federal_single federal_married = true /\
  shifted_up ca_single ca_married = true.
Proof. split; reflexivity. Qed.

Lemma calculate_ca_state_tax_liability (income capital_gains : pyfloat)
    (status : string) (sd : pyfloat) (cab : list TaxBracket) :
  dict_get TaxConstants.CA_STANDARD_DEDUCTION status = Ok sd ->
  dict_get TaxConstants.CA_BRACKETS status = Ok cab ->
  calculate_ca_state_tax income capital_gains status =
    Ok (us_liability cab (py_max (Fin 0) (income + capital_gains - sd)%py)).
Proof.
  intros Hsd Hcab. unfold calculate_ca_state_tax.
  rewrite Hsd. run_bind. rewrite Hcab. reflexivity.
Qed.

(** ** Liability of an amount clamped at zero *)

Lemma py_max_zero_fin (v : Q) :
  exists y, py_max (Fin 0) (Fin v) = Fin y /\ 0 <= y /\ v <= y /\
            (v <= 0 -> y == 0) /\ (0 <= v -> y == v).
Proof.
  unfold py_max, fgt. cbn [flt]. unfold Qlt_bool.
  destruct (Qle_bool_spec v 0); cbn [negb]; eexists; (split; [reflexivity|]);
    repeat split; intros; lra.
Qed.

Lemma rates_at_most_nonneg (lo rho : Q) (T : list TaxBracket) :
  valid_from lo T = true -> rates_at_most rho T = true -> 0 <= rho.
Proof.
  destruct T as [|b rest]; [discriminate|]. intros HT HR.
  destruct (valid_from_inv _ _ _ HT) as (l & r & _ & Hr & _ & Hr0 & _).
  destruct (rates_at_most_cons _ _ _ _ HR Hr) as [Hrho _]. lra.
Qed.

Lemma clamped_liability_growth (T : list TaxBracket) (rho v1 v2 : Q) :
  valid_table T = true -> rates_at_most rho T = true -> v1 <= v2 ->
  exists q1 q2,
    us_liability T (py_max (Fin 0) (Fin v1)) = Fin q1 /\
    us_liability T (py_max (Fin 0) (Fin v2)) = Fin q2 /\
    0 <= q1 /\ 0 <= q2 - q1 /\ q2 - q1 <= rho * (v2 - v1).
Proof.
  intros HT HR Hv.
  destruct (py_max_zero_fin v1) as (y1 & -> & Hy1 & Hvy1 & Hn1 & Hp1).
  destruct (py_max_zero_fin v2) as (y2 & -> & Hy2 & Hvy2 & Hn2 & Hp2).
  assert (Hy : y1 <= y2).
  { destruct (Qlt_le_dec 0 v1); [rewrite Hp1 by lra; lra|rewrite Hn1 by lra; lra]. }
  assert (Hd : y2 - y1 <= v2 - v1).
  { destruct (Qlt_le_dec 0 v2); [rewrite Hp2 by lra; lra|].
    rewrite Hn2 by lra. lra. }
  pose proof (rates_at_most_nonneg 0 rho T HT HR) as Hrho.
  destruct (liability_growth_rho T _ rho y1 y2 HT HR (or_intror eq_refl) Hy1 Hy)
    as (q1 & q2 & E1 & E2 & G0 & G1 & G2).
  exists q1, q2. repeat split; auto. nra.
Qed.

Lemma clamped_liability_shifted (A B : list TaxBracket) (v : Q) :
  valid_table A = true -> valid_table B = true -> shifted_up A B = true ->
  exists qa qb,
    us_liability A (py_max (Fin 0) (Fin v)) = Fin qa /\
    us_liability B (py_max (Fin 0) (Fin v)) = Fin qb /\ qb <= qa.
Proof.
  intros HA HB HS.
  destruct (py_max_zero_fin v) as (y & -> & Hy & _).
  destruct (shifted_liability A B y HA HB HS Hy)
    as (ca & cb & ua & ub & _ & _ & Ea & Eb & _ & Hu).
  exists ua, ub. auto.
Qed.

(** ** Married and single filers *)

Lemma federal_tax_values (income : Q) :
  exists s m,
    calculate_federal_tax (Fin income) "single" = Ok (Fin s) /\
    calculate_federal_tax (Fin income) "married" = Ok (Fin m) /\
    0 <= m /\ m <= s.
Proof.
  destruct federal_lookup as [Es Em].
  destruct standard_deduction_lookup as (Ds & Dm & _).
  destruct us_tables_valid as (Vs & Vm & _).
  destruct us_tables_top_rates as (_ & Rm & _).
  destruct us_tables_shifted as [Sh _].
  rewrite (calculate_federal_tax_liability _ _ _ _ Ds Es).
  rewrite (calculate_federal_tax_liability _ _ _ _ Dm Em).
  cbn [fsub].
  destruct (clamped_liability_growth federal_married 0.37 (income - 29200)
              (income - 14600) Vm Rm ltac:(lra)) as (m & m' & Em1 & Em2 & G0 & G1 & _).
  destruct (clamped_liability_shifted federal_single federal_married (income - 14600)
              Vs Vm Sh) as (s & m'' & Es1 & Em3 & G).
  rewrite Em2 in Em3. injection Em3 as <-.
  rewrite Es1, Em1. exists s, m. repeat split; auto; lra.
Qed.

(** X4: in exact arithmetic, for every income, calculate_federal_tax raises
    nothing for the two filing statuses, and the tax of the married status
    is non-negative and never above the tax of the single status. *)
Theorem married_federal_tax_not_higher (income : Q) :
  exists s m,
    calculate_federal_tax (Fin income) "single" = Ok (Fin s) /\
    calculate_federal_tax (Fin income) "married" = Ok (Fin m) /\
    0 <= m /\ m <= s.
Proof. exact (federal_tax_values income). Qed.

Lemma ca_tax_values (income capital_gains : Q) :
  exists s m,
    calculate_ca_state_tax (Fin income) (Fin capital_gains) "single" = Ok (Fin s) /\
    calculate_ca_state_tax (Fin income) (Fin capital_gains) "married" = Ok (Fin m) /\
    0 <= m /\ m <= s.
Proof.
  destruct ca_lookup as [Es Em].
  destruct standard_deduction_lookup as (_ & _ & Ds & Dm).
  destruct us_tables_valid as (_ & _ & Vs & Vm).
  destruct us_tables_top_rates as (_ & _ & _ & Rm).
  destruct us_tables_shifted as [_ Sh].
  rewrite (calculate_ca_state_tax_liability _ _ _ _ _ Ds Es).
  rewrite (calculate_ca_state_tax_liability _ _ _ _ _ Dm Em).
  cbn [fsub fadd].
  destruct (clamped_liability_growth ca_married 0.123
              (income + capital_gains - 10726) (income + capital_gains - 5363)
              Vm Rm ltac:(lra)) as (m & m' & Em1 & Em2 & G0 & G1 & _).
  destruct (clamped_liability_shifted ca_single ca_married
              (income + capital_gains - 5363) Vs Vm Sh) as (s & m'' & Es1 & Em3 & G).
  rewrite Em2 in Em3. injection Em3 as <-.
  rewrite Es1, Em1. exists s, m. repeat split; auto; lra.
Qed.

(** X5: in exact arithmetic, for every income and capital gains,
    calculate_ca_state_tax raises nothing for the two filing statuses, and
    the tax of the married status is non-negative and never above the tax of
    the single status. *)
Theorem married_ca_tax_not_higher (income capital_gains : Q) :
  exists s m,
    calculate_ca_state_tax (Fin income) (Fin capital_gains) "single" = Ok (Fin s) /\
    calculate_ca_state_tax (Fin income) (Fin capital_gains) "married" = Ok (Fin m) /\
    0 <= m /\ m <= s.
Proof. exact (ca_tax_values income capital_gains). Qed.

(** ** Capital gains *)

Lemma capital_gains_lookup :
  exists cs cm,
    dict_get capital_gains_brackets "single" = Ok cs /\
    dict_get capital_gains_brackets "married" = Ok cm /\
    cs = [ Build_TaxBracket (Fin 0) (Fin 44625) (Fin 0);
           Build_TaxBracket (Fin 44625) (Fin 492300) (Fin 0.15);
           Build_TaxBracket (Fin 492300) PInf (Fin 0.20) ] /\
    cm = [ Build_TaxBracket (Fin 0) (Fin 89250) (Fin 0);
           Build_TaxBracket (Fin 89250) (Fin 553850) (Fin 0.15);
           Build_TaxBracket (Fin 553850) PInf (Fin 0.20) ].
Proof. eexists _, _. repeat split; reflexivity. Qed.

Ltac capital_gains_run :=
  unfold calculate_capital_gains_tax;
  destruct capital_gains_lookup as (cs & cm & Es & Em & Hcs & Hcm);
  subst cs cm; rewrite ?Es, ?Em; clear Es Em;
  run_bind; cbn [capital_gains_loop lower upper rate].

(** The rate that [calculate_capital_gains_tax] applies to the whole gain,
    by total income [t]. *)
Lemma capital_gains_single (capital_gains income : Q) :
  let t := income + capital_gains in
  let tax := calculate_capital_gains_tax (Fin capital_gains) (Fin income) "single" in
  (t < 0 -> tax = Ok (Fin (capital_gains * 0.20))) /\
  (0 <= t -> t <= 44625 -> tax = Ok (Fin (capital_gains * 0))) /\
  (44625 < t -> t <= 492300 -> tax = Ok (Fin (capital_gains * 0.15))) /\
  (492300 < t -> tax = Ok (Fin (capital_gains * 0.20))).
Proof.
  intros t tax. subst t tax. capital_gains_run.
  repeat split; intros; qcases; try reflexivity; lra.
Qed.

Lemma capital_gains_married (capital_gains income : Q) :
  let t := income + capital_gains in
  let tax := calculate_capital_gains_tax (Fin capital_gains) (Fin income) "married" in
  (t < 0 -> tax = Ok (Fin (capital_gains * 0.20))) /\
  (0 <= t -> t <= 89250 -> tax = Ok (Fin (capital_gains * 0))) /\
  (89250 < t -> t <= 553850 -> tax = Ok (Fin (capital_gains * 0.15))) /\
  (553850 < t -> tax = Ok (Fin (capital_gains * 0.20))).
Proof.
  intros t tax. subst t tax. capital_gains_run.
  repeat split; intros; qcases; try reflexivity; lra.
Qed.

(** X6: calculate_capital_gains_tax taxes the whole gain at one rate chosen
    by the total income [t = income + capital_gains]: 0 when
    [0 <= t <= 44625] (single; 89250 married), 15% up to 492300 (553850),
    20% above, and also 20% when [t] is negative, because no bracket matches
    and the fallback applies. *)
Theorem capital_gains_rate_by_total_income (capital_gains income : Q) :
  let t := income + capital_gains in
  let single := calculate_capital_gains_tax (Fin capital_gains) (Fin income) "single" in
  let married := calculate_capital_gains_tax (Fin capital_gains) (Fin income) "married" in
  (t < 0 -> single = Ok (Fin (capital_gains * 0.20)) /\
            married = Ok (Fin (capital_gains * 0.20))) /\
  (0 <= t -> t <= 44625 -> single = Ok (Fin (capital_gains * 0))) /\
  (44625 < t -> t <= 492300 -> single = Ok (Fin (capital_gains * 0.15))) /\
  (492300 < t -> single = Ok (Fin (capital_gains * 0.20))) /\
  (0 <= t -> t <= 89250 -> married = Ok (Fin (capital_gains * 0))) /\
  (89250 < t -> t <= 553850 -> married = Ok (Fin (capital_gains * 0.15))) /\
  (553850 < t -> married = Ok (Fin (capital_gains * 0.20))).
Proof.
  intros t single married.
  destruct (capital_gains_single capital_gains income) as (S0 & S1 & S2 & S3).
  destruct (capital_gains_married capital_gains income) as (M0 & M1 & M2 & M3).
  repeat split; auto.
Qed.

(** For a non-negative gain the married filer never pays more. *)
Lemma capital_gains_values (capital_gains income : Q) :
  exists s m,
    calculate_capital_gains_tax (Fin capital_gains) (Fin income) "single" = Ok (Fin s) /\
    calculate_capital_gains_tax (Fin capital_gains) (Fin income) "married" = Ok (Fin m) /\
    (0 <= capital_gains -> 0 <= m /\ m <= s) /\
    (capital_gains == 0 -> s == 0 /\ m == 0).
Proof.
  capital_gains_run.
  qcases; eexists _, _; (split; [reflexivity|]); (split; [reflexivity|]);
    split; intros; split; try lra; nra.
Qed.

(** ** Payroll taxes *)

Ltac payroll_unfold :=
  unfold calculate_fica_taxes, calculate_ca_sdi;
  cbn [fica.total fica.social_security fica.medicare fica.additional_medicare];
  unfold TaxConstants.SS_LIMIT, TaxConstants.SDI_LIMIT, TaxConstants.MEDICARE_THRESHOLD.

Lemma fica_total_values (x y : Q) :
  x <= y ->
  exists tx ty,
    fica.total (calculate_fica_taxes (Fin x)) = Fin tx /\
    fica.total (calculate_fica_taxes (Fin y)) = Fin ty /\
    0.0145 * (y - x) <= ty - tx /\ ty - tx <= 0.0765 * (y - x).
Proof.
  intros Hxy. payroll_unfold.
  qcases; eexists _, _; (split; [reflexivity|]); (split; [reflexivity|]); split; lra.
Qed.

Lemma ca_sdi_values (x y : Q) :
  x <= y ->
  exists tx ty,
    calculate_ca_sdi (Fin x) = Fin tx /\ calculate_ca_sdi (Fin y) = Fin ty /\
    0 <= ty - tx /\ ty - tx <= 0.009 * (y - x).
Proof.
  intros Hxy. payroll_unfold.
  qcases; eexists _, _; (split; [reflexivity|]); (split; [reflexivity|]); split; lra.
Qed.

(** X7: in exact arithmetic, the total of calculate_fica_taxes is a
    continuous, increasing function of the income: between two incomes [x <=
    y] it grows by at least 1.45% and at most 7.65% of [y - x]; there is no
    jump at the Social Security limit nor at the additional-Medicare
    threshold. *)
Theorem fica_total_growth (x y : Q) :
  x <= y ->
  exists tx ty,
    fica.total (calculate_fica_taxes (Fin x)) = Fin tx /\
    fica.total (calculate_fica_taxes (Fin y)) = Fin ty /\
    0.0145 * (y - x) <= ty - tx /\ ty - tx <= 0.0765 * (y - x).
Proof. exact (fica_total_values x y). Qed.

Lemma marginal_rates_fields (income : pyfloat) (status : string) :
  known_status status ->
  exists r,
    calculate_marginal_rates income status = Ok r /\
    rates.fica r =
      (let fica_rate := Fin 0.0145 in
       let fica_rate :=
         if fle income TaxConstants.SS_LIMIT then fica_rate + Fin 0.062 else fica_rate in
       if fgt income TaxConstants.MEDICARE_THRESHOLD then fica_rate + Fin 0.009
       else fica_rate)%py /\
    rates.sdi r = (if fle income TaxConstants.SDI_LIMIT then Fin 0.009 else Fin 0) /\
    (forall fb, dict_get TaxConstants.FEDERAL_BRACKETS status = Ok fb ->
                rates.federal r = bracket_rate fb income) /\
    (forall cab, dict_get TaxConstants.CA_BRACKETS status = Ok cab ->
                 rates.california r = bracket_rate cab income).
Proof.
  intros Hs.
  destruct (status_tables status Hs) as (_ & _ & fb & cab & _ & _ & Efb & _ & _ & Ecab & _).
  unfold calculate_marginal_rates. rewrite Efb. run_bind. rewrite Ecab. run_bind.
  eexists. split; [reflexivity|].
  cbn [rates.fica rates.sdi rates.federal rates.california].
  repeat split; try reflexivity; intros ? E; injection E as <-; reflexivity.
Qed.

(** X8: in exact arithmetic, the FICA and SDI rates reported by
    calculate_marginal_rates at an income [x] are the payroll taxes on the
    last units of that income: when no limit (168600, 200000 for FICA;
    153164 for SDI) lies strictly between [x - h] and [x], the FICA total at
    [x] exceeds the one at [x - h] by [fica rate * h], and the SDI by [sdi
    rate * h].  An income exactly on a limit is rated as the incomes below
    it. *)
Theorem payroll_rates_are_left_slopes (x h : Q) (status : string) :
  known_status status -> 0 <= h ->
  exists r,
    calculate_marginal_rates (Fin x) status = Ok r /\
    ((x <= 168600 \/ 168600 <= x - h) -> (x <= 200000 \/ 200000 <= x - h) ->
     (fica.total (calculate_fica_taxes (Fin x))
      - fica.total (calculate_fica_taxes (Fin (x - h))))%py
       =f= (rates.fica r * Fin h)%py) /\
    ((x <= 153164 \/ 153164 <= x - h) ->
     (calculate_ca_sdi (Fin x) - calculate_ca_sdi (Fin (x - h)))%py
       =f= (rates.sdi r * Fin h)%py).
Proof.
  intros Hs Hh.
  destruct (marginal_rates_fields (Fin x) status Hs) as (r & Er & Efica & Esdi & _).
  exists r. split; [exact Er|]. rewrite Efica, Esdi. payroll_unfold.
  split; intros; qcases; lra.
Qed.

(** ** Unknown filing status *)

(** X9: with a filing status other than "single" and "married", every
    function of us_tax.py that takes a filing status raises KeyError with
    that status, whatever the amounts. *)
Theorem unknown_status_raises_key_error (status : string)
    (income capital_gains : pyfloat) :
  ~ known_status status ->
  calculate_federal_tax income status = Raise (KeyError status) /\
  calculate_ca_state_tax income capital_gains status = Raise (KeyError status) /\
  calculate_capital_gains_tax capital_gains income status = Raise (KeyError status) /\
  calculate_marginal_rates income status = Raise (KeyError status).
Proof.
  intros Hs.
  unfold calculate_federal_tax, calculate_ca_state_tax, calculate_capital_gains_tax,
    calculate_marginal_rates, TaxConstants.STANDARD_DEDUCTION,
    TaxConstants.CA_STANDARD_DEDUCTION, capital_gains_brackets,
    TaxConstants.FEDERAL_BRACKETS.
  rewrite !(unknown_status_lookup _ _ status Hs). repeat split; reflexivity.
Qed.

(** ** The reported federal rate and the federal tax *)

Lemma status_tables_valid (status : string) (fb : list TaxBracket) :
  dict_get TaxConstants.FEDERAL_BRACKETS status = Ok fb -> valid_table fb = true.
Proof.
  intros E. pose proof (lookup_known_status _ _ _ _ E) as Hs.
  destruct (status_tables status Hs) as (_ & _ & fb' & _ & _ & _ & E' & V & _).
  rewrite E in E'. injection E' as <-. exact V.
Qed.

(** X10: in exact arithmetic: calculate_marginal_rates looks the federal
    bracket up at the income itself, whereas calculate_federal_tax applies
    the brackets to the income minus the standard deduction [sd]: when [x -
    sd] lies in a bracket ([lower < x - sd <= upper]) and [x - h - sd] is
    still in it, the federal tax at [x] exceeds the tax at [x - h] by [h]
    times the rate of that bracket, which is the bracket rate at [x - sd],
    while the reported federal rate is the bracket rate at [x]. *)
Theorem federal_rate_reported_before_deduction (status : string) (sd : Q)
    (pre : list TaxBracket) (bk : TaxBracket) (post : list TaxBracket) (l x h : Q) :
  dict_get TaxConstants.STANDARD_DEDUCTION status = Ok (Fin sd) ->
  dict_get TaxConstants.FEDERAL_BRACKETS status = Ok (pre ++ bk :: post) ->
  lower bk = Fin l -> l < x - sd -> fle (Fin (x - sd)) (upper bk) = true ->
  0 <= h -> l <= x - h - sd ->
  exists r t1 t2 rho,
    calculate_marginal_rates (Fin x) status = Ok r /\
    rates.federal r = bracket_rate (pre ++ bk :: post) (Fin x) /\
    calculate_federal_tax (Fin (x - h)) status = Ok (Fin t1) /\
    calculate_federal_tax (Fin x) status = Ok (Fin t2) /\
    bracket_rate (pre ++ bk :: post) (Fin (x - sd)) = Fin rho /\
    t2 - t1 == rho * h.
Proof.
  intros Hsd Hfb Hl Hlx Hxu Hh Hlh.
  pose proof (status_tables_valid _ _ Hfb) as HT.
  pose proof (lookup_known_status _ _ _ _ Hfb) as Hs.
  pose proof (valid_from_lower _ _ _ _ _ HT Hl) as Hl0.
  destruct (marginal_rates_fields (Fin x) status Hs) as (r & Er & _ & _ & Efed & _).
  rewrite !(calculate_federal_tax_liability _ _ _ _ Hsd Hfb). cbn [fsub].
  destruct (py_max_zero_fin (x - sd)) as (y2 & -> & _ & _ & _ & Hy2).
  destruct (py_max_zero_fin (x - h - sd)) as (y1 & -> & _ & _ & _ & Hy1).
  specialize (Hy2 ltac:(lra)). specialize (Hy1 ltac:(lra)).
  assert (Hy2u : fle (Fin y2) (upper bk) = true).
  { destruct (upper bk); try discriminate; try reflexivity.
    qcases; try reflexivity; lra. }
  assert (Hy1u : fle (Fin y1) (upper bk) = true).
  { destruct (upper bk); try discriminate; try reflexivity.
    qcases; try reflexivity; lra. }
  destruct (liability_piece pre bk post _ l y2 HT (or_intror eq_refl) Hl
              ltac:(lra) Hy2u) as (s & rho & q2 & Es & Erho & E2 & Hq2).
  destruct (liability_piece pre bk post _ l y1 HT (or_intror eq_refl) Hl
              ltac:(lra) Hy1u) as (s' & rho' & q1 & Es' & Erho' & E1 & Hq1).
  rewrite Es in Es'. injection Es' as <-. rewrite Erho in Erho'. injection Erho' as <-.
  exists r, q1, q2, rho.
  split; [exact Er|]. split; [exact (Efed _ Hfb)|].
  split; [now rewrite E1|]. split; [now rewrite E2|].
  split.
  - rewrite (bracket_rate_inside pre 0 bk post l (x - sd) HT Hl (or_introl Hlx) Hxu).
    exact Erho.
  - rewrite Hq2, Hq1, Hy2, Hy1. ring.
Qed.

(** ** The two results of [calculate_tax_results] *)

Lemma tax_result_for_fields (ai cg k adj : pyfloat) (status : string)
    (f c a : pyfloat) (m : rates.t) :
  calculate_federal_tax adj status = Ok f ->
  calculate_capital_gains_tax cg adj status = Ok c ->
  calculate_ca_state_tax adj cg status = Ok a ->
  calculate_marginal_rates adj status = Ok m ->
  tax_result_for ai cg k adj status =
    Ok {| federal_tax := f;
          capital_gains_tax := c;
          ca_tax := a;
          fica_taxes := calculate_fica_taxes ai;
          sdi_tax := calculate_ca_sdi ai;
          total_tax :=
            (f + c + a + fica.total (calculate_fica_taxes ai) + calculate_ca_sdi ai)%py;
          net_income :=
            (ai + cg
             - (f + c + a + fica.total (calculate_fica_taxes ai) + calculate_ca_sdi ai)
             - k)%py;
          marginal_rates := m |}.
Proof.
  intros Hf Hc Ha Hm. unfold tax_result_for.
  rewrite Hf. run_bind. rewrite Hc. run_bind. rewrite Ha. run_bind.
  rewrite Hm. reflexivity.
Qed.

(** The totals of both results, from the taxes of the two statuses. *)
Lemma tax_results_totals (ai cg k fs fm cs cm ca_s ca_m F D : Q) :
  calculate_federal_tax (Fin (ai - k)) "single" = Ok (Fin fs) ->
  calculate_federal_tax (Fin (ai - k)) "married" = Ok (Fin fm) ->
  calculate_capital_gains_tax (Fin cg) (Fin (ai - k)) "single" = Ok (Fin cs) ->
  calculate_capital_gains_tax (Fin cg) (Fin (ai - k)) "married" = Ok (Fin cm) ->
  calculate_ca_state_tax (Fin (ai - k)) (Fin cg) "single" = Ok (Fin ca_s) ->
  calculate_ca_state_tax (Fin (ai - k)) (Fin cg) "married" = Ok (Fin ca_m) ->
  fica.total (calculate_fica_taxes (Fin ai)) = Fin F ->
  calculate_ca_sdi (Fin ai) = Fin D ->
  exists s m,
    calculate_tax_results (Fin ai) (Fin cg) (Fin k) =
      Ok (<["married"%string := m]> (<["single"%string := s]> ∅)) /\
    federal_tax s = Fin fs /\ federal_tax m = Fin fm /\
    total_tax s = Fin (fs + cs + ca_s + F + D) /\
    total_tax m = Fin (fm + cm + ca_m + F + D) /\
    net_income s = Fin (ai + cg - (fs + cs + ca_s + F + D) - k) /\
    net_income m = Fin (ai + cg - (fm + cm + ca_m + F + D) - k) /\
    fica.total (fica_taxes s) = Fin F /\ fica.total (fica_taxes m) = Fin F.
Proof.
  intros Hfs Hfm Hcs Hcm Has Ham HF HD.
  destruct (marginal_rates_fields (Fin (ai - k)) "single" (or_introl eq_refl))
    as (ms & Ems & _).
  destruct (marginal_rates_fields (Fin (ai - k)) "married" (or_intror eq_refl))
    as (mm & Emm & _).
  unfold calculate_tax_results. cbn [tax_results_loop fsub].
  rewrite (tax_result_for_fields _ _ _ _ _ _ _ _ _ Hfs Hcs Has Ems). run_bind.
  rewrite (tax_result_for_fields _ _ _ _ _ _ _ _ _ Hfm Hcm Ham Emm). run_bind.
  eexists _, _. split; [reflexivity|].
  cbn [federal_tax total_tax net_income fica_taxes]. rewrite HF, HD.
  repeat split; reflexivity.
Qed.

(** X11: in exact arithmetic, for every annual income, every 401(k)
    contribution and every non-negative capital gain, calculate_tax_results
    raises nothing and the married result has a total tax that is not above,
    and a net income that is not below, that of the single result. *)
Theorem married_result_not_worse (annual_income capital_gains actual_401k : Q) :
  0 <= capital_gains ->
  exists results s m ts tm ns nm,
    calculate_tax_results (Fin annual_income) (Fin capital_gains) (Fin actual_401k)
      = Ok results /\
    results !! "single"%string = Some s /\ results !! "married"%string = Some m /\
    total_tax s = Fin ts /\ total_tax m = Fin tm /\ tm <= ts /\
    net_income s = Fin ns /\ net_income m = Fin nm /\ ns <= nm.
Proof.
  intros Hcg.
  destruct (federal_tax_values (annual_income - actual_401k))
    as (fs & fm & Efs & Efm & _ & Hf).
  destruct (capital_gains_values capital_gains (annual_income - actual_401k))
    as (cs & cm & Ecs & Ecm & Hc & _).
  destruct (ca_tax_values (annual_income - actual_401k) capital_gains)
    as (ca_s & ca_m & Eas & Eam & _ & Ha).
  destruct (fica_total_values annual_income annual_income ltac:(lra))
    as (F & _ & EF & _).
  destruct (ca_sdi_values annual_income annual_income ltac:(lra)) as (D & _ & ED & _).
  destruct (tax_results_totals _ _ _ _ _ _ _ _ _ _ _ Efs Efm Ecs Ecm Eas Eam EF ED)
    as (s & m & -> & _ & _ & Ets & Etm & Ens & Enm & _).
  destruct (Hc Hcg) as [_ Hc'].
  eexists _, s, m, _, _, _, _.
  split; [reflexivity|]. split; [reflexivity|]. split; [reflexivity|].
  split; [exact Ets|]. split; [exact Etm|]. split; [lra|].
  split; [exact Ens|]. split; [exact Enm|]. lra.
Qed.

(** ** Net income and wages *)

Lemma federal_tax_growth (x y : Q) :
  x <= y ->
  exists s1 s2 m1 m2,
    calculate_federal_tax (Fin x) "single" = Ok (Fin s1) /\
    calculate_federal_tax (Fin y) "single" = Ok (Fin s2) /\
    calculate_federal_tax (Fin x) "married" = Ok (Fin m1) /\
    calculate_federal_tax (Fin y) "married" = Ok (Fin m2) /\
    0 <= s2 - s1 /\ s2 - s1 <= 0.37 * (y - x) /\
    0 <= m2 - m1 /\ m2 - m1 <= 0.37 * (y - x).
Proof.
  intros Hxy.
  destruct federal_lookup as [Es Em].
  destruct standard_deduction_lookup as (Ds & Dm & _).
  destruct us_tables_valid as (Vs & Vm & _).
  destruct us_tables_top_rates as (Rs & Rm & _).
  rewrite !(calculate_federal_tax_liability _ _ _ _ Ds Es).
  rewrite !(calculate_federal_tax_liability _ _ _ _ Dm Em).
  cbn [fsub].
  destruct (clamped_liability_growth federal_single 0.37 (x - 14600) (y - 14600)
              Vs Rs ltac:(lra)) as (s1 & s2 & -> & -> & _ & G1 & G2).
  destruct (clamped_liability_growth federal_married 0.37 (x - 29200) (y - 29200)
              Vm Rm ltac:(lra)) as (m1 & m2 & -> & -> & _ & G3 & G4).
  exists s1, s2, m1, m2. repeat split; auto; lra.
Qed.

Lemma ca_tax_growth (x y capital_gains : Q) :
  x <= y ->
  exists s1 s2 m1 m2,
    calculate_ca_state_tax (Fin x) (Fin capital_gains) "single" = Ok (Fin s1) /\
    calculate_ca_state_tax (Fin y) (Fin capital_gains) "single" = Ok (Fin s2) /\
    calculate_ca_state_tax (Fin x) (Fin capital_gains) "married" = Ok (Fin m1) /\
    calculate_ca_state_tax (Fin y) (Fin capital_gains) "married" = Ok (Fin m2) /\
    0 <= s2 - s1 /\ s2 - s1 <= 0.123 * (y - x) /\
    0 <= m2 - m1 /\ m2 - m1 <= 0.123 * (y - x).
Proof.
  intros Hxy.
  destruct ca_lookup as [Es Em].
  destruct standard_deduction_lookup as (_ & _ & Ds & Dm).
  destruct us_tables_valid as (_ & _ & Vs & Vm).
  destruct us_tables_top_rates as (_ & _ & Rs & Rm).
  rewrite !(calculate_ca_state_tax_liability _ _ _ _ _ Ds Es).
  rewrite !(calculate_ca_state_tax_liability _ _ _ _ _ Dm Em).
  cbn [fsub fadd].
  destruct (clamped_liability_growth ca_single 0.123 (x + capital_gains - 5363)
              (y + capital_gains - 5363) Vs Rs ltac:(lra))
    as (s1 & s2 & -> & -> & _ & G1 & G2).
  destruct (clamped_liability_growth ca_married 0.123 (x + capital_gains - 10726)
              (y + capital_gains - 10726) Vm Rm ltac:(lra))
    as (m1 & m2 & -> & -> & _ & G3 & G4).
  exists s1, s2, m1, m2. repeat split; auto; lra.
Qed.

(** X12: in exact arithmetic, without capital gains and for a fixed 401(k)
    contribution, a higher annual income always gives a higher net income in
    both results of calculate_tax_results: of every extra unit of income
    between 42.15% and 98.55% is kept. *)
Theorem net_income_grows_with_wages (a1 a2 actual_401k : Q) :
  a1 <= a2 ->
  exists s1 m1 s2 m2 ns1 ns2 nm1 nm2,
    calculate_tax_results (Fin a1) (Fin 0) (Fin actual_401k) =
      Ok (<["married"%string := m1]> (<["single"%string := s1]> ∅)) /\
    calculate_tax_results (Fin a2) (Fin 0) (Fin actual_401k) =
      Ok (<["married"%string := m2]> (<["single"%string := s2]> ∅)) /\
    net_income s1 = Fin ns1 /\ net_income s2 = Fin ns2 /\
    net_income m1 = Fin nm1 /\ net_income m2 = Fin nm2 /\
    0.4215 * (a2 - a1) <= ns2 - ns1 /\ ns2 - ns1 <= 0.9855 * (a2 - a1) /\
    0.4215 * (a2 - a1) <= nm2 - nm1 /\ nm2 - nm1 <= 0.9855 * (a2 - a1).
Proof.
  intros Ha.
  destruct (federal_tax_growth (a1 - actual_401k) (a2 - actual_401k) ltac:(lra))
    as (fs1 & fs2 & fm1 & fm2 & Efs1 & Efs2 & Efm1 & Efm2 & Gf).
  destruct (ca_tax_growth (a1 - actual_401k) (a2 - actual_401k) 0 ltac:(lra))
    as (cs1 & cs2 & cm1 & cm2 & Ecs1 & Ecs2 & Ecm1 & Ecm2 & Gc).
  destruct (capital_gains_values 0 (a1 - actual_401k))
    as (g1 & h1 & Eg1 & Eh1 & _ & Z1).
  destruct (capital_gains_values 0 (a2 - actual_401k))
    as (g2 & h2 & Eg2 & Eh2 & _ & Z2).
  destruct (Z1 ltac:(reflexivity)) as [Zg1 Zh1].
  destruct (Z2 ltac:(reflexivity)) as [Zg2 Zh2].
  destruct (fica_total_values a1 a2 Ha) as (F1 & F2 & EF1 & EF2 & GF).
  destruct (ca_sdi_values a1 a2 Ha) as (D1 & D2 & ED1 & ED2 & GD).
  destruct (tax_results_totals _ _ _ _ _ _ _ _ _ _ _
              Efs1 Efm1 Eg1 Eh1 Ecs1 Ecm1 EF1 ED1)
    as (s1 & m1 & E1 & _ & _ & _ & _ & Ens1 & Enm1 & _).
  destruct (tax_results_totals _ _ _ _ _ _ _ _ _ _ _
              Efs2 Efm2 Eg2 Eh2 Ecs2 Ecm2 EF2 ED2)
    as (s2 & m2 & E2 & _ & _ & _ & _ & Ens2 & Enm2 & _).
  eexists s1, m1, s2, m2, _, _, _, _.
  split; [exact E1|]. split; [exact E2|].
  split; [exact Ens1|]. split; [exact Ens2|].
  split; [exact Enm1|]. split; [exact Enm2|].
  repeat split; lra.
Qed.

(** ** The 401(k) contribution chosen by [print_comparison_tables] *)

(** X13: print_comparison_tables with [maximize_401k] contributes
    [min(annual_income, 23000)], so that the adjusted income
    [annual_income - actual_401k] is never negative; an income of at most
    23000 is contributed whole, and then the federal tax of both results is
    0 while the FICA total is still charged on the whole income, 6.2% of it
    for Social Security plus 1.45% of it for Medicare.  Without
    [maximize_401k] the contribution is 0. *)
Theorem maximized_401k_shelters_income (annual_income capital_gains : Q) :
  exists k s m F,
    comparison_results (Fin annual_income) (Fin capital_gains) true =
      Ok (Fin k, Fin (annual_income + capital_gains),
          <["married"%string := m]> (<["single"%string := s]> ∅)) /\
    k <= 23000 /\ 0 <= annual_income - k /\
    fica.total (fica_taxes s) = Fin F /\ fica.total (fica_taxes m) = Fin F /\
    (23000 <= annual_income -> k == 23000) /\
    (annual_income <= 23000 ->
     k == annual_income /\ federal_tax s = Fin 0 /\ federal_tax m = Fin 0 /\
     F == 0.062 * annual_income + 0.0145 * annual_income) /\
    (exists r0, comparison_results (Fin annual_income) (Fin capital_gains) false =
                  Ok (Fin 0, Fin (annual_income + capital_gains), r0)).
Proof.
  assert (Hpick : exists k, py_min (Fin annual_income) TaxConstants.MAX_401K = Fin k /\
            k <= 23000 /\ 0 <= annual_income - k /\
            (23000 <= annual_income -> k == 23000) /\
            (annual_income <= 23000 -> k = annual_income)).
  { unfold py_min, TaxConstants.MAX_401K. cbn [flt]. unfold Qlt_bool.
    destruct (Qle_bool_spec annual_income 23000); cbn [negb]; eexists;
      (split; [reflexivity|]); repeat split; intros; try reflexivity; lra. }
  destruct Hpick as (k & Ek & Hk1 & Hk2 & Hk3 & Hk4).
  destruct (capital_gains_values capital_gains (annual_income - k))
    as (g & h & Eg & Eh & _).
  destruct (ca_tax_values (annual_income - k) capital_gains)
    as (cs & cm & Ecs & Ecm & _).
  destruct (fica_total_values annual_income annual_income ltac:(lra))
    as (F & _ & EF & _).
  destruct (ca_sdi_values annual_income annual_income ltac:(lra)) as (D & _ & ED & _).
  assert (Hfed : exists fs fm,
            calculate_federal_tax (Fin (annual_income - k)) "single" = Ok (Fin fs) /\
            calculate_federal_tax (Fin (annual_income - k)) "married" = Ok (Fin fm) /\
            (annual_income <= 23000 -> fs = 0 /\ fm = 0)).
  { destruct (Qlt_le_dec 23000 annual_income) as [Hbig|Hsmall].
    - destruct (federal_tax_values (annual_income - k)) as (fs & fm & E1 & E2 & _).
      exists fs, fm. repeat split; auto; lra.
    - destruct standard_deduction_lookup as (Ds & Dm & _).
      exists 0, 0.
      rewrite (federal_tax_of_invalid (Fin (annual_income - k)) "single" _ Ds).
      2:{ left. rewrite (Hk4 Hsmall). cbn [fsub flt]. unfold Qlt_bool.
          destruct (Qle_bool_spec 0 (annual_income - annual_income - 14600));
            [lra|reflexivity]. }
      rewrite (federal_tax_of_invalid (Fin (annual_income - k)) "married" _ Dm).
      2:{ left. rewrite (Hk4 Hsmall). cbn [fsub flt]. unfold Qlt_bool.
          destruct (Qle_bool_spec 0 (annual_income - annual_income - 29200));
            [lra|reflexivity]. }
      auto. }
  destruct Hfed as (fs & fm & Efs & Efm & Hzero).
  destruct (tax_results_totals _ _ _ _ _ _ _ _ _ _ _ Efs Efm Eg Eh Ecs Ecm EF ED)
    as (s & m & E & Efs' & Efm' & _ & _ & _ & _ & EFs & EFm).
  exists k, s, m, F.
  split.
  { unfold comparison_results. rewrite Ek, E. reflexivity. }
  split; [exact Hk1|]. split; [exact Hk2|].
  split; [exact EFs|]. split; [exact EFm|]. split; [exact Hk3|].
  split.
  - intros Hsmall. destruct (Hzero Hsmall) as [-> ->].
    split; [rewrite (Hk4 Hsmall); reflexivity|].
    split; [exact Efs'|]. split; [exact Efm'|].
    revert EF. payroll_unfold. qcases; intros EF; injection EF as <-; lra.
  - destruct (tax_results_ok (Fin annual_income) (Fin capital_gains) (Fin 0))
      as (s0 & m0 & E0 & _).
    eexists. unfold comparison_results. rewrite E0. reflexivity.
Qed.

(** ** Net income and salary in cn_tax.py *)

Lemma cn_personal_total_growth (s1 s2 : Q) :
  s1 <= s2 ->
  exists p1 p2,
    cn_personal_total (Fin s1) = Fin p1 /\ cn_personal_total (Fin s2) = Fin p2 /\
    0 < p1 /\ 0 <= p2 - p1 /\ p2 - p1 <= 0.225 * (s2 - s1).
Proof.
  intros Hs. levy_unfold.
  qcases; eexists _, _; (split; [reflexivity|]); (split; [reflexivity|]);
    repeat split; lra.
Qed.

Lemma cn_top_rate : rates_at_most 0.45 cn_brackets = true.
Proof. reflexivity. Qed.

(** The annual tax of [calculate_tax] as a function of the monthly taxable
    income. *)
Lemma cn_annual_tax_growth (v1 v2 : Q) :
  v1 <= v2 ->
  exists q1 q2,
    (if fgt (Fin v1) (Fin 0) then cn_liability cn_brackets (Fin v1 * Fin 12)%py
     else Fin 0) = Fin q1 /\
    (if fgt (Fin v2) (Fin 0) then cn_liability cn_brackets (Fin v2 * Fin 12)%py
     else Fin 0) = Fin q2 /\
    0 <= q1 /\ 0 <= q2 - q1 /\ q2 - q1 <= 0.45 * (12 * (v2 - v1)).
Proof.
  intros Hv. unfold fgt. cbn [flt fmul]. unfold Qlt_bool.
  destruct (Qle_bool_spec v1 0) as [H1|H1], (Qle_bool_spec v2 0) as [H2|H2];
    cbn [negb]; try lra.
  - exists 0, 0. repeat split; try reflexivity; lra.
  - destruct (liability_growth_rho cn_brackets _ 0.45 0 (v2 * 12) cn_brackets_valid
                cn_top_rate (or_introl eq_refl) ltac:(lra) ltac:(lra))
      as (q0 & q2 & E0 & E2 & G0 & G1 & G2).
    rewrite (liability_zero cn_brackets cn_brackets_valid _ (or_introl eq_refl)) in E0.
    injection E0 as <-.
    exists 0, q2. rewrite E2. repeat split; try reflexivity; lra.
  - destruct (liability_growth_rho cn_brackets _ 0.45 (v1 * 12) (v2 * 12)
                cn_brackets_valid cn_top_rate (or_introl eq_refl) ltac:(lra)
                ltac:(lra)) as (q1 & q2 & E1 & E2 & G0 & G1 & G2).
    exists q1, q2. rewrite E1, E2. repeat split; try reflexivity; lra.
Qed.

Lemma calculate_tax_values (s d1 d2 d3 d4 d5 d6 p q : Q) :
  let d := {| cn_tax.housing_rent := Fin d1;
              cn_tax.housing_loan := Fin d2;
              cn_tax.children_edu := Fin d3;
              cn_tax.continuing_edu := Fin d4;
              cn_tax.elderly_care := Fin d5;
              cn_tax.medical_expense := Fin d6 |} in
  let v := s - 5000 - p - (d1 + d2 + d3 + d4 + d5 + d6) in
  cn_personal_total (Fin s) = Fin p ->
  (if fgt (Fin v) (Fin 0) then cn_liability cn_brackets (Fin v * Fin 12)%py
   else Fin 0) = Fin q ->
  cn_tax.details.taxable_income (cn_tax.calculate_tax (Fin s) d) = Fin v /\
  cn_tax.details.tax (cn_tax.calculate_tax (Fin s) d) = Fin (q / 12) /\
  cn_tax.details.net_income (cn_tax.calculate_tax (Fin s) d) = Fin (s - q / 12 - p).
Proof.
  intros d v Hp Hq.
  assert (Hti : cn_tax.details.taxable_income (cn_tax.calculate_tax (Fin s) d) = Fin v).
  { unfold cn_tax.calculate_tax. cbn [cn_tax.details.taxable_income].
    change (cn_tax.personal.total
              (cn_tax.insurance.personal (cn_tax.calculate_social_insurance (Fin s))))
      with (cn_personal_total (Fin s)).
    rewrite Hp. reflexivity. }
  assert (Htax : cn_tax.details.tax (cn_tax.calculate_tax (Fin s) d) = Fin (q / 12)).
  { rewrite calculate_tax_liability. cbv zeta. rewrite Hti, Hq. reflexivity. }
  split; [exact Hti|]. split; [exact Htax|].
  change (cn_tax.details.net_income (cn_tax.calculate_tax (Fin s) d))
    with (Fin s - cn_tax.details.tax (cn_tax.calculate_tax (Fin s) d)
          - cn_personal_total (Fin s))%py.
  rewrite Htax, Hp. reflexivity.
Qed.

(** X14: in exact arithmetic: in cn_tax.calculate_tax with fixed deductions,
    the tax is never negative and never decreases when the salary grows, and
    a higher monthly salary always gives a higher net income: of every extra
    unit of salary at least 42.625% is kept. *)
Theorem cn_net_income_grows_with_salary (s1 s2 d1 d2 d3 d4 d5 d6 : Q) :
  s1 <= s2 ->
  let d := {| cn_tax.housing_rent := Fin d1;
              cn_tax.housing_loan := Fin d2;
              cn_tax.children_edu := Fin d3;
              cn_tax.continuing_edu := Fin d4;
              cn_tax.elderly_care := Fin d5;
              cn_tax.medical_expense := Fin d6 |} in
  exists t1 t2 n1 n2,
    cn_tax.details.tax (cn_tax.calculate_tax (Fin s1) d) = Fin t1 /\
    cn_tax.details.tax (cn_tax.calculate_tax (Fin s2) d) = Fin t2 /\
    cn_tax.details.net_income (cn_tax.calculate_tax (Fin s1) d) = Fin n1 /\
    cn_tax.details.net_income (cn_tax.calculate_tax (Fin s2) d) = Fin n2 /\
    0 <= t1 /\ t1 <= t2 /\
    0.42625 * (s2 - s1) <= n2 - n1 /\ n2 - n1 <= s2 - s1.
Proof.
  intros Hs d.
  destruct (cn_personal_total_growth s1 s2 Hs) as (p1 & p2 & Ep1 & Ep2 & _ & Gp1 & Gp2).
  destruct (cn_annual_tax_growth
              (s1 - 5000 - p1 - (d1 + d2 + d3 + d4 + d5 + d6))
              (s2 - 5000 - p2 - (d1 + d2 + d3 + d4 + d5 + d6)) ltac:(lra))
    as (q1 & q2 & Eq1 & Eq2 & G0 & G1 & G2).
  destruct (calculate_tax_values s1 d1 d2 d3 d4 d5 d6 p1 q1 Ep1 Eq1) as (_ & Et1 & En1).
  destruct (calculate_tax_values s2 d1 d2 d3 d4 d5 d6 p2 q2 Ep2 Eq2) as (_ & Et2 & En2).
  eexists _, _, _, _.
  split; [exact Et1|]. split; [exact Et2|]. split; [exact En1|]. split; [exact En2|].
  assert (E1 : q1 / 12 == q1 * (1 # 12)) by (unfold Qdiv; reflexivity).
  assert (E2 : q2 / 12 == q2 * (1 # 12)) by (unfold Qdiv; reflexivity).
  rewrite E1, E2. repeat split; lra.
Qed.

(** ** The rent deduction of [main] *)


(** ** The reported insurance rates and the contributions *)

(** X16: cn_tax.calculate_marginal_rates reports the insurance and
    housing-fund rates 10.5% + 12% for every salary up to the maximum base
    31884 and 0 above it.  Between the minimum base 3613 and the maximum
    base the personal contributions are these rates applied to the salary
    itself; at or below the minimum base the same rates are reported
    although the contributions do not depend on the salary: the
    contributions of a salary [s <= 3613] and of any lower salary [s - h]
    are equal, as they are for two salaries from the maximum base on. *)
Theorem cn_insurance_rate_ignores_minimum_base (s h : Q) :
  0 <= h ->
  let r := cn_tax.calculate_marginal_rates (Fin s) in
  let reported := (cn_tax.rates.insurance r + cn_tax.rates.housing_fund r)%py in
  let paid := (cn_personal_total (Fin s) - cn_personal_total (Fin (s - h)))%py in
  (s <= 31884 -> reported =f= Fin 0.225) /\
  (31884 < s -> reported =f= Fin 0) /\
  (3613 <= s -> s <= 31884 ->
   cn_personal_total (Fin s) =f=
     (Fin s * Fin 0.08 + Fin s * Fin 0.02 + Fin s * Fin 0.005 + Fin s * Fin 0.12)%py) /\
  (s <= 3613 -> paid =f= Fin 0) /\
  (31884 <= s - h -> paid =f= Fin 0).
Proof.
  intros Hh r reported paid. subst r reported paid.
  unfold cn_tax.calculate_marginal_rates.
  cbn [cn_tax.rates.insurance cn_tax.rates.housing_fund].
  unfold cn_tax.TaxConstants.HOUSING_FUND_BASE_MAX. levy_unfold.
  repeat split; intros; qcases; lra.
Qed.

(** ** Division by the salary in [print_tax_details] *)

Lemma cn_employer_total_value (s : Q) :
  exists e,
    cn_employer_total (Fin s) = Fin e /\
    (s <= 3613 -> e == 3613 * 0.392) /\ (3613 <= s -> 0 < s + e).
Proof.
  levy_unfold. qcases; eexists; (split; [reflexivity|]); split; intros; lra.
Qed.

Lemma py_div_by_fin (a : pyfloat) (y : Q) :
  (y == 0 -> py_div a (Fin y) = None) /\
  (~ y == 0 -> exists v, py_div a (Fin y) = Some v).
Proof.
  unfold py_div. destruct (Qeq_bool_spec y 0) as [H|H]; split; intros H';
    try contradiction; try reflexivity; eexists; reflexivity.
Qed.

(** X17: the last table of print_tax_details divides by the total cost
    (salary plus employer contributions) and by the monthly salary.  On the
    result of calculate_tax it raises ZeroDivisionError exactly when the
    salary is 0 or equals minus the employer contributions on the minimum
    base, [-(3613 * 0.392)]; for every other salary the four rates are
    computed. *)
Theorem print_tax_details_zero_division (s d1 d2 d3 d4 d5 d6 : Q) :
  let d := {| cn_tax.housing_rent := Fin d1;
              cn_tax.housing_loan := Fin d2;
              cn_tax.children_edu := Fin d3;
              cn_tax.continuing_edu := Fin d4;
              cn_tax.elderly_care := Fin d5;
              cn_tax.medical_expense := Fin d6 |} in
  cn_tax.tax_burden (cn_tax.calculate_tax (Fin s) d) = None <->
  (s == 0 \/ s == - (3613 * 0.392)).
Proof.
  intros d.
  destruct (cn_employer_total_value s) as (e & Ee & Hlow & Hhigh).
  unfold cn_tax.tax_burden.
  change (cn_tax.details.gross_salary (cn_tax.calculate_tax (Fin s) d)) with (Fin s).
  change (cn_tax.employer.total
            (cn_tax.insurance.employer
               (cn_tax.details.insurance (cn_tax.calculate_tax (Fin s) d))))
    with (cn_employer_total (Fin s)).
  rewrite Ee. cbn [fadd].
  set (num := (_ + _ + Fin e)%py).
  set (tax := cn_tax.details.tax _).
  set (prs := cn_tax.personal.total _).
  destruct (py_div_by_fin num (s + e)) as [Z1 N1].
  destruct (py_div_by_fin tax s) as [Z2 N2].
  destruct (py_div_by_fin prs s) as [Z3 N3].
  destruct (py_div_by_fin (Fin e) s) as [Z4 N4].
  assert (Hcost : s + e == 0 <-> s == - (3613 * 0.392)).
  { destruct (Qlt_le_dec 3613 s) as [Hs|Hs].
    - specialize (Hhigh ltac:(lra)). split; intros; lra.
    - specialize (Hlow Hs). split; intros; lra. }
  destruct (Qeq_dec (s + e) 0) as [Hc|Hc].
  - rewrite (Z1 Hc). split; [intros _; right; now apply Hcost|reflexivity].
  - destruct (N1 Hc) as (v1 & ->).
    destruct (Qeq_dec s 0) as [Hs|Hs].
    + rewrite (Z2 Hs). split; [intros _; now left|reflexivity].
    + destruct (N2 Hs) as (v2 & ->). destruct (N3 Hs) as (v3 & ->).
      destruct (N4 Hs) as (v4 & ->).
      split; [discriminate|]. intros [H|H]; [contradiction|].
      apply Hcost in H. contradiction.
Qed.

(** ** Deductions and the tax *)

(** X18: in exact arithmetic: in cn_tax.calculate_tax with a fixed salary,
    raising the total of the special deductions never raises the monthly
    tax, and lowers it by at most 45% of what was added. *)
Theorem cn_deductions_lower_tax (s d1 d2 d3 d4 d5 d6 e1 e2 e3 e4 e5 e6 : Q) :
  d1 + d2 + d3 + d4 + d5 + d6 <= e1 + e2 + e3 + e4 + e5 + e6 ->
  let d := {| cn_tax.housing_rent := Fin d1;
              cn_tax.housing_loan := Fin d2;
              cn_tax.children_edu := Fin d3;
              cn_tax.continuing_edu := Fin d4;
              cn_tax.elderly_care := Fin d5;
              cn_tax.medical_expense := Fin d6 |} in
  let e := {| cn_tax.housing_rent := Fin e1;
              cn_tax.housing_loan := Fin e2;
              cn_tax.children_edu := Fin e3;
              cn_tax.continuing_edu := Fin e4;
              cn_tax.elderly_care := Fin e5;
              cn_tax.medical_expense := Fin e6 |} in
  exists td te,
    cn_tax.details.tax (cn_tax.calculate_tax (Fin s) d) = Fin td /\
    cn_tax.details.tax (cn_tax.calculate_tax (Fin s) e) = Fin te /\
    0 <= te /\ te <= td /\
    td - te <= 0.45 * ((e1 + e2 + e3 + e4 + e5 + e6) - (d1 + d2 + d3 + d4 + d5 + d6)).
Proof.
  intros Hde d e.
  destruct (cn_personal_total_growth s s ltac:(lra)) as (p & _ & Ep & _).
  destruct (cn_annual_tax_growth
              (s - 5000 - p - (e1 + e2 + e3 + e4 + e5 + e6))
              (s - 5000 - p - (d1 + d2 + d3 + d4 + d5 + d6)) ltac:(lra))
    as (qe & qd & Eqe & Eqd & G0 & G1 & G2).
  destruct (calculate_tax_values s d1 d2 d3 d4 d5 d6 p qd Ep Eqd) as (_ & Etd & _).
  destruct (calculate_tax_values s e1 e2 e3 e4 e5 e6 p qe Ep Eqe) as (_ & Ete & _).
  eexists _, _. split; [exact Etd|]. split; [exact Ete|].
  assert (E1 : qd / 12 == qd * (1 # 12)) by (unfold Qdiv; reflexivity).
  assert (E2 : qe / 12 == qe * (1 # 12)) by (unfold Qdiv; reflexivity).
  rewrite E1, E2. repeat split; lra.
Qed.

(** ** The reported rates are numbers in a fixed range *)

Lemma bracket_rate_range (T : list TaxBracket) :
  forall (lo rho : Q) (x : pyfloat),
    valid_from lo T = true -> rates_at_most rho T = true ->
    exists r, bracket_rate T x = Fin r /\ 0 <= r /\ r <= rho.
Proof.
  induction T as [|b rest IH]; intros lo rho x HT HR; [discriminate|].
  destruct (valid_from_inv _ _ _ HT) as (l & r & _ & Hr & _ & Hr0 & _ & Hup).
  destruct (rates_at_most_cons _ _ _ _ HR Hr) as [Hrho HR'].
  cbn [bracket_rate].
  destruct (fle (lower b) x && fle x (upper b)).
  - exists r. auto.
  - destruct Hup as [[_ ->]|(hi & _ & _ & _ & Hrest)].
    + exists 0. repeat split; try reflexivity; lra.
    + apply (IH hi); auto.
Qed.

(** X19: for every float income, NaN and the infinities included, and both
    filing statuses, us_tax.calculate_marginal_rates returns a total rate
    that is a number between 1.45% and 57.85%; for every float salary the
    total rate of cn_tax.calculate_marginal_rates is a number between 0 and
    67.5%. *)
Theorem marginal_rates_in_range (x : pyfloat) (status : string) :
  known_status status ->
  (exists r t,
     calculate_marginal_rates x status = Ok r /\
     rates.total r = Fin t /\ 0.0145 <= t /\ t <= 0.5785) /\
  (exists t,
     cn_tax.rates.total (cn_tax.calculate_marginal_rates x) = Fin t /\
     0 <= t /\ t <= 0.675).
Proof.
  intros Hs. split.
  - assert (Htab : exists fb cab,
              dict_get TaxConstants.FEDERAL_BRACKETS status = Ok fb /\
              dict_get TaxConstants.CA_BRACKETS status = Ok cab /\
              valid_table fb = true /\ valid_table cab = true /\
              rates_at_most 0.37 fb = true /\ rates_at_most 0.123 cab = true).
    { destruct Hs as [->| ->]; eexists _, _; repeat split; reflexivity. }
    destruct Htab as (fb & cab & Efb & Ecab & Vf & Vc & Rf & Rc).
    destruct (bracket_rate_range fb 0 0.37 x Vf Rf) as (rf & Erf & Hf0 & Hf1).
    destruct (bracket_rate_range cab 0 0.123 x Vc Rc) as (rc & Erc & Hc0 & Hc1).
    unfold calculate_marginal_rates. rewrite Efb. run_bind. rewrite Ecab. run_bind.
    match goal with |- exists r t, mret ?R = Ok r /\ _ => exists R end.
    cbn [rates.total]. rewrite Erf, Erc.
    unfold TaxConstants.SS_LIMIT, TaxConstants.MEDICARE_THRESHOLD, TaxConstants.SDI_LIMIT.
    destruct x as [q| | |]; qcases; eexists; (split; [reflexivity|]);
      (split; [reflexivity|]); lra.
  - destruct (bracket_rate_range cn_brackets 0 0.45 (x * Fin 12)%py cn_brackets_valid
                cn_top_rate) as (rt & Ert & Ht0 & Ht1).
    unfold cn_tax.calculate_marginal_rates. cbn [cn_tax.rates.total].
    rewrite <- cn_brackets_tuples, cn_rate_us_rate, Ert.
    unfold cn_tax.TaxConstants.HOUSING_FUND_BASE_MAX. levy_unfold.
    destruct x as [q| | |]; qcases; eexists; (split; [reflexivity|]); lra.
Qed.

(** ** Instances of the further properties *)

(** Closed comparisons between rational literals. *)
Ltac qclosed := first [reflexivity | apply Qle_bool_imp_le; reflexivity].

Lemma liability_growth_bounded_by_top_rate_witness :
  valid_table federal_single = true /\ rates_at_most 0.37 federal_single = true /\
  0 <= 11600 /\ 11600 <= 50000 /\
  exists qx qy,
    us_liability federal_single (Fin 11600) = Fin qx /\
    us_liability federal_single (Fin 50000) = Fin qy /\
    0 <= qy - qx /\ qy - qx <= 0.37 * (50000 - 11600).
Proof.
  assert (H0 : 0 <= 11600) by qclosed.
  assert (H1 : 11600 <= 50000) by qclosed.
  split; [reflexivity|]. split; [reflexivity|]. split; [exact H0|]. split; [exact H1|].
  exact (liability_growth_bounded_by_top_rate federal_single
           (us_liability federal_single) 0.37 11600 50000 eq_refl eq_refl
           (or_intror eq_refl) H0 H1).
Defined.

Lemma higher_thresholds_lower_liability_witness :
  valid_table federal_single = true /\ valid_table federal_married = true /\
  shifted_up federal_single federal_married = true /\ 0 <= 100000 /\
  fle (cn_liability federal_married (Fin 100000))
      (cn_liability federal_single (Fin 100000)) = true /\
  fle (us_liability federal_married (Fin 100000))
      (us_liability federal_single (Fin 100000)) = true.
Proof.
  assert (H0 : 0 <= 100000) by qclosed.
  split; [reflexivity|]. split; [reflexivity|]. split; [reflexivity|].
  split; [exact H0|].
  exact (higher_thresholds_lower_liability federal_single federal_married 100000
           eq_refl eq_refl eq_refl H0).
Defined.

Lemma bracket_rate_is_left_slope_witness :
  let pre := take 1 federal_single in
  let bk := Build_TaxBracket (Fin 11600) (Fin 47150) (Fin 0.12) in
  let post := drop 2 federal_single in
  let T := pre ++ bk :: post in
  valid_table T = true /\ 11600 < 30000 /\ fle (Fin 30000) (upper bk) = true /\
  0 <= 1000 /\ 11600 <= 30000 - 1000 /\
  bracket_rate T (Fin 30000) = rate bk /\
  cn_tax.bracket_rate (map as_tuple T) (Fin 30000) = rate bk /\
  (us_liability T (Fin 30000) - us_liability T (Fin (30000 - 1000)))%py
    =f= (rate bk * Fin 1000)%py.
Proof.
  intros pre bk post T.
  assert (H0 : 11600 < 30000) by qclosed.
  assert (H1 : 0 <= 1000) by qclosed.
  assert (H2 : 11600 <= 30000 - 1000) by qclosed.
  split; [reflexivity|]. split; [exact H0|]. split; [reflexivity|].
  split; [exact H1|]. split; [exact H2|].
  exact (bracket_rate_is_left_slope pre bk post (us_liability T) 11600 30000 1000
           eq_refl (or_intror eq_refl) eq_refl H0 eq_refl H1 H2).
Defined.

Lemma capital_gains_rate_by_total_income_witness :
  -100000 + 50000 < 0 /\
  calculate_capital_gains_tax (Fin 50000) (Fin (-100000)) "single"
    = Ok (Fin (50000 * 0.20)) /\
  calculate_capital_gains_tax (Fin 50000) (Fin (-100000)) "married"
    = Ok (Fin (50000 * 0.20)).
Proof.
  assert (H0 : -100000 + 50000 < 0) by qclosed.
  split; [exact H0|].
  destruct (capital_gains_rate_by_total_income 50000 (-100000)) as (Hneg & _).
  exact (Hneg H0).
Defined.

Lemma fica_total_growth_witness :
  150000 <= 250000 /\
  exists tx ty,
    fica.total (calculate_fica_taxes (Fin 150000)) = Fin tx /\
    fica.total (calculate_fica_taxes (Fin 250000)) = Fin ty /\
    0.0145 * (250000 - 150000) <= ty - tx /\ ty - tx <= 0.0765 * (250000 - 150000).
Proof.
  assert (H0 : 150000 <= 250000) by qclosed.
  split; [exact H0|]. exact (fica_total_growth 150000 250000 H0).
Defined.

Lemma payroll_rates_are_left_slopes_witness :
  known_status "single" /\ 0 <= 1000 /\
  exists r,
    calculate_marginal_rates (Fin 168600) "single" = Ok r /\
    (fica.total (calculate_fica_taxes (Fin 168600))
     - fica.total (calculate_fica_taxes (Fin (168600 - 1000))))%py
      =f= (rates.fica r * Fin 1000)%py.
Proof.
  assert (Hs : known_status "single") by (left; reflexivity).
  assert (H0 : 0 <= 1000) by qclosed.
  split; [exact Hs|]. split; [exact H0|].
  destruct (payroll_rates_are_left_slopes 168600 1000 "single" Hs H0)
    as (r & Er & Hfica & _).
  exists r. split; [exact Er|].
  apply Hfica; left; qclosed.
Defined.

Lemma unknown_status_raises_key_error_witness :
  ~ known_status "head" /\
  calculate_ca_state_tax (Fin 50000) (Fin 0) "head" = Raise (KeyError "head") /\
  calculate_marginal_rates (Fin 50000) "head" = Raise (KeyError "head").
Proof.
  assert (Hs : ~ known_status "head") by (intros [H|H]; discriminate H).
  split; [exact Hs|].
  destruct (unknown_status_raises_key_error "head" (Fin 50000) (Fin 0) Hs)
    as (_ & Hca & _ & Hm).
  split; [exact Hca|exact Hm].
Defined.

Lemma federal_rate_reported_before_deduction_witness :
  exists r t1 t2,
    calculate_marginal_rates (Fin 50000) "single" = Ok r /\
    rates.federal r = Fin 0.22 /\
    calculate_federal_tax (Fin (50000 - 100)) "single" = Ok (Fin t1) /\
    calculate_federal_tax (Fin 50000) "single" = Ok (Fin t2) /\
    t2 - t1 == 0.12 * 100.
Proof.
  destruct (federal_rate_reported_before_deduction "single" 14600
              (take 1 federal_single)
              (Build_TaxBracket (Fin 11600) (Fin 47150) (Fin 0.12))
              (drop 2 federal_single) 11600 50000 100
              eq_refl eq_refl eq_refl ltac:(qclosed) eq_refl ltac:(qclosed)
              ltac:(qclosed))
    as (r & t1 & t2 & rho & Er & Ef & E1 & E2 & Erho & Hslope).
  exists r, t1, t2.
  split; [exact Er|]. split; [rewrite Ef; reflexivity|].
  split; [exact E1|]. split; [exact E2|].
  injection Erho as <-. exact Hslope.
Defined.

Lemma married_result_not_worse_witness :
  0 <= 5000 /\
  exists results s m ts tm ns nm,
    calculate_tax_results (Fin 100000) (Fin 5000) (Fin 23000) = Ok results /\
    results !! "single"%string = Some s /\ results !! "married"%string = Some m /\
    total_tax s = Fin ts /\ total_tax m = Fin tm /\ tm <= ts /\
    net_income s = Fin ns /\ net_income m = Fin nm /\ ns <= nm.
Proof.
  assert (H0 : 0 <= 5000) by qclosed.
  split; [exact H0|]. exact (married_result_not_worse 100000 5000 23000 H0).
Defined.

Lemma net_income_grows_with_wages_witness :
  100000 <= 101000 /\
  exists s1 m1 s2 m2 ns1 ns2 nm1 nm2,
    calculate_tax_results (Fin 100000) (Fin 0) (Fin 23000) =
      Ok (<["married"%string := m1]> (<["single"%string := s1]> ∅)) /\
    calculate_tax_results (Fin 101000) (Fin 0) (Fin 23000) =
      Ok (<["married"%string := m2]> (<["single"%string := s2]> ∅)) /\
    net_income s1 = Fin ns1 /\ net_income s2 = Fin ns2 /\
    net_income m1 = Fin nm1 /\ net_income m2 = Fin nm2 /\
    0.4215 * (101000 - 100000) <= ns2 - ns1 /\
    ns2 - ns1 <= 0.9855 * (101000 - 100000) /\
    0.4215 * (101000 - 100000) <= nm2 - nm1 /\
    nm2 - nm1 <= 0.9855 * (101000 - 100000).
Proof.
  assert (H0 : 100000 <= 101000) by qclosed.
  split; [exact H0|]. exact (net_income_grows_with_wages 100000 101000 23000 H0).
Defined.

Lemma maximized_401k_shelters_income_witness :
  20000 <= 23000 /\
  exists k s m F,
    comparison_results (Fin 20000) (Fin 0) true =
      Ok (Fin k, Fin (20000 + 0),
          <["married"%string := m]> (<["single"%string := s]> ∅)) /\
    k == 20000 /\ federal_tax s = Fin 0 /\ federal_tax m = Fin 0 /\
    fica.total (fica_taxes s) = Fin F /\ F == 0.062 * 20000 + 0.0145 * 20000.
Proof.
  assert (H0 : 20000 <= 23000) by qclosed.
  split; [exact H0|].
  destruct (maximized_401k_shelters_income 20000 0)
    as (k & s & m & F & E & _ & _ & EF & _ & _ & Hsmall & _).
  destruct (Hsmall H0) as (Hk & Hs & Hm & HF).
  exists k, s, m, F. repeat split; assumption.
Defined.

Lemma cn_net_income_grows_with_salary_witness :
  20000 <= 21000 /\
  exists t1 t2 n1 n2,
    cn_tax.details.tax (cn_tax.calculate_tax (Fin 20000) no_deductions) = Fin t1 /\
    cn_tax.details.tax (cn_tax.calculate_tax (Fin 21000) no_deductions) = Fin t2 /\
    cn_tax.details.net_income (cn_tax.calculate_tax (Fin 20000) no_deductions) = Fin n1 /\
    cn_tax.details.net_income (cn_tax.calculate_tax (Fin 21000) no_deductions) = Fin n2 /\
    0 <= t1 /\ t1 <= t2 /\
    0.42625 * (21000 - 20000) <= n2 - n1 /\ n2 - n1 <= 21000 - 20000.
Proof.
  assert (H0 : 20000 <= 21000) by qclosed.
  split; [exact H0|].
  exact (cn_net_income_grows_with_salary 20000 21000 0 0 0 0 0 0 H0).
Defined.


Lemma cn_insurance_rate_ignores_minimum_base_witness :
  0 <= 500 /\ 3000 <= 3613 /\
  (cn_tax.rates.insurance (cn_tax.calculate_marginal_rates (Fin 3000))
   + cn_tax.rates.housing_fund (cn_tax.calculate_marginal_rates (Fin 3000)))%py
    =f= Fin 0.225 /\
  (cn_personal_total (Fin 3000) - cn_personal_total (Fin (3000 - 500)))%py =f= Fin 0.
Proof.
  assert (H0 : 0 <= 500) by qclosed.
  assert (H1 : 3000 <= 3613) by qclosed.
  assert (H2 : 3000 <= 31884) by qclosed.
  split; [exact H0|]. split; [exact H1|].
  destruct (cn_insurance_rate_ignores_minimum_base 3000 500 H0)
    as (Hrep & _ & _ & Hlow & _).
  split; [exact (Hrep H2)|exact (Hlow H1)].
Defined.

Lemma print_tax_details_zero_division_witness :
  0 == 0 /\ cn_tax.tax_burden (cn_tax.calculate_tax (Fin 0) no_deductions) = None.
Proof.
  assert (H0 : 0 == 0) by reflexivity.
  split; [exact H0|].
  apply (proj2 (print_tax_details_zero_division 0 0 0 0 0 0 0)). left. exact H0.
Defined.

Lemma cn_deductions_lower_tax_witness :
  0 + 0 + 0 + 0 + 0 + 0 <= 1500 + 1000 + 0 + 0 + 0 + 0 /\
  exists td te,
    cn_tax.details.tax (cn_tax.calculate_tax (Fin 20000) no_deductions) = Fin td /\
    cn_tax.details.tax
      (cn_tax.calculate_tax (Fin 20000)
         {| cn_tax.housing_rent := Fin 1500;
            cn_tax.housing_loan := Fin 1000;
            cn_tax.children_edu := Fin 0;
            cn_tax.continuing_edu := Fin 0;
            cn_tax.elderly_care := Fin 0;
            cn_tax.medical_expense := Fin 0 |}) = Fin te /\
    0 <= te /\ te <= td /\
    td - te <= 0.45 * ((1500 + 1000 + 0 + 0 + 0 + 0) - (0 + 0 + 0 + 0 + 0 + 0)).
Proof.
  assert (H0 : 0 + 0 + 0 + 0 + 0 + 0 <= 1500 + 1000 + 0 + 0 + 0 + 0) by qclosed.
  split; [exact H0|].
  exact (cn_deductions_lower_tax 20000 0 0 0 0 0 0 1500 1000 0 0 0 0 H0).
Defined.

Lemma marginal_rates_in_range_witness :
  known_status "married" /\
  (exists r t,
     calculate_marginal_rates NaN "married" = Ok r /\
     rates.total r = Fin t /\ 0.0145 <= t /\ t <= 0.5785) /\
  (exists t,
     cn_tax.rates.total (cn_tax.calculate_marginal_rates NaN) = Fin t /\
     0 <= t /\ t <= 0.675).
Proof.
  assert (Hs : known_status "married") by (right; reflexivity).
  split; [exact Hs|]. exact (marginal_rates_in_range NaN "married" Hs).
Defined.

(** ** Division by the total income in [print_comparison_tables] *)

(** X20: every share that print_comparison_tables prints is a division by
    the total income [annual_income + capital_gains]: on the results of
    calculate_tax_results it raises ZeroDivisionError exactly when the
    total income is 0, as for the inputs 0 and 0, and computes all the
    shares otherwise. *)
Theorem print_comparison_tables_zero_division (annual_income capital_gains : Q)
    (maximize_401k : bool) :
  exists k s m,
    comparison_results (Fin annual_income) (Fin capital_gains) maximize_401k =
      Ok (k, Fin (annual_income + capital_gains),
          <["married"%string := m]> (<["single"%string := s]> ∅)) /\
    (comparison_shares (Fin (annual_income + capital_gains)) s m = None <->
     annual_income + capital_gains == 0).
Proof.
  unfold comparison_results.
  destruct (tax_results_ok (Fin annual_income) (Fin capital_gains)
              (if maximize_401k then py_min (Fin annual_income) TaxConstants.MAX_401K
               else Fin 0)) as (s & m & E & _).
  rewrite E. run_bind. eexists _, s, m. split; [reflexivity|].
  unfold comparison_shares, py_div.
  destruct (Qeq_bool_spec (annual_income + capital_gains) 0) as [H|H].
  - split; [intros _; exact H|reflexivity].
  - split; [discriminate|]. intros H'. contradiction.
Qed.

Lemma print_comparison_tables_zero_division_witness :
  exists k s m,
    comparison_results (Fin 0) (Fin 0) true =
      Ok (k, Fin (0 + 0), <["married"%string := m]> (<["single"%string := s]> ∅)) /\
    comparison_shares (Fin (0 + 0)) s m = None.
Proof.
  destruct (print_comparison_tables_zero_division 0 0 true) as (k & s & m & E & H).
  exists k, s, m. split; [exact E|]. apply (proj2 H). reflexivity.
Defined.

(** ** What the rounding of binary64 does to the statements on exact amounts

    The statements above about sums, differences and products hold in exact
    arithmetic.  The running program computes on binary64, and leaves them
    in the last places of a result and, for very large amounts, by
    overflow.  The evaluations below show it on the functions themselves. *)

(** Inside a bracket, or below a limit, the taxes of two incomes one unit
    apart differ by a rounded value, not by the rate: federal tax, FICA
    total, SDI, and the personal contributions of cn_tax. *)
Example binary64_slopes_are_rounded :
  binary64.us_tax.calculate_federal_tax 50000 "single" = Ok 4016%float /\
  binary64.us_tax.calculate_federal_tax 49999 "single" = Ok 4015.8800000000001%float /\
  (4016 - 4015.8800000000001)%float = 0.11999999999989086%float /\
  (binary64.us_tax.fica.total (binary64.us_tax.calculate_fica_taxes 50000)
   - binary64.us_tax.fica.total (binary64.us_tax.calculate_fica_taxes 49999))%float
    = 0.076500000000123691%float /\
  (binary64.us_tax.calculate_ca_sdi 50000
   - binary64.us_tax.calculate_ca_sdi 49999)%float = 0.0089999999999577085%float /\
  (binary64.cn_personal_total 20000 - binary64.cn_personal_total 19999)%float
    = 0.2250000000003638%float.
Proof. repeat split; vm_compute; reflexivity. Qed.

(** For an income near 1.6e21 the federal tax of the married status is
    above that of the single status, and so is the total tax, while the net
    income is below; for an income near 5.9e20 the California tax of the
    married status is above that of the single status. *)
Example binary64_married_tax_above_single :
  binary64.us_tax.calculate_federal_tax 1.5963052084282138e21 "single"
    = Ok 5.9063292711843909e+20%float /\
  binary64.us_tax.calculate_federal_tax 1.5963052084282138e21 "married"
    = Ok 5.9063292711843922e+20%float /\
  binary64.us_tax.calculate_ca_state_tax 5.9038520291475692e20 0 "single"
    = Ok 7.2617379958515081e+19%float /\
  binary64.us_tax.calculate_ca_state_tax 5.9038520291475692e20 0 "married"
    = Ok 7.2617379958515098e+19%float /\
  (let x := 1.5963052084282138e21%float in
   exists s m,
     binary64.us_tax.tax_result_for x 0 0 (x - 0) "single" = Ok s /\
     binary64.us_tax.tax_result_for x 0 0 (x - 0) "married" = Ok m /\
     (binary64.us_tax.total_tax s <? binary64.us_tax.total_tax m)%float = true /\
     (binary64.us_tax.net_income m <? binary64.us_tax.net_income s)%float = true).
Proof.
  repeat split; try (vm_compute; reflexivity).
  eexists _, _. split; [vm_compute; reflexivity|].
  repeat split; vm_compute; reflexivity.
Qed.

(** Between two adjacent floats the net income of a single filer and the
    net income of cn_tax decrease, and the FICA total does not change; a
    salary of 1e308 makes the tax of cn_tax overflow. *)
Example binary64_net_income_not_increasing :
  (let x := 126692.57492951269%float in
   exists s1 s2,
     binary64.us_tax.tax_result_for x 0 0 (x - 0) "single" = Ok s1 /\
     binary64.us_tax.tax_result_for (next_up x) 0 0 (next_up x - 0) "single" = Ok s2 /\
     binary64.us_tax.net_income s1 = 87979.141321511634%float /\
     binary64.us_tax.net_income s2 = 87979.141321511619%float) /\
  binary64.cn_tax.details.net_income
    (binary64.cn_tax.calculate_tax 18242.95 binary64.no_deductions)
    = 13434.457625000003%float /\
  binary64.cn_tax.details.net_income
    (binary64.cn_tax.calculate_tax (next_up 18242.95) binary64.no_deductions)
    = 13434.457625000001%float /\
  binary64.us_tax.fica.total (binary64.us_tax.calculate_fica_taxes 1000.37)
    = binary64.us_tax.fica.total
        (binary64.us_tax.calculate_fica_taxes (next_up 1000.37)) /\
  binary64.cn_tax.details.tax
    (binary64.cn_tax.calculate_tax 1e308 binary64.no_deductions) = infinity /\
  binary64.cn_tax.details.net_income
    (binary64.cn_tax.calculate_tax 1e308 binary64.no_deductions) = neg_infinity.
Proof.
  repeat split; try (vm_compute; reflexivity).
  eexists _, _.
  split; [vm_compute; reflexivity|]. split; [vm_compute; reflexivity|].
  split; vm_compute; reflexivity.
Qed.
